(** * Credential resolution and spreadsheet wrappers

    A shallow embedding of [google_sheets_integration.py], [sheets_helper.py]
    and of the credential and transport layer of
    [reference-files/linear_API/create_linear_issue.py].

    Python [str] values are modelled by [string]; a character is a code
    point below 256, and [is_space] and [py_lower] follow [str.isspace]
    and [str.lower] on that range.  Effects (environment reads, spawned
    processes, file and network access, printing) are recorded in an event
    log threaded through a small exception monad. *)

From Stdlib Require Import ZArith Ascii String List Lia Bool.
From stdpp Require Import base option list strings pretty gmap.

Set Warnings "-register-all,-clear-no-such-hyp".

Open Scope string_scope.
Open Scope list_scope.

(** ** Python strings *)

Module Str.

(** [str.isspace] on a single code point below 256: TAB..CR, FS..US,
    SPACE, NEL (0x85) and NBSP (0xA0). *)
Definition is_space (c : ascii) : bool :=
  let n := nat_of_ascii c in
  (Nat.leb 9 n && Nat.leb n 13) || (Nat.leb 28 n && Nat.leb n 32)
  || Nat.eqb n 133 || Nat.eqb n 160.

(** [str.lower] on a single code point below 256: A..Z and the Latin-1
    capitals 0xC0..0xDE (0xD7, the multiplication sign, apart). *)
Definition lower_char (c : ascii) : ascii :=
  let n := nat_of_ascii c in
  if (Nat.leb 65 n && Nat.leb n 90)
     || (Nat.leb 192 n && Nat.leb n 222 && negb (Nat.eqb n 215))
  then ascii_of_nat (n + 32) else c.

Fixpoint py_lower (s : string) : string :=
  match s with
  | EmptyString => EmptyString
  | String c s' => String (lower_char c) (py_lower s')
  end.

Fixpoint lstrip_chars (l : list ascii) : list ascii :=
  match l with
  | [] => []
  | c :: l' => if is_space c then lstrip_chars l' else l
  end.

Definition rstrip_chars (l : list ascii) : list ascii :=
  rev (lstrip_chars (rev l)).

(** [s.strip()] *)
Definition py_strip (s : string) : string :=
  string_of_list_ascii (rstrip_chars (lstrip_chars (list_ascii_of_string s))).

(** [s.split(sep)] for a one-character separator: never returns the
    empty list, and [''.split(',')] is [['']]. *)
Fixpoint py_split (sep : ascii) (s : string) : list string :=
  match s with
  | EmptyString => [EmptyString]
  | String c s' =>
      if Ascii.eqb c sep then EmptyString :: py_split sep s'
      else match py_split sep s' with
           | [] => [String c EmptyString]
           | h :: t => String c h :: t
           end
  end.

(** [sep.join(items)] *)
Fixpoint py_join (sep : string) (items : list string) : string :=
  match items with
  | [] => EmptyString
  | [x] => x
  | x :: rest => x ++ sep ++ py_join sep rest
  end.

(** A character list is left-stripped when it does not start with a space. *)
Definition headed (l : list ascii) : Prop :=
  match l with [] => True | c :: _ => is_space c = false end.

(** [c in s] for a character [c]. *)
Fixpoint has_char (c : ascii) (s : string) : bool :=
  match s with
  | EmptyString => false
  | String d s' => Ascii.eqb d c || has_char c s'
  end.

(** [s.startswith(p)] *)
Definition startswith (s p : string) : bool := String.prefix p s.

(** Truth value of a [str]: only the empty string is falsy. *)
Definition nonempty (s : string) : bool :=
  match s with EmptyString => false | String _ _ => true end.

End Str.

Import Str.

(** Truth value of an [Optional[str]]: [None] and [''] are falsy. *)
Definition truthy (v : option string) : bool :=
  match v with None => false | Some s => nonempty s end.

(** The list comprehension of [get_service_account_credentials] and
    [get_api_key]:
    [[item.strip().lower() for item in source_env.split(",") if item.strip()]] *)
Definition parse_sources (source_env : string) : list string :=
  map (fun item => py_lower (py_strip item))
      (filter (fun item => nonempty (py_strip item) = true)
              (py_split "," source_env)).

(** [if source_env: ... else: default] *)
Definition preferred_sources_of (source_env : option string)
    (default : list string) : list string :=
  if truthy source_env then
    match source_env with Some s => parse_sources s | None => default end
  else default.

Definition SHEETS_DEFAULT_SOURCES : list string :=
  ["json"; "env"; "keychain"; "1password"].

Definition LINEAR_DEFAULT_SOURCES : list string :=
  ["env"; "keychain"; "1password"].


(** ** Python values, exceptions and the event log *)

(** Values of a caller-supplied specification object and of a decoded
    JSON document.  [PFloat m e] is the finite [float] of value
    [m * 2 ^ e]. *)
Inductive pyval : Type :=
  | PNone
  | PBool (b : bool)
  | PInt (n : Z)
  | PFloat (mantissa exponent : Z)
  | PStr (s : string)
  | PList (items : list pyval)
  | PDict (entries : list (string * pyval)).

(** Truth value of a Python value. *)
Definition py_truthy (v : pyval) : bool :=
  match v with
  | PNone => false
  | PBool b => b
  | PInt n => negb (n =? 0)%Z
  | PFloat m _ => negb (m =? 0)%Z
  | PStr s => nonempty s
  | PList items => negb (bool_decide (items = []))
  | PDict entries => negb (bool_decide (entries = []))
  end.

(** [type(v).__name__] *)
Definition type_name (v : pyval) : string :=
  match v with
  | PNone => "NoneType"
  | PBool _ => "bool"
  | PInt _ => "int"
  | PFloat _ _ => "float"
  | PStr _ => "str"
  | PList _ => "list"
  | PDict _ => "dict"
  end.

(** Exceptions of class [Exception]; [str_of_error] is [str(e)].
    [OtherError] stands for every class the code never names
    ([ValueError], [KeyError], [ConnectionError], ...). *)
Inductive error : Type :=
  | HttpError (status : Z) (text : string)
  | GoogleSheetsAuthError (text : string)
  | FileNotFoundError (text : string)
  | CalledProcessError (text : string)
  | JSONDecodeError (text : string)
  | OtherError (text : string).

Definition str_of_error (e : error) : string :=
  match e with
  | HttpError _ t | GoogleSheetsAuthError t | FileNotFoundError t
  | CalledProcessError t | JSONDecodeError t | OtherError t => t
  end.

(** What a call can raise: an [Exception], or the [SystemExit] of
    [sys.exit(code)], which [except Exception] does not catch. *)
Inductive exn : Type :=
  | Exc (e : error)
  | SystemExit (code : Z).

(** A GraphQL request body: [{"query": ..., "variables": ...}]. *)
Record payload : Type := Payload {
  payload_query : string;
  payload_variables : option pyval
}.

(** Calls of the spreadsheet client, [service.spreadsheets()...execute()]. *)
Inductive request : Type :=
  | ValuesGet (spreadsheetId range : string)
  | ValuesAppend (spreadsheetId range : string) (values : pyval)
  | ValuesUpdate (spreadsheetId range : string) (values : pyval).

(** What a run leaves in the log, in order: a variable read, a call
    [retriever()] of the source under a key, a command line run, a
    string given to [json.loads], a document or a path given to the
    Google library, the construction of the service, a request sent to
    the vendor, a POST to the tracker, a printed line. *)
Inductive event : Type :=
  | EvGetenv (name : string)
  | EvCall (source : string)
  | EvRun (argv : list string)
  | EvJsonLoads (s : string)
  | EvFromInfo (info : pyval)
  | EvFromFile (path : string)
  | EvBuild
  | EvExecute (req : request)
  | EvPost (url authorization : string) (body : payload)
  | EvPrint (line : string).

Inductive outcome (A : Type) : Type :=
  | Ret (a : A)
  | Raise (e : exn).
Arguments Ret {A} a.
Arguments Raise {A} e.

(** A computation extends the event log and returns or raises. *)
Definition M (A : Type) : Type := list event -> outcome A * list event.

Definition ret {A} (a : A) : M A := fun l => (Ret a, l).

Definition bind {A B} (m : M A) (k : A -> M B) : M B :=
  fun l => match m l with
           | (Ret a, l') => k a l'
           | (Raise e, l') => (Raise e, l')
           end.

Definition raise {A} (e : exn) : M A := fun l => (Raise e, l).

Definition emit (ev : event) : M unit := fun l => (Ret tt, l ++ [ev]).

(** [try: m  except Exception as e: handler e]; a handler for a narrower
    class re-raises the exceptions it does not name. *)
Definition try_except {A} (m : M A) (handler : error -> M A) : M A :=
  fun l => match m l with
           | (Raise (Exc e), l') => handler e l'
           | r => r
           end.

Notation "x <- m ;; k" := (bind m (fun x => k))
  (at level 100, m at next level, right associativity, only parsing).
Notation "m ;;; k" := (bind m (fun _ => k))
  (at level 100, right associativity, only parsing).

Definition print (line : string) : M unit := emit (EvPrint line).

(** [sys.exit(code)] *)
Definition sys_exit {A} (code : Z) : M A := raise (SystemExit code).

(** ** The world outside the program *)

(** [subprocess.run(argv, capture_output=True, text=True, check=True)]:
    the process ran and exited with status 0, the binary is missing
    ([FileNotFoundError]), the exit status is not 0
    ([CalledProcessError]), or the call raises an exception of another
    class: [PermissionError] for a binary that may not be executed,
    another [OSError], [UnicodeDecodeError] for output that is not
    text. *)
Inductive proc_outcome : Type :=
  | Completed (stdout : string)
  | NoSuchBinary (text : string)
  | NonZeroExit (text : string)
  | ProcRaised (text : string).

Definition grid : Type := list (list string).

(** The fields the wrappers read from an update or append response. *)
Record update_info : Type := UpdateInfo {
  updatedRange : option string;
  updatedRows : option Z;
  updatedCells : option Z
}.

Inductive reply (A : Type) : Type :=
  | Ok (a : A)
  | Fails (e : error).
Arguments Ok {A} a.
Arguments Fails {A} e.

Record http_response : Type := HttpResponse {
  status_code : Z;
  response_text : string;
  response_json : reply pyval
}.

(** What the program finds around it.  The fields answer the same
    way however often they are asked.
    - [os_environ]: the environment, [os.getenv];
    - [getpass_getuser]: [getpass.getuser()];
    - [subprocess]: the outcome of running a command line;
    - [json_decode]: [json.loads], [None] for [JSONDecodeError];
    - [json_dumps]: [json.dumps(v, indent=2)];
    - [py_str]: [str(v)] for a value that is not a string;
    - [info_rejected]: the [ValueError] text with which the Google
      library refuses a service-account document, if it does;
    - [files]: the readable files, by path, with their content;
    - [unreadable]: for a path that is not a readable file, the text of
      the [OSError] of opening it when it exists all the same (a
      directory gives [IsADirectoryError], a file of another user
      [PermissionError]); [None] for a path that does not exist;
    - [file_rejected]: the error text with which the library refuses
      the content of a service-account file, if it does;
    - [build_fails]: the exception of [build("sheets", "v4", ...)], if any;
    - [values_get], [values_append], [values_update]: the vendor's
      answer to [spreadsheets().values().get/append/update(...)], by
      spreadsheet id, range and body;
    - [http_post]: the answer to [requests.post(url, json=..., headers=...)],
      by URL, [Authorization] header and body. *)
Record World : Type := {
  os_environ : gmap string string;
  getpass_getuser : string;
  subprocess : list string -> proc_outcome;
  json_decode : string -> option pyval;
  json_dumps : pyval -> string;
  py_str : pyval -> string;
  info_rejected : pyval -> option string;
  files : gmap string string;
  unreadable : string -> option string;
  file_rejected : string -> option string;
  build_fails : option error;
  values_get : string -> string -> reply (option grid);
  values_append : string -> string -> pyval -> reply (option update_info);
  values_update : string -> string -> pyval -> reply update_info;
  http_post : string -> string -> payload -> reply http_response
}.

(** [os.getenv(name)] *)
Definition os_getenv (w : World) (name : string) : M (option string) :=
  emit (EvGetenv name) ;;; ret (os_environ w !! name).

(** [os.getenv(name, fallback)] *)
Definition os_getenv_or (w : World) (name fallback : string) : M string :=
  v <- os_getenv w name ;; ret (default fallback v).

Definition subprocess_run (w : World) (argv : list string) : M string :=
  emit (EvRun argv) ;;;
  match subprocess w argv with
  | Completed stdout => ret stdout
  | NoSuchBinary t => raise (Exc (FileNotFoundError t))
  | NonZeroExit t => raise (Exc (CalledProcessError t))
  | ProcRaised t => raise (Exc (OtherError t))
  end.

(** [except (FileNotFoundError, subprocess.CalledProcessError): return None] *)
Definition lookup_failed_to_none (e : error) : M (option string) :=
  match e with
  | FileNotFoundError _ | CalledProcessError _ => ret None
  | _ => raise (Exc e)
  end.

(** [output = result.stdout.strip(); return output or None] *)
Definition stripped_or_none (stdout : string) : option string :=
  let output := py_strip stdout in
  if nonempty output then Some output else None.

(** [return value.strip() if value else None] *)
Definition strip_if_set (value : option string) : option string :=
  if truthy value then option_map py_strip value else None.

(** ** Credential sources of the spreadsheet client *)

Module Sheets.

Definition SCOPES : list string :=
  ["https://www.googleapis.com/auth/spreadsheets"].

Definition _from_env (w : World) : M (option string) :=
  value <- os_getenv w "GOOGLE_SHEETS_SERVICE_ACCOUNT" ;;
  ret (strip_if_set value).

Definition _from_keychain (w : World) : M (option string) :=
  let service := "Google Sheets Service Account" in
  account <- os_getenv_or w "USER" "default" ;;
  try_except
    (stdout <- subprocess_run w
       ["security"; "find-generic-password"; "-s"; service; "-a"; account; "-w"] ;;
     ret (stripped_or_none stdout))
    lookup_failed_to_none.

Definition _from_1password (w : World) : M (option string) :=
  item_path <- os_getenv_or w "GOOGLE_SHEETS_1PASSWORD_PATH"
                 "op://Personal/Google Sheets Service Account/credential" ;;
  try_except
    (stdout <- subprocess_run w ["op"; "read"; item_path] ;;
     ret (stripped_or_none stdout))
    lookup_failed_to_none.

Definition _from_json_env (w : World) : M (option string) :=
  value <- os_getenv w "GOOGLE_SHEETS_SERVICE_ACCOUNT_JSON" ;;
  ret (strip_if_set value).

Definition CREDENTIAL_SOURCES (w : World) : gmap string (M (option string)) :=
  {[ "json" := _from_json_env w;
     "env" := _from_env w;
     "keychain" := _from_keychain w;
     "1password" := _from_1password w ]}.

End Sheets.

(** ** Credential sources of the Linear client *)

Module Linear.

Definition _from_env (w : World) : M (option string) :=
  value <- os_getenv w "LINEAR_API_KEY" ;;
  ret (strip_if_set value).

Definition _from_keychain (w : World) : M (option string) :=
  service <- os_getenv_or w "LINEAR_KEYCHAIN_SERVICE" "Linear API Key" ;;
  account <- os_getenv_or w "LINEAR_KEYCHAIN_ACCOUNT" (getpass_getuser w) ;;
  try_except
    (stdout <- subprocess_run w
       ["security"; "find-generic-password"; "-a"; account; "-s"; service; "-w"] ;;
     ret (stripped_or_none stdout))
    lookup_failed_to_none.

Definition _from_1password (w : World) : M (option string) :=
  item_path <- os_getenv_or w "LINEAR_1PASSWORD_PATH"
                 "op://Personal/Linear/credential" ;;
  try_except
    (stdout <- subprocess_run w ["op"; "read"; item_path] ;;
     ret (stripped_or_none stdout))
    lookup_failed_to_none.

Definition API_KEY_SOURCES (w : World) : gmap string (M (option string)) :=
  {[ "env" := _from_env w;
     "keychain" := _from_keychain w;
     "1password" := _from_1password w ]}.

End Linear.

(** ** The resolution loop

    [for source in preferred_sources] of [get_service_account_credentials]
    and of [get_api_key], which have the same body.  [EvCall source]
    records the call [retriever()], the way a call counter on the
    retriever would; the result is the value that ended the loop, if
    any, and the list [tried]. *)
Fixpoint run_sources (table : gmap string (M (option string)))
    (preferred_sources tried : list string) : M (option string * list string) :=
  match preferred_sources with
  | [] => ret (None, tried)
  | source :: rest =>
      match table !! source with
      | None => run_sources table rest (tried ++ [source +:+ " (unknown)"])
      | Some retriever =>
          emit (EvCall source) ;;;
          value <- retriever ;;
          if truthy value then ret (value, tried)
          else run_sources table rest (tried ++ [source])
      end
  end.

Definition NL : string := String "010"%char EmptyString.

(** ** [get_service_account_credentials] *)

Inductive Credentials : Type :=
  | FromInfo (info : pyval) (scopes : list string)
  | FromFile (path : string) (scopes : list string).

Inductive Service : Type :=
  | SheetsService (credentials : Credentials).

(** [json.loads(s)] *)
Definition json_loads (w : World) (s : string) : M pyval :=
  emit (EvJsonLoads s) ;;;
  match json_decode w s with
  | Some v => ret v
  | None => raise (Exc (JSONDecodeError "Expecting value"))
  end.

(** [service_account.Credentials.from_service_account_info]: the
    library rejects an ill-formed document with a [ValueError]. *)
Definition from_service_account_info (w : World) (info : pyval) : M Credentials :=
  emit (EvFromInfo info) ;;;
  match info_rejected w info with
  | Some t => raise (Exc (OtherError t))
  | None => ret (FromInfo info Sheets.SCOPES)
  end.

(** [service_account.Credentials.from_service_account_file]: opening a
    path that does not exist raises [FileNotFoundError], opening a
    directory or a file that may not be read raises another [OSError]. *)
Definition from_service_account_file (w : World) (path : string) : M Credentials :=
  emit (EvFromFile path) ;;;
  match files w !! path with
  | None =>
      match unreadable w path with
      | Some t => raise (Exc (OtherError t))
      | None =>
          raise (Exc (FileNotFoundError
            ("[Errno 2] No such file or directory: '" +:+ path +:+ "'")))
      end
  | Some content =>
      match file_rejected w content with
      | Some t => raise (Exc (OtherError t))
      | None => ret (FromFile path Sheets.SCOPES)
      end
  end.

(** The static end of the message: how to configure a source, and the
    variable that overrides the order. *)
Definition AUTH_GUIDANCE : string :=
  "Set GOOGLE_SHEETS_SERVICE_ACCOUNT environment variable, "
  +:+ "store credentials in Keychain, or configure 1Password." +:+ NL
  +:+ "Override lookup order via GOOGLE_SHEETS_CREDENTIAL_SOURCES (comma separated).".

(** The message of the [GoogleSheetsAuthError] raised when no source
    yields a value. *)
Definition auth_error_message (tried : list string) : string :=
  "Unable to retrieve Google Sheets service account credentials." +:+ NL
  +:+ (if bool_decide (tried = []) then ""
       else "Tried sources: " +:+ py_join ", " tried +:+ NL)
  +:+ AUTH_GUIDANCE.

(** Lines 157-171: a value that starts with [op://] is read through the
    1Password CLI once. *)
Definition dereference (w : World) (credential_data : string) : M string :=
  if startswith credential_data "op://" then
    try_except
      (stdout <- subprocess_run w ["op"; "read"; credential_data] ;;
       ret (py_strip stdout))
      (fun e =>
         match e with
         | FileNotFoundError _ | CalledProcessError _ =>
             raise (Exc (GoogleSheetsAuthError
               ("Failed to read 1Password reference: " +:+ credential_data)))
         | _ => raise (Exc e)
         end)
  else ret credential_data.

(** Lines 173-197: inline JSON first, then a file path. *)
Definition load_credentials (w : World) (credential_data : string) : M Credentials :=
  try_except
    (creds_dict <- json_loads w credential_data ;;
     from_service_account_info w creds_dict)
    (fun e =>
       match e with
       | JSONDecodeError _ =>
           try_except
             (from_service_account_file w credential_data)
             (fun e' =>
                match e' with
                | FileNotFoundError _ =>
                    raise (Exc (GoogleSheetsAuthError
                      ("Service account file not found: " +:+ credential_data)))
                | _ =>
                    raise (Exc (GoogleSheetsAuthError
                      ("Failed to load service account credentials: "
                       +:+ str_of_error e')))
                end)
       | _ => raise (Exc e)
       end).

(** Lines 157-197. *)
Definition post_process (w : World) (credential_data : string) : M Credentials :=
  credential_data <- dereference w credential_data ;;
  load_credentials w credential_data.

(** Lines 123-155: the value that ends the loop, or the error. *)
Definition resolve_credential_data (w : World) : M string :=
  source_env <- os_getenv w "GOOGLE_SHEETS_CREDENTIAL_SOURCES" ;;
  let preferred_sources := preferred_sources_of source_env SHEETS_DEFAULT_SOURCES in
  r <- run_sources (Sheets.CREDENTIAL_SOURCES w) preferred_sources [] ;;
  let '(credential_data, tried) := r in
  match credential_data with
  | Some v => if nonempty v then ret v
              else raise (Exc (GoogleSheetsAuthError (auth_error_message tried)))
  | None => raise (Exc (GoogleSheetsAuthError (auth_error_message tried)))
  end.

Definition get_service_account_credentials (w : World) : M Credentials :=
  credential_data <- resolve_credential_data w ;;
  post_process w credential_data.

(** ** [get_api_key] *)

Definition get_api_key (w : World) : M string :=
  source_env <- os_getenv w "LINEAR_API_SOURCES" ;;
  let preferred_sources := preferred_sources_of source_env LINEAR_DEFAULT_SOURCES in
  r <- run_sources (Linear.API_KEY_SOURCES w) preferred_sources [] ;;
  let '(value, tried) := r in
  match value with
  | Some v => ret v
  | None =>
      print "Error: Unable to retrieve Linear API key." ;;;
      (if bool_decide (tried = []) then print "Tried sources: (none)"
       else print ("Tried sources: " +:+ py_join ", " tried)) ;;;
      print "Set LINEAR_API_KEY, store the key in Keychain (service 'Linear API Key'), or configure a 1Password item." ;;;
      print "Override lookup order via LINEAR_API_SOURCES (comma separated, e.g., 'env,1password')." ;;;
      sys_exit 1
  end.

(** ** The spreadsheet wrappers *)

(** The result dictionaries [{"success": ..., ...}] of the wrappers. *)
Inductive envelope : Type :=
  | ReadOk (data : grid) (rows columns : nat)
  | DictsOk (data : list (gmap string string)) (rows : nat) (headers : list string)
  | AppendOk (updated_range : string) (updated_rows : Z)
  | UpdateOk (updated_range : string) (updated_rows updated_cells : Z)
  | FindOk (row : option nat)
  | Failure (error : string).

Definition success (r : envelope) : bool :=
  match r with Failure _ => false | _ => true end.

Definition build (w : World) (credentials : Credentials) : M Service :=
  emit EvBuild ;;;
  match build_fails w with
  | Some e => raise (Exc e)
  | None => ret (SheetsService credentials)
  end.

Definition _get_sheets_service (w : World) : M Service :=
  try_except
    (credentials <- get_service_account_credentials w ;;
     build w credentials)
    (fun e => raise (Exc (GoogleSheetsAuthError
       ("Failed to create Sheets service: " +:+ str_of_error e)))).

(** [....execute()] of one request. *)
Definition execute {A} (req : request) (answer : reply A) : M A :=
  emit (EvExecute req) ;;;
  match answer with
  | Ok a => ret a
  | Fails e => raise (Exc e)
  end.

(** The three [except] clauses every wrapper ends with. *)
Definition error_envelope (spreadsheet_id : string) (e : error) : M envelope :=
  match e with
  | HttpError status _ =>
      if (status =? 404)%Z then
        ret (Failure ("Spreadsheet or sheet not found: " +:+ spreadsheet_id))
      else ret (Failure ("API error: " +:+ str_of_error e))
  | GoogleSheetsAuthError _ =>
      ret (Failure ("Authentication failed: " +:+ str_of_error e))
  | _ => ret (Failure ("Unexpected error: " +:+ str_of_error e))
  end.

(** [f"{sheet_name}!{range_notation}" if range_notation else sheet_name] *)
Definition range_str_of (sheet_name : string) (range_notation : option string)
    : string :=
  match range_notation with
  | Some r => if nonempty r then sheet_name +:+ "!" +:+ r else sheet_name
  | None => sheet_name
  end.

Definition read_sheet (w : World) (spreadsheet_id sheet_name : string)
    (range_notation : option string) : M envelope :=
  try_except
    (service <- _get_sheets_service w ;;
     let range_str := range_str_of sheet_name range_notation in
     result <- execute (ValuesGet spreadsheet_id range_str)
                       (values_get w spreadsheet_id range_str) ;;
     let values := default [] result in
     ret (ReadOk values (length values)
            (match values with [] => 0 | row :: _ => length row end)))
    (error_envelope spreadsheet_id).

(** [[x] * n]: the empty list when [n] is not positive. *)
Definition py_repeat {A} (x : A) (n : Z) : list A := replicate (Z.to_nat n) x.

(** [dict(pairs)]: a later pair overrides an earlier one with its key. *)
Definition py_dict (pairs : list (string * string)) : gmap string string :=
  foldl (fun d kv => <[ kv.1 := kv.2 ]> d) ∅ pairs.

(** The loop body of [read_sheet_as_dicts]. *)
Definition row_dict (headers row : list string) : gmap string string :=
  let padded_row :=
    row ++ py_repeat "" (Z.of_nat (length headers) - Z.of_nat (length row)) in
  py_dict (zip headers padded_row).

Definition read_sheet_as_dicts (w : World) (spreadsheet_id sheet_name : string)
    (range_notation : option string) : M envelope :=
  read_result <- read_sheet w spreadsheet_id sheet_name range_notation ;;
  if negb (success read_result) then ret read_result
  else
    match read_result with
    | ReadOk values _ _ =>
        match values with
        | [] => ret (DictsOk [] 0 [])
        | headers :: data_rows =>
            let dict_data := map (row_dict headers) data_rows in
            ret (DictsOk dict_data (length dict_data) headers)
        end
    | _ => raise (Exc (OtherError "'data'"))
    end.

Definition append_row (w : World) (spreadsheet_id sheet_name : string)
    (values : pyval) : M envelope :=
  try_except
    (service <- _get_sheets_service w ;;
     let body := PList [values] in
     result <- execute (ValuesAppend spreadsheet_id sheet_name body)
                       (values_append w spreadsheet_id sheet_name body) ;;
     ret (AppendOk (default "" (result ≫= updatedRange))
                   (default 0%Z (result ≫= updatedRows))))
    (error_envelope spreadsheet_id).

Definition append_rows (w : World) (spreadsheet_id sheet_name : string)
    (rows : pyval) : M envelope :=
  try_except
    (service <- _get_sheets_service w ;;
     let body := rows in
     result <- execute (ValuesAppend spreadsheet_id sheet_name body)
                       (values_append w spreadsheet_id sheet_name body) ;;
     ret (AppendOk (default "" (result ≫= updatedRange))
                   (default 0%Z (result ≫= updatedRows))))
    (error_envelope spreadsheet_id).

Definition update_range (w : World) (spreadsheet_id sheet_name range_notation : string)
    (values : pyval) : M envelope :=
  try_except
    (service <- _get_sheets_service w ;;
     let range_str := sheet_name +:+ "!" +:+ range_notation in
     result <- execute (ValuesUpdate spreadsheet_id range_str values)
                       (values_update w spreadsheet_id range_str values) ;;
     ret (UpdateOk (default "" (updatedRange result))
                   (default 0%Z (updatedRows result))
                   (default 0%Z (updatedCells result))))
    (error_envelope spreadsheet_id).

(** [row and row[0] == value] *)
Definition first_cell_is (value : pyval) (row : list string) : bool :=
  match row, value with
  | cell :: _, PStr v => String.eqb cell v
  | _, _ => false
  end.

(** [for idx, row in enumerate(values, start=idx): ...] *)
Fixpoint search_rows (idx : nat) (values : grid) (value : pyval) : option nat :=
  match values with
  | [] => None
  | row :: rest =>
      if first_cell_is value row then Some idx
      else search_rows (S idx) rest value
  end.

(** [range_notation or f"{column}:{column}"] *)
Definition search_range_of (column : string) (range_notation : option string)
    : string :=
  match range_notation with
  | Some r => if nonempty r then r else column +:+ ":" +:+ column
  | None => column +:+ ":" +:+ column
  end.

Definition find_row (w : World) (spreadsheet_id sheet_name column : string)
    (value : pyval) (range_notation : option string) : M envelope :=
  try_except
    (let search_range := search_range_of column range_notation in
     read_result <- read_sheet w spreadsheet_id sheet_name (Some search_range) ;;
     if negb (success read_result) then ret read_result
     else
       match read_result with
       | ReadOk values _ _ => ret (FindOk (search_rows 1 values value))
       | _ => raise (Exc (OtherError "'data'"))
       end)
    (fun e => ret (Failure ("Unexpected error: " +:+ str_of_error e))).

(** ** [sheets_from_spec] *)

(** A specification value where a wrapper expects a [str], the type the
    docstring gives the key; the text of any other value is [str(v)]. *)
Definition as_str (w : World) (v : pyval) : string :=
  match v with PStr s => s | _ => py_str w v end.

(** [spec.get("range_notation")], as the wrappers use it: they test
    the value for truth before they format it, so a falsy value of any
    type ([None], [""], [0], [False], [[]], [{}]) stands for no range. *)
Definition opt_str (w : World) (v : option pyval) : option string :=
  match v with
  | None => None
  | Some v => if py_truthy v then Some (as_str w v) else None
  end.

Definition in_spec (spec : gmap string pyval) (key : string) : bool :=
  bool_decide (is_Some (spec !! key)).

(** [spec[key]] once the key is known to be present. *)
Definition item (spec : gmap string pyval) (key : string) : pyval :=
  default PNone (spec !! key).

(** [operation == name] for a string literal [name]. *)
Definition is_str (v : pyval) (name : string) : bool :=
  match v with PStr s => String.eqb s name | _ => false end.

Definition REQUIRED : list string := ["spreadsheet_id"; "sheet_name"; "operation"].

Definition sheets_from_spec (w : World) (spec : gmap string pyval) : M envelope :=
  let missing := List.filter (fun f => negb (in_spec spec f)) REQUIRED in
  if negb (bool_decide (missing = [])) then
    ret (Failure ("Missing required fields: " +:+ py_join ", " missing))
  else
    let spreadsheet_id := as_str w (item spec "spreadsheet_id") in
    let sheet_name := as_str w (item spec "sheet_name") in
    let operation := item spec "operation" in
    let range_notation := opt_str w (spec !! "range_notation") in
    if is_str operation "read" then
      read_sheet w spreadsheet_id sheet_name range_notation
    else if is_str operation "read_dicts" then
      read_sheet_as_dicts w spreadsheet_id sheet_name range_notation
    else if is_str operation "append" then
      if negb (in_spec spec "values") then
        ret (Failure "Missing 'values' field for append operation")
      else append_row w spreadsheet_id sheet_name (item spec "values")
    else if is_str operation "append_rows" then
      if negb (in_spec spec "rows") then
        ret (Failure "Missing 'rows' field for append_rows operation")
      else append_rows w spreadsheet_id sheet_name (item spec "rows")
    else if is_str operation "update" then
      if negb (in_spec spec "range_notation") then
        ret (Failure "Missing 'range_notation' field for update operation")
      else if negb (in_spec spec "values") then
        ret (Failure "Missing 'values' field for update operation")
      else update_range w spreadsheet_id sheet_name
             (as_str w (item spec "range_notation")) (item spec "values")
    else if is_str operation "find" then
      if negb (in_spec spec "column") then
        ret (Failure "Missing 'column' field for find operation")
      else if negb (in_spec spec "value") then
        ret (Failure "Missing 'value' field for find operation")
      else find_row w spreadsheet_id sheet_name
             (as_str w (item spec "column")) (item spec "value") range_notation
    else ret (Failure ("Unknown operation: " +:+ as_str w operation)).

(** ** The Linear client: transport and [create_comment] *)

Definition LINEAR_API_URL : string := "https://api.linear.app/graphql".

Fixpoint assoc (entries : list (string * pyval)) (key : string) : option pyval :=
  match entries with
  | [] => None
  | (k, v) :: rest => if String.eqb k key then Some v else assoc rest key
  end.

(** [d.get(key, fallback)]; only a [dict] has the method. *)
Definition dict_get (d : pyval) (key : string) (fallback : pyval) : M pyval :=
  match d with
  | PDict entries => ret (default fallback (assoc entries key))
  | _ => raise (Exc (OtherError
           ("'" +:+ type_name d +:+ "' object has no attribute 'get'")))
  end.

(** [d[key]] for a string [key]: [KeyError] for a [dict] without the
    key, [TypeError] for a value of another type (with the texts of
    Python 3.11). *)
Definition dict_index (d : pyval) (key : string) : M pyval :=
  match d with
  | PDict entries =>
      match assoc entries key with
      | Some v => ret v
      | None => raise (Exc (OtherError ("'" +:+ key +:+ "'")))
      end
  | PList _ =>
      raise (Exc (OtherError "list indices must be integers or slices, not str"))
  | PStr _ =>
      raise (Exc (OtherError "string indices must be integers, not 'str'"))
  | _ => raise (Exc (OtherError
           ("'" +:+ type_name d +:+ "' object is not subscriptable")))
  end.

(** [key in d] for a string [key]. *)
Definition py_in (key : string) (d : pyval) : M bool :=
  match d with
  | PDict entries => ret (bool_decide (is_Some (assoc entries key)))
  | PList items => ret (existsb (fun v => is_str v key) items)
  | PStr s => ret (bool_decide (is_Some (String.index 0 key s)))
  | _ => raise (Exc (OtherError "argument is not iterable"))
  end.

Definition requests_post (w : World) (url authorization : string)
    (body : payload) : M http_response :=
  emit (EvPost url authorization body) ;;;
  match http_post w url authorization body with
  | Ok r => ret r
  | Fails e => raise (Exc e)
  end.

(** [payload = {"query": query}], with ["variables"] when they are truthy. *)
Definition request_body (query : string) (variables : option pyval) : payload :=
  Payload query
    (match variables with
     | Some v => if py_truthy v then Some v else None
     | None => None
     end).

Definition query_linear (w : World) (api_key query : string)
    (variables : option pyval) : M pyval :=
  let body := request_body query variables in
  response <- requests_post w LINEAR_API_URL api_key body ;;
  if negb (status_code response =? 200)%Z then
    print ("Error: API returned " +:+ pretty (status_code response)) ;;;
    print (response_text response) ;;;
    sys_exit 1
  else
    match response_json response with
    | Ok v => ret v
    | Fails e => raise (Exc e)
    end.

Definition ISSUE_BY_IDENTIFIER : string := "
    query($identifier: String!) {
      issue(id: $identifier) {
        id
        identifier
      }
    }
    ".

Definition COMMENT_CREATE : string := "
    mutation CommentCreate($input: CommentCreateInput!) {
      commentCreate(input: $input) {
        success
        comment {
          id
          body
          createdAt
          user {
            name
            email
          }
          issue {
            identifier
            title
          }
        }
      }
    }
    ".

(** Returns [issue["id"]], or [None]. *)
Definition get_issue_id_by_identifier (w : World) (api_key identifier : string)
    : M pyval :=
  data <- query_linear w api_key ISSUE_BY_IDENTIFIER
            (Some (PDict [("identifier", PStr identifier)])) ;;
  d <- dict_get data "data" (PDict []) ;;
  issue <- dict_get d "issue" PNone ;;
  if py_truthy issue then dict_index issue "id" else ret PNone.

Definition create_comment (w : World) (api_key issue_identifier body : string)
    : M pyval :=
  issue_id <- get_issue_id_by_identifier w api_key issue_identifier ;;
  if negb (py_truthy issue_id) then
    print ("Error: Issue '" +:+ issue_identifier +:+ "' not found") ;;;
    sys_exit 1
  else
    let input_data := PDict [("issueId", issue_id); ("body", PStr body)] in
    data <- query_linear w api_key COMMENT_CREATE
              (Some (PDict [("input", input_data)])) ;;
    has_errors <- py_in "errors" data ;;
    if (has_errors : bool) then
      print "Error creating comment:" ;;;
      errors <- dict_index data "errors" ;;
      print (json_dumps w errors) ;;;
      sys_exit 1
    else
      d <- dict_get data "data" (PDict []) ;;
      result <- dict_get d "commentCreate" (PDict []) ;;
      ok <- dict_get result "success" PNone ;;
      if negb (py_truthy ok) then
        print "Failed to create comment" ;;;
        print (json_dumps w result) ;;;
        sys_exit 1
      else dict_index result "comment".

(** ** Notions used to state the properties *)

(** A source that returns, with a falsy value, from every log. *)
Definition yields_nothing (retriever : M (option string)) : Prop :=
  forall l, exists r l', retriever l = (Ret r, l') /\ truthy r = false.

(** The entry of [tried] for one key of the order. *)
Definition attempt_label (table : gmap string (M (option string)))
    (source : string) : string :=
  match table !! source with
  | Some _ => source
  | None => source +:+ " (unknown)"
  end.

(** The keys passed to [retriever()] so far. *)
Definition calls (l : list event) : list string :=
  omap (fun ev => match ev with EvCall k => Some k | _ => None end) l.

(** A table for call-count checks: [a] finds nothing, [b] finds a
    token, [c] would stop the process. *)
Definition demo_table : gmap string (M (option string)) :=
  {[ "a" := (print "a" ;;; ret None);
     "b" := (print "b" ;;; ret (Some "tok"));
     "c" := (print "c" ;;; sys_exit 9) ]}.

(** The order [get_api_key] walks in a world. *)
Definition linear_order (w : World) : list string :=
  preferred_sources_of (os_environ w !! "LINEAR_API_SOURCES")
                       LINEAR_DEFAULT_SOURCES.

(** The order [get_service_account_credentials] walks in a world. *)
Definition sheets_order (w : World) : list string :=
  preferred_sources_of (os_environ w !! "GOOGLE_SHEETS_CREDENTIAL_SOURCES")
                       SHEETS_DEFAULT_SOURCES.

(** What a lookup finds outside the program: a text, nothing (a
    variable that is not set, a binary that is not installed, a command
    that exits with a status other than 0), or an exception of the
    process call that the sources do not handle. *)
Inductive lookup : Type :=
  | Found (text : string)
  | Missing
  | Broken (text : string).

Definition env_lookup (v : option string) : lookup :=
  match v with Some s => Found s | None => Missing end.

Definition proc_lookup (p : proc_outcome) : lookup :=
  match p with
  | Completed stdout => Found stdout
  | NoSuchBinary _ | NonZeroExit _ => Missing
  | ProcRaised t => Broken t
  end.

(** What the lookup behind a source of the spreadsheet client finds:
    the value of its environment variable, or the output of its
    process. *)
Definition raw_lookup (w : World) (source : string) : lookup :=
  if String.eqb source "json" then
    env_lookup (os_environ w !! "GOOGLE_SHEETS_SERVICE_ACCOUNT_JSON")
  else if String.eqb source "env" then
    env_lookup (os_environ w !! "GOOGLE_SHEETS_SERVICE_ACCOUNT")
  else if String.eqb source "keychain" then
    proc_lookup (subprocess w
      ["security"; "find-generic-password"; "-s"; "Google Sheets Service Account";
       "-a"; default "default" (os_environ w !! "USER"); "-w"])
  else if String.eqb source "1password" then
    proc_lookup (subprocess w
      ["op"; "read";
       default "op://Personal/Google Sheets Service Account/credential"
               (os_environ w !! "GOOGLE_SHEETS_1PASSWORD_PATH")])
  else Missing.

(** Missing, empty, or nothing but whitespace. *)
Definition absent (v : lookup) : bool :=
  match v with
  | Missing => true
  | Found s => negb (nonempty (py_strip s))
  | Broken _ => false
  end.

(** A machine with nothing configured: no variable is set, no binary
    is installed, no file exists, the vendor answers with empty data. *)
Definition bare_world : World :=
  {| os_environ := ∅;
     getpass_getuser := "user";
     subprocess := fun _ => NoSuchBinary "No such file or directory";
     json_decode := fun _ => None;
     json_dumps := fun _ => "";
     py_str := fun _ => "";
     info_rejected := fun _ => None;
     files := ∅;
     unreadable := fun _ => None;
     file_rejected := fun _ => None;
     build_fails := None;
     values_get := fun _ _ => Ok None;
     values_append := fun _ _ _ => Ok None;
     values_update := fun _ _ _ => Ok (UpdateInfo None None None);
     http_post := fun _ _ _ => Fails (OtherError "connection refused") |}.

Definition with_environ (w : World) (environ : gmap string string) : World :=
  {| os_environ := environ;
     getpass_getuser := getpass_getuser w;
     subprocess := subprocess w;
     json_decode := json_decode w;
     json_dumps := json_dumps w;
     py_str := py_str w;
     info_rejected := info_rejected w;
     files := files w;
     unreadable := unreadable w;
     file_rejected := file_rejected w;
     build_fails := build_fails w;
     values_get := values_get w;
     values_append := values_append w;
     values_update := values_update w;
     http_post := http_post w |}.

(** The order is overridden with keys no table knows. *)
Definition unknown_keys_world : World :=
  with_environ bare_world {[ "GOOGLE_SHEETS_CREDENTIAL_SOURCES" := "Vault, ,token" ]}.

(** The service-account variable holds blanks only. *)
Definition blank_env_world : World :=
  with_environ bare_world {[ "GOOGLE_SHEETS_SERVICE_ACCOUNT" := "   " ]}.

(** Events of the post-processing step. *)
Definition is_run (ev : event) : bool :=
  match ev with EvRun _ => true | _ => false end.

(** The event parses [s] as JSON or loads the file [s]. *)
Definition reads_as_credential (s : string) (ev : event) : bool :=
  match ev with
  | EvJsonLoads x | EvFromFile x => String.eqb x s
  | _ => false
  end.

Definition is_file_access (ev : event) : bool :=
  match ev with EvFromFile _ => true | _ => false end.

(** The 1Password CLI is installed and prints a path for every item. *)
Definition op_world : World :=
  {| os_environ := ∅;
     getpass_getuser := "user";
     subprocess := fun _ => Completed ("/etc/sheets/creds.json" +:+ NL);
     json_decode := fun _ => None;
     json_dumps := fun _ => "";
     py_str := fun _ => "";
     info_rejected := fun _ => None;
     files := ∅;
     unreadable := fun _ => None;
     file_rejected := fun _ => None;
     build_fails := None;
     values_get := fun _ _ => Ok None;
     values_append := fun _ _ _ => Ok None;
     values_update := fun _ _ _ => Ok (UpdateInfo None None None);
     http_post := fun _ _ _ => Fails (OtherError "connection refused") |}.

(** Every string decodes as a JSON object the library accepts. *)
Definition json_world : World :=
  {| os_environ := ∅;
     getpass_getuser := "user";
     subprocess := fun _ => NoSuchBinary "No such file or directory";
     json_decode := fun _ => Some (PDict [("type", PStr "service_account")]);
     json_dumps := fun _ => "";
     py_str := fun _ => "";
     info_rejected := fun _ => None;
     files := ∅;
     unreadable := fun _ => None;
     file_rejected := fun _ => None;
     build_fails := None;
     values_get := fun _ _ => Ok None;
     values_append := fun _ _ _ => Ok None;
     values_update := fun _ _ _ => Ok (UpdateInfo None None None);
     http_post := fun _ _ _ => Fails (OtherError "connection refused") |}.

(** Inline credentials are configured and accepted, and the vendor
    answers every read with [values]. *)
Definition serving_world (values : option grid) : World :=
  {| os_environ := {[ "GOOGLE_SHEETS_SERVICE_ACCOUNT_JSON" := "{}" ]};
     getpass_getuser := "user";
     subprocess := fun _ => NoSuchBinary "No such file or directory";
     json_decode := fun _ => Some (PDict [("type", PStr "service_account")]);
     json_dumps := fun _ => "";
     py_str := fun _ => "";
     info_rejected := fun _ => None;
     files := ∅;
     unreadable := fun _ => None;
     file_rejected := fun _ => None;
     build_fails := None;
     values_get := fun _ _ => Ok values;
     values_append := fun _ _ _ => Ok None;
     values_update := fun _ _ _ => Ok (UpdateInfo None None None);
     http_post := fun _ _ _ => Fails (OtherError "connection refused") |}.

(** The events of a read in [serving_world]. *)
Definition serving_log (spreadsheet_id range : string) : list event :=
  [EvGetenv "GOOGLE_SHEETS_CREDENTIAL_SOURCES";
   EvCall "json";
   EvGetenv "GOOGLE_SHEETS_SERVICE_ACCOUNT_JSON";
   EvJsonLoads "{}";
   EvFromInfo (PDict [("type", PStr "service_account")]);
   EvBuild;
   EvExecute (ValuesGet spreadsheet_id range)].

(** The keys an operation needs besides [REQUIRED]. *)
Definition operation_fields (operation : pyval) : list string :=
  if is_str operation "append" then ["values"]
  else if is_str operation "append_rows" then ["rows"]
  else if is_str operation "update" then ["range_notation"; "values"]
  else if is_str operation "find" then ["column"; "value"]
  else [].

(** The required keys a specification lacks: those of [REQUIRED], or,
    when these are all there, those of its operation. *)
Definition missing_fields (spec : gmap string pyval) : list string :=
  match List.filter (fun f => negb (in_spec spec f)) REQUIRED with
  | [] => List.filter (fun f => negb (in_spec spec f))
                      (operation_fields (item spec "operation"))
  | base => base
  end.

(** [field in msg] *)
Definition mentions (msg field : string) : bool :=
  match String.index 0 field msg with Some _ => true | None => false end.

(** An update without a range and without values. *)
Definition update_spec : gmap string pyval :=
  {[ "spreadsheet_id" := PStr "S1";
     "sheet_name" := PStr "Sheet1";
     "operation" := PStr "update" ]}.

(** The call returns a value: nothing is raised to the caller. *)
Definition no_escape {A} (r : outcome A * list event) : Prop :=
  exists a l', r = (Ret a, l').

(** The call returns, or raises an [Exception] (never [SystemExit]). *)
Definition catchable {A} (r : outcome A * list event) : Prop :=
  match r.1 with
  | Ret _ | Raise (Exc _) => True
  | Raise (SystemExit _) => False
  end.

(** The tracker answers every request with status 404. *)
Definition tracker_404_world : World :=
  {| os_environ := ∅;
     getpass_getuser := "user";
     subprocess := fun _ => NoSuchBinary "No such file or directory";
     json_decode := fun _ => None;
     json_dumps := fun _ => "";
     py_str := fun _ => "";
     info_rejected := fun _ => None;
     files := ∅;
     unreadable := fun _ => None;
     file_rejected := fun _ => None;
     build_fails := None;
     values_get := fun _ _ => Ok None;
     values_append := fun _ _ _ => Ok None;
     values_update := fun _ _ _ => Ok (UpdateInfo None None None);
     http_post := fun _ _ _ =>
       Ok (HttpResponse 404 "Not Found" (Fails (JSONDecodeError "Expecting value"))) |}.

(** Credentials resolve, the spreadsheet does not exist. *)
Definition sheet_404_world : World :=
  {| os_environ := {[ "GOOGLE_SHEETS_SERVICE_ACCOUNT_JSON" := "{}" ]};
     getpass_getuser := "user";
     subprocess := fun _ => NoSuchBinary "No such file or directory";
     json_decode := fun _ => Some (PDict [("type", PStr "service_account")]);
     json_dumps := fun _ => "";
     py_str := fun _ => "";
     info_rejected := fun _ => None;
     files := ∅;
     unreadable := fun _ => None;
     file_rejected := fun _ => None;
     build_fails := None;
     values_get := fun _ _ => Fails (HttpError 404 "Requested entity was not found.");
     values_append := fun _ _ _ => Fails (HttpError 404 "Requested entity was not found.");
     values_update := fun _ _ _ => Fails (HttpError 404 "Requested entity was not found.");
     http_post := fun _ _ _ => Fails (OtherError "connection refused") |}.

(** The envelope contract of a wrapper: it returns an envelope, and the
    envelope is a failure whenever the lookup or the transport failed. *)
Definition envelope_contract (failed : Prop) (r : outcome envelope * list event)
    : Prop :=
  exists env l', r = (Ret env, l') /\ (failed -> exists msg, env = Failure msg).

(** ** Notions used to state the further properties *)



(** A value as the sources hand it on: stripped and not empty. *)
Definition clean (v : string) : Prop := v <> "" /\ py_strip v = v.

(** The variable holds a secret with blanks around it, and the order
    names the source twice. *)
Definition padded_env_world : World :=
  with_environ bare_world
    {[ "GOOGLE_SHEETS_SERVICE_ACCOUNT" := "  /etc/sheets/creds.json  ";
       "GOOGLE_SHEETS_CREDENTIAL_SOURCES" := "json,json,vault,env,keychain" ]}.

(** The order is set to separators and blanks only. *)
Definition blank_order_world : World :=
  with_environ bare_world {[ "GOOGLE_SHEETS_CREDENTIAL_SOURCES" := " , " ]}.

(** The service-account file is on disk and the library takes it. *)
Definition file_world : World :=
  {| os_environ := {[ "GOOGLE_SHEETS_SERVICE_ACCOUNT" := "/etc/sheets/creds.json" ]};
     getpass_getuser := "user";
     subprocess := fun _ => NoSuchBinary "No such file or directory";
     json_decode := fun _ => None;
     json_dumps := fun _ => "";
     py_str := fun _ => "";
     info_rejected := fun _ => None;
     files := {[ "/etc/sheets/creds.json" := "{}" ]};
     unreadable := fun _ => None;
     file_rejected := fun _ => None;
     build_fails := None;
     values_get := fun _ _ => Ok (Some [["a"; "b"; "c"]; []; ["d"]]);
     values_append := fun _ _ _ => Ok None;
     values_update := fun _ _ _ => Ok (UpdateInfo None None None);
     http_post := fun _ _ _ => Fails (OtherError "connection refused") |}.

(** The Linear order is set to separators and blanks only. *)
Definition blank_linear_order_world : World :=
  with_environ bare_world {[ "LINEAR_API_SOURCES" := ", ," ]}.

(** The keys [sheets_from_spec] looks at. *)
Definition RECOGNIZED : list string :=
  ["spreadsheet_id"; "sheet_name"; "operation"; "values"; "rows";
   "range_notation"; "column"; "value"].

(** The operation names [sheets_from_spec] routes. *)
Definition OPERATIONS : list string :=
  ["read"; "read_dicts"; "append"; "append_rows"; "update"; "find"].

(** A read whose operation is spelled in capitals. *)
Definition shouting_spec : gmap string pyval :=
  {[ "spreadsheet_id" := PStr "S1";
     "sheet_name" := PStr "Sheet1";
     "operation" := PStr "READ" ]}.

(** A read of a range. *)
Definition read_spec : gmap string pyval :=
  {[ "spreadsheet_id" := PStr "S1";
     "sheet_name" := PStr "Sheet1";
     "operation" := PStr "read";
     "range_notation" := PStr "A1:C3" ]}.

(** ** [append_rows_to_table] *)

(** The result dictionary of [append_rows_to_table]. *)
Inductive table_envelope : Type :=
  | TableOk (table_id : pyval) (rows_added : nat) (batch_update_result : pyval)
  | TableFailure (error : string).

(** [for x in v]: the items of a list, the characters of a string, the
    keys of a dict; nothing else can be iterated. *)
Definition py_iter (v : pyval) : M (list pyval) :=
  match v with
  | PList items => ret items
  | PStr s => ret (map (fun c => PStr (String c EmptyString)) (list_ascii_of_string s))
  | PDict entries => ret (map (fun kv => PStr kv.1) entries)
  | _ => raise (Exc (OtherError
           ("'" +:+ type_name v +:+ "' object is not iterable")))
  end.

(** [v[0]] *)
Definition py_index0 (v : pyval) : M pyval :=
  match v with
  | PList (x :: _) => ret x
  | PList [] => raise (Exc (OtherError "list index out of range"))
  | PStr (String c _) => ret (PStr (String c EmptyString))
  | PStr EmptyString => raise (Exc (OtherError "string index out of range"))
  | PDict _ => raise (Exc (OtherError "0"))
  | _ => raise (Exc (OtherError
           ("'" +:+ type_name v +:+ "' object is not subscriptable")))
  end.

(** [len(v)] *)
Definition py_len (v : pyval) : M nat :=
  match v with
  | PList items => ret (length items)
  | PStr s => ret (String.length s)
  | PDict entries => ret (length entries)
  | _ => raise (Exc (OtherError
           ("object of type '" +:+ type_name v +:+ "' has no len()")))
  end.

(** Step 2, the loop over the sheets with its [break]: the [sheetId]
    and the [tableId] of the first sheet with the title, [None] for
    what is not found. *)
Fixpoint find_table (sheet_name : string) (sheets : list pyval)
    : M (pyval * pyval) :=
  match sheets with
  | [] => ret (PNone, PNone)
  | sheet :: rest =>
      properties <- dict_index sheet "properties" ;;
      title <- dict_index properties "title" ;;
      if is_str title sheet_name then
        properties <- dict_index sheet "properties" ;;
        sheet_id <- dict_index properties "sheetId" ;;
        tables <- dict_get sheet "tables" (PList []) ;;
        if py_truthy tables then
          first <- py_index0 tables ;;
          table_id <- dict_index first "tableId" ;;
          ret (sheet_id, table_id)
        else ret (sheet_id, PNone)
      else find_table sheet_name rest
  end.

(** Step 3, one cell: a [bool] first (it is an [int] too), then a
    number, then a string that starts with [=], then anything else as
    text, [None] as the empty text. *)
Definition cell_data (w : World) (cell_value : pyval) : pyval :=
  PDict [("userEnteredValue",
          match cell_value with
          | PBool b => PDict [("boolValue", PBool b)]
          | PInt n => PDict [("numberValue", PInt n)]
          | PFloat m e => PDict [("numberValue", PFloat m e)]
          | PStr s =>
              if startswith s "=" then PDict [("formulaValue", PStr s)]
              else PDict [("stringValue", PStr s)]
          | PNone => PDict [("stringValue", PStr "")]
          | other => PDict [("stringValue", PStr (py_str w other))]
          end)].

(** Step 3, the loop over the rows. *)
Fixpoint build_row_data (w : World) (rows : list pyval) : M (list pyval) :=
  match rows with
  | [] => ret []
  | row :: rest =>
      cells <- py_iter row ;;
      let values := map (cell_data w) cells in
      row_data <- build_row_data w rest ;;
      ret (PDict [("values", PList values)] :: row_data)
  end.

(** Step 4, the body of the [batchUpdate]. *)
Definition append_cells_body (sheet_id table_id : pyval) (row_data : list pyval)
    : pyval :=
  PDict [("requests",
          PList [PDict [("appendCells",
                         PDict [("sheetId", sheet_id);
                                ("tableId", table_id);
                                ("rows", PList row_data);
                                ("fields", PStr "*")])]])].

(** The three [except] clauses, for this result type. *)
Definition table_error_envelope (spreadsheet_id : string) (e : error)
    : M table_envelope :=
  match e with
  | HttpError status _ =>
      if (status =? 404)%Z then
        ret (TableFailure ("Spreadsheet or sheet not found: " +:+ spreadsheet_id))
      else ret (TableFailure ("API error: " +:+ str_of_error e))
  | GoogleSheetsAuthError _ =>
      ret (TableFailure ("Authentication failed: " +:+ str_of_error e))
  | _ => ret (TableFailure ("Unexpected error: " +:+ str_of_error e))
  end.

(** The two calls of the vendor are parameters: [spreadsheets_get id]
    stands for [service.spreadsheets().get(spreadsheetId=id).execute()]
    and [batch_update id body] for
    [service.spreadsheets().batchUpdate(spreadsheetId=id, body=body).execute()]. *)
Definition append_rows_to_table (w : World)
    (spreadsheets_get : string -> M pyval)
    (batch_update : string -> pyval -> M pyval)
    (spreadsheet_id sheet_name : string) (rows : pyval) : M table_envelope :=
  try_except
    (service <- _get_sheets_service w ;;
     spreadsheet <- spreadsheets_get spreadsheet_id ;;
     sheets <- dict_get spreadsheet "sheets" (PList []) ;;
     sheets <- py_iter sheets ;;
     found <- find_table sheet_name sheets ;;
     let '(sheet_id, table_id) := found in
     if negb (py_truthy sheet_id) then
       ret (TableFailure ("Sheet '" +:+ sheet_name +:+ "' not found in spreadsheet"))
     else if negb (py_truthy table_id) then
       ret (TableFailure ("No table found in sheet '" +:+ sheet_name
                          +:+ "'. Format the sheet as a table first."))
     else
       row_list <- py_iter rows ;;
       row_data <- build_row_data w row_list ;;
       let request_body := append_cells_body sheet_id table_id row_data in
       result <- batch_update spreadsheet_id request_body ;;
       rows_added <- py_len rows ;;
       ret (TableOk table_id rows_added result))
    (table_error_envelope spreadsheet_id).

(** An entry of the [sheets] list of the metadata. *)
Definition sheet_entry (title : string) (sheet_id tables : pyval) : pyval :=
  PDict [("properties", PDict [("sheetId", sheet_id); ("title", PStr title)]);
         ("tables", tables)].

(** The vendor's metadata call, answering with a fixed document. *)
Definition answer_with (spreadsheet : pyval) (spreadsheet_id : string) : M pyval :=
  ret spreadsheet.

(** An update call that accepts every body. *)
Definition accept_update (spreadsheet_id : string) (body : pyval) : M pyval :=
  ret (PDict [("spreadsheetId", PStr spreadsheet_id)]).

(** An update call that would stop the process if it were made. *)
Definition never_update (spreadsheet_id : string) (body : pyval) : M pyval :=
  sys_exit 99.

(** The title of a well-formed entry differs from [sheet_name]. *)
Definition other_sheet (sheet_name : string) (sheet : pyval) : Prop :=
  exists title sheet_id tables,
    sheet = sheet_entry title sheet_id tables /\ title <> sheet_name.

(** A [tables] value of the metadata: no table, or a first table with
    an id. *)
Definition tables_of (table_id : option pyval) (more : list pyval) : pyval :=
  match table_id with
  | None => PList []
  | Some tid => PList (PDict [("tableId", tid)] :: more)
  end.

(** A spreadsheet whose first sheet, [Interactions], has a table and
    the id 0, and whose second sheet, [Archive], has the id 7. *)
Definition two_sheets : pyval :=
  PDict [("sheets",
          PList [sheet_entry "Interactions" (PInt 0)
                   (PList [PDict [("tableId", PStr "t1")]]);
                 sheet_entry "Archive" (PInt 7)
                   (PList [PDict [("tableId", PStr "t2")]])])].

(** ** The Linear client: look-ups and relations *)

Definition USERS_QUERY : string := "
    query {
      users {
        nodes {
          id
          name
          email
        }
      }
    }
    ".

Definition TEAMS_QUERY : string := "
    query {
      teams {
        nodes {
          id
          name
          key
        }
      }
    }
    ".

Definition ISSUES_BY_ASSIGNEE : string := "
    query IssuesByAssignee($filter: IssueFilter!, $first: Int!) {
      issues(filter: $filter, first: $first, orderBy: updatedAt) {
        nodes {
          identifier
          title
          url
          updatedAt
          dueDate
          priority
          state {
            name
            type
          }
        }
      }
    }
    ".

Definition ISSUE_RELATION_CREATE : string := "
    mutation IssueRelationCreate($input: IssueRelationCreateInput!) {
      issueRelationCreate(input: $input) {
        success
        issueRelation {
          id
          type
          issue {
            identifier
            title
          }
          relatedIssue {
            identifier
            title
          }
        }
      }
    }
    ".

(** [v.lower()]; only a [str] has the method. *)
Definition str_lower (v : pyval) : M string :=
  match v with
  | PStr s => ret (py_lower s)
  | _ => raise (Exc (OtherError
           ("'" +:+ type_name v +:+ "' object has no attribute 'lower'")))
  end.

(** The loop of [get_user_id]. *)
Fixpoint find_user (email : string) (users : list pyval) : M pyval :=
  match users with
  | [] => ret PNone
  | user :: rest =>
      address <- dict_get user "email" (PStr "") ;;
      address <- str_lower address ;;
      if String.eqb address (py_lower email) then dict_index user "id"
      else find_user email rest
  end.

Definition get_user_id (w : World) (api_key email : string) : M pyval :=
  data <- query_linear w api_key USERS_QUERY None ;;
  d <- dict_get data "data" (PDict []) ;;
  d <- dict_get d "users" (PDict []) ;;
  users <- dict_get d "nodes" (PList []) ;;
  users <- py_iter users ;;
  find_user email users.

(** The loop of [get_team_id]; [None] stands for falling out of it. *)
Fixpoint find_team (team_name : string) (teams : list pyval) : M (option pyval) :=
  match teams with
  | [] => ret None
  | team :: rest =>
      name <- dict_index team "name" ;;
      name <- str_lower name ;;
      if String.eqb name (py_lower team_name) then
        team_id <- dict_index team "id" ;; ret (Some team_id)
      else find_team team_name rest
  end.

Definition get_team_id (w : World) (api_key : string) (team_name : option string)
    : M pyval :=
  data <- query_linear w api_key TEAMS_QUERY None ;;
  d <- dict_get data "data" (PDict []) ;;
  d <- dict_get d "teams" (PDict []) ;;
  teams <- dict_get d "nodes" (PList []) ;;
  if negb (py_truthy teams) then
    print "Error: No teams found" ;;; sys_exit 1
  else
    match team_name with
    | Some name =>
        if nonempty name then
          team_list <- py_iter teams ;;
          found <- find_team name team_list ;;
          match found with
          | Some team_id => ret team_id
          | None =>
              print ("Error: Team '" +:+ name +:+ "' not found") ;;; sys_exit 1
          end
        else first <- py_index0 teams ;; dict_index first "id"
    | None => first <- py_index0 teams ;; dict_index first "id"
    end.

Definition get_issues_assigned_to (w : World) (api_key assignee_email : string)
    (limit : Z) (include_completed : bool) : M pyval :=
  assignee_id <- get_user_id w api_key assignee_email ;;
  if negb (py_truthy assignee_id) then
    print ("Error: User '" +:+ assignee_email +:+ "' not found") ;;;
    ret (PList [])
  else
    let issue_filter :=
      PDict ([("assignee", PDict [("id", PDict [("eq", assignee_id)])])]
             ++ (if negb include_completed
                 then [("state", PDict [("type", PDict [("neq", PStr "completed")])])]
                 else [])) in
    let variables := PDict [("filter", issue_filter); ("first", PInt limit)] in
    data <- query_linear w api_key ISSUES_BY_ASSIGNEE (Some variables) ;;
    has_errors <- py_in "errors" data ;;
    if (has_errors : bool) then
      print "Error fetching issues:" ;;;
      errors <- dict_index data "errors" ;;
      print (json_dumps w errors) ;;;
      ret (PList [])
    else
      d <- dict_get data "data" (PDict []) ;;
      d <- dict_get d "issues" (PDict []) ;;
      dict_get d "nodes" (PList []).

Definition VALID_RELATION_TYPES : list string :=
  ["related"; "blocks"; "duplicate"; "similar"].

Definition create_issue_relation (w : World)
    (api_key issue_identifier related_issue_identifier relation_type : string)
    : M pyval :=
  if negb (bool_decide (relation_type ∈ VALID_RELATION_TYPES)) then
    print ("Error: Invalid relation type '" +:+ relation_type +:+ "'") ;;;
    print ("Valid types: " +:+ py_join ", " VALID_RELATION_TYPES) ;;;
    sys_exit 1
  else
    issue_id <- get_issue_id_by_identifier w api_key issue_identifier ;;
    if negb (py_truthy issue_id) then
      print ("Error: Issue '" +:+ issue_identifier +:+ "' not found") ;;;
      sys_exit 1
    else
      related_issue_id <- get_issue_id_by_identifier w api_key
                            related_issue_identifier ;;
      if negb (py_truthy related_issue_id) then
        print ("Error: Related issue '" +:+ related_issue_identifier
               +:+ "' not found") ;;;
        sys_exit 1
      else
        let input_data :=
          PDict [("issueId", issue_id);
                 ("relatedIssueId", related_issue_id);
                 ("type", PStr relation_type)] in
        data <- query_linear w api_key ISSUE_RELATION_CREATE
                  (Some (PDict [("input", input_data)])) ;;
        has_errors <- py_in "errors" data ;;
        if (has_errors : bool) then
          print "Error creating issue relation:" ;;;
          errors <- dict_index data "errors" ;;
          print (json_dumps w errors) ;;;
          sys_exit 1
        else
          d <- dict_get data "data" (PDict []) ;;
          result <- dict_get d "issueRelationCreate" (PDict []) ;;
          ok <- dict_get result "success" PNone ;;
          if negb (py_truthy ok) then
            print "Failed to create issue relation" ;;;
            print (json_dumps w result) ;;;
            sys_exit 1
          else dict_index result "issueRelation".

(** A user of the [users] answer. *)
Definition user_entry (user_id : pyval) (email : string) : pyval :=
  PDict [("id", user_id); ("name", PStr "someone"); ("email", PStr email)].

(** A well-formed user with another address, case apart. *)
Definition other_user (email : string) (user : pyval) : Prop :=
  exists user_id address,
    user = user_entry user_id address /\ py_lower address <> py_lower email.

(** The tracker answers every request with status 200 and [document]. *)
Definition tracker_world (document : pyval) : World :=
  {| os_environ := ∅;
     getpass_getuser := "user";
     subprocess := fun _ => NoSuchBinary "No such file or directory";
     json_decode := fun _ => None;
     json_dumps := fun _ => "[...]";
     py_str := fun _ => "";
     info_rejected := fun _ => None;
     files := ∅;
     unreadable := fun _ => None;
     file_rejected := fun _ => None;
     build_fails := None;
     values_get := fun _ _ => Ok None;
     values_append := fun _ _ _ => Ok None;
     values_update := fun _ _ _ => Ok (UpdateInfo None None None);
     http_post := fun _ _ _ => Ok (HttpResponse 200 "" (Ok document)) |}.

(** The answer to a look-up of an issue that does not exist. *)
Definition no_issue : pyval := PDict [("data", PDict [("issue", PNone)])].

(** An answer with two users. *)
Definition two_users : pyval :=
  PDict [("data",
          PDict [("users",
                  PDict [("nodes",
                          PList [user_entry (PStr "u1") "ann@example.com";
                                 user_entry (PStr "u2") "Bob@Example.com"])])])].

(** An answer with GraphQL errors. *)
Definition with_errors : pyval :=
  PDict [("errors", PList [PDict [("message", PStr "rate limited")]])].

(** The tracker knows the users and answers every other request with
    GraphQL errors. *)
Definition errors_world : World :=
  {| os_environ := ∅;
     getpass_getuser := "user";
     subprocess := fun _ => NoSuchBinary "No such file or directory";
     json_decode := fun _ => None;
     json_dumps := fun _ => "[...]";
     py_str := fun _ => "";
     info_rejected := fun _ => None;
     files := ∅;
     unreadable := fun _ => None;
     file_rejected := fun _ => None;
     build_fails := None;
     values_get := fun _ _ => Ok None;
     values_append := fun _ _ _ => Ok None;
     values_update := fun _ _ _ => Ok (UpdateInfo None None None);
     http_post := fun _ _ body =>
       if String.eqb (payload_query body) USERS_QUERY
       then Ok (HttpResponse 200 "" (Ok two_users))
       else Ok (HttpResponse 200 "" (Ok with_errors)) |}.

(** An answer with two teams. *)
Definition two_teams : pyval :=
  PDict [("data",
          PDict [("teams",
                  PDict [("nodes",
                          PList [PDict [("id", PStr "t-lum"); ("name", PStr "Luminous")];
                                 PDict [("id", PStr "t-ops"); ("name", PStr "Ops")]])])])].

(** ** Worlds where the process call or the file system misbehaves *)

Definition with_subprocess (w : World) (run : list string -> proc_outcome) : World :=
  {| os_environ := os_environ w;
     getpass_getuser := getpass_getuser w;
     subprocess := run;
     json_decode := json_decode w;
     json_dumps := json_dumps w;
     py_str := py_str w;
     info_rejected := info_rejected w;
     files := files w;
     unreadable := unreadable w;
     file_rejected := file_rejected w;
     build_fails := build_fails w;
     values_get := values_get w;
     values_append := values_append w;
     values_update := values_update w;
     http_post := http_post w |}.

Definition REFERENCE : string := "op://Vault/sheets/credential".

(** The service-account variable holds a 1Password reference, and the
    item behind every reference holds the reference itself: [op read]
    prints its last argument. *)
Definition echo_world : World :=
  with_environ
    (with_subprocess bare_world (fun argv => Completed (default "" (last argv) +:+ NL)))
    {[ "GOOGLE_SHEETS_SERVICE_ACCOUNT" := REFERENCE ]}.

(** The variable holds a reference, and the binaries are installed but
    may not be executed: running one raises [PermissionError]. *)
Definition denied_world : World :=
  with_environ
    (with_subprocess bare_world (fun argv =>
       ProcRaised ("[Errno 13] Permission denied: '" +:+ default "" (head argv) +:+ "'")))
    {[ "GOOGLE_SHEETS_SERVICE_ACCOUNT" := REFERENCE ]}.

(** [/etc/sheets] is a directory. *)
Definition directory_world : World :=
  {| os_environ := ∅;
     getpass_getuser := "user";
     subprocess := fun _ => NoSuchBinary "No such file or directory";
     json_decode := fun _ => None;
     json_dumps := fun _ => "";
     py_str := fun _ => "";
     info_rejected := fun _ => None;
     files := ∅;
     unreadable := fun path =>
       if String.eqb path "/etc/sheets"
       then Some "[Errno 21] Is a directory: '/etc/sheets'" else None;
     file_rejected := fun _ => None;
     build_fails := None;
     values_get := fun _ _ => Ok None;
     values_append := fun _ _ _ => Ok None;
     values_update := fun _ _ _ => Ok (UpdateInfo None None None);
     http_post := fun _ _ _ => Fails (OtherError "connection refused") |}.

(** An update call that answers with the body it is given, the way a
    test double hands back what it was called with. *)
Definition echo_update (spreadsheet_id : string) (body : pyval) : M pyval :=
  ret body.

(** A metadata call that the vendor answers with status 404. *)
Definition get_not_found (spreadsheet_id : string) : M pyval :=
  raise (Exc (HttpError 404 "Requested entity was not found.")).

(** The log of [_get_sheets_service] where the inline document is
    configured, and where nothing is. *)
Definition serving_log_service : list event :=
  [EvGetenv "GOOGLE_SHEETS_CREDENTIAL_SOURCES";
   EvCall "json"; EvGetenv "GOOGLE_SHEETS_SERVICE_ACCOUNT_JSON";
   EvJsonLoads "{}";
   EvFromInfo (PDict [("type", PStr "service_account")]);
   EvBuild].

Definition bare_log_service : list event :=
  [EvGetenv "GOOGLE_SHEETS_CREDENTIAL_SOURCES";
   EvCall "json"; EvGetenv "GOOGLE_SHEETS_SERVICE_ACCOUNT_JSON";
   EvCall "env"; EvGetenv "GOOGLE_SHEETS_SERVICE_ACCOUNT";
   EvCall "keychain"; EvGetenv "USER";
   EvRun ["security"; "find-generic-password"; "-s";
          "Google Sheets Service Account"; "-a"; "default"; "-w"];
   EvCall "1password"; EvGetenv "GOOGLE_SHEETS_1PASSWORD_PATH";
   EvRun ["op"; "read"; "op://Personal/Google Sheets Service Account/credential"]].

(** * Properties *)

(** ** Strings *)

Section StringFacts.

Lemma lower_char_space (c : ascii) : is_space (lower_char c) = is_space c.
Proof. destruct c as [[] [] [] [] [] [] [] []]; reflexivity. Qed.

Lemma lower_char_idem (c : ascii) : lower_char (lower_char c) = lower_char c.
Proof. destruct c as [[] [] [] [] [] [] [] []]; reflexivity. Qed.

Lemma py_lower_chars (s : string) :
  list_ascii_of_string (py_lower s) = map lower_char (list_ascii_of_string s).
Proof. induction s as [|c s IH]; simpl; [reflexivity | now rewrite IH]. Qed.

Lemma py_lower_idem (s : string) : py_lower (py_lower s) = py_lower s.
Proof.
  induction s as [|c s IH]; simpl; [reflexivity|].
  now rewrite lower_char_idem, IH.
Qed.

Lemma py_lower_nonempty (s : string) : nonempty (py_lower s) = nonempty s.
Proof. now destruct s. Qed.

Lemma lstrip_map_lower (l : list ascii) :
  lstrip_chars (map lower_char l) = map lower_char (lstrip_chars l).
Proof.
  induction l as [|c l IH]; simpl; [reflexivity|].
  rewrite lower_char_space. now destruct (is_space c).
Qed.

Lemma rstrip_map_lower (l : list ascii) :
  rstrip_chars (map lower_char l) = map lower_char (rstrip_chars l).
Proof.
  unfold rstrip_chars.
  now rewrite <- map_rev, lstrip_map_lower, map_rev.
Qed.

Lemma strip_lower_commute (s : string) :
  py_strip (py_lower s) = py_lower (py_strip s).
Proof.
  rewrite <- (string_of_list_ascii_of_string (py_lower (py_strip s))).
  rewrite py_lower_chars. unfold py_strip.
  rewrite py_lower_chars, lstrip_map_lower, rstrip_map_lower.
  now rewrite list_ascii_of_string_of_list_ascii.
Qed.

Lemma lstrip_idem (l : list ascii) : lstrip_chars (lstrip_chars l) = lstrip_chars l.
Proof.
  induction l as [|c l IH]; simpl; [reflexivity|].
  destruct (is_space c) eqn:E; [exact IH|]. simpl. now rewrite E.
Qed.

Lemma lstrip_headed (l : list ascii) : headed (lstrip_chars l).
Proof.
  induction l as [|c l IH]; simpl; [exact I|].
  destruct (is_space c) eqn:E; [exact IH | exact E].
Qed.

Lemma headed_lstrip (l : list ascii) : headed l -> lstrip_chars l = l.
Proof. destruct l as [|c l]; simpl; [reflexivity|]. now intros ->. Qed.

Lemma lstrip_snoc_keep (l : list ascii) (c : ascii) :
  is_space c = false -> exists l', lstrip_chars (l ++ [c]) = l' ++ [c].
Proof.
  intros Hc. induction l as [|d l IH]; simpl.
  - rewrite Hc. now exists [].
  - destruct (is_space d); [exact IH|]. now exists (d :: l).
Qed.

Lemma rstrip_headed (l : list ascii) : headed l -> headed (rstrip_chars l).
Proof.
  unfold rstrip_chars. destruct l as [|c l]; simpl; [easy|].
  intros Hc. destruct (lstrip_snoc_keep (rev l) c Hc) as [l' ->].
  rewrite rev_app_distr. simpl. exact Hc.
Qed.

Lemma rstrip_idem (l : list ascii) : rstrip_chars (rstrip_chars l) = rstrip_chars l.
Proof. unfold rstrip_chars. now rewrite rev_involutive, lstrip_idem. Qed.

Lemma py_strip_idem (s : string) : py_strip (py_strip s) = py_strip s.
Proof.
  unfold py_strip. rewrite list_ascii_of_string_of_list_ascii.
  rewrite (headed_lstrip (rstrip_chars _)).
  - now rewrite rstrip_idem.
  - apply rstrip_headed, lstrip_headed.
Qed.

Lemma py_split_nonempty (sep : ascii) (s : string) : py_split sep s <> [].
Proof.
  destruct s as [|c s]; simpl; [discriminate|].
  destruct (Ascii.eqb c sep); [discriminate|].
  destruct (py_split sep s); discriminate.
Qed.

(** The pieces of [py_split] are the text between the separators. *)
Lemma py_split_join (s : string) : py_join "," (py_split "," s) = s.
Proof.
  induction s as [|c s IH]; simpl; [reflexivity|].
  pose proof (py_split_nonempty "," s) as Hne.
  destruct (py_split "," s) as [|h t] eqn:Hs; [congruence|].
  destruct (Ascii.eqb c ",") eqn:E.
  - apply Ascii.eqb_eq in E. subst c. simpl in *. now rewrite IH.
  - destruct t; simpl in *; now rewrite <- IH.
Qed.

Lemma py_split_no_sep (s : string) :
  Forall (fun item => has_char "," item = false) (py_split "," s).
Proof.
  induction s as [|c s IH]; simpl.
  - now repeat constructor.
  - destruct (Ascii.eqb c ",") eqn:E.
    + now constructor.
    + destruct (py_split "," s) as [|h t]; simpl.
      * repeat constructor. simpl. now rewrite E.
      * inversion IH; subst. constructor; [|assumption]. simpl. now rewrite E.
Qed.

End StringFacts.

(** ** The resolution order *)

Lemma nonempty_true (s : string) : nonempty s = true <-> s <> "".
Proof. destruct s; simpl; split; congruence. Qed.

Lemma parse_sources_keys (source_env : string) :
  Forall (fun key => key <> "" /\ py_strip key = key /\ py_lower key = key)
         (parse_sources source_env).
Proof.
  unfold parse_sources. apply List.Forall_map.
  apply Forall_forall. intros item Hin.
  apply list_elem_of_filter in Hin as [Hne _].
  split; [|split].
  - apply nonempty_true. now rewrite py_lower_nonempty.
  - now rewrite strip_lower_commute, py_strip_idem.
  - apply py_lower_idem.
Qed.

(** C4: the override string is cut at the commas, every piece is
    stripped and lower-cased, pieces that strip to nothing are dropped;
    the string of the example parses to [env, keychain, 1password]; an
    unset or empty override leaves the default order in place. *)
Theorem override_order_parsing :
  parse_sources "Env, KEYCHAIN , ,1Password" = ["env"; "keychain"; "1password"]
  /\ (forall source_env : string,
        py_join "," (py_split "," source_env) = source_env
        /\ Forall (fun item => has_char "," item = false) (py_split "," source_env)
        /\ parse_sources source_env =
             map (fun item => py_lower (py_strip item))
                 (filter (fun item => py_strip item <> "") (py_split "," source_env))
        /\ Forall (fun key => key <> "" /\ py_strip key = key /\ py_lower key = key)
                  (parse_sources source_env))
  /\ (forall default : list string,
        preferred_sources_of None default = default
        /\ preferred_sources_of (Some "") default = default)
  /\ (forall (c : ascii) (rest : string) (default : list string),
        preferred_sources_of (Some (String c rest)) default
        = parse_sources (String c rest)).
Proof.
  split; [vm_compute; reflexivity|].
  split; [|split; [split; reflexivity | reflexivity]].
  intros source_env. split; [apply py_split_join|].
  split; [apply py_split_no_sep|].
  split; [|apply parse_sources_keys].
  unfold parse_sources. f_equal.
  apply list_filter_iff. intros item. apply nonempty_true.
Qed.

(** ** The resolution loop *)


Lemma run_sources_unknown (table : gmap string (M (option string)))
    (source : string) rest tried l :
  table !! source = None ->
  run_sources table (source :: rest) tried l
  = run_sources table rest (tried ++ [source +:+ " (unknown)"]) l.
Proof.
  intros H. cbn [run_sources].
  destruct (table !! source); [discriminate | reflexivity].
Qed.

Lemma run_sources_known (table : gmap string (M (option string)))
    (source : string) retriever rest tried l :
  table !! source = Some retriever ->
  run_sources table (source :: rest) tried l
  = match retriever (l ++ [EvCall source]) with
    | (Ret value, l') =>
        if truthy value then (Ret (value, tried), l')
        else run_sources table rest (tried ++ [source]) l'
    | (Raise e, l') => (Raise e, l')
    end.
Proof.
  intros H. cbn [run_sources].
  destruct (table !! source) as [r|]; [|discriminate].
  inversion H; subst r. unfold bind, emit.
  destruct (retriever _) as [[value|e] l']; [|reflexivity].
  now destruct (truthy value).
Qed.

(** A prefix of the order that ends without a value hands the rest of
    the order the list [tried] and the log it produced. *)
Lemma run_sources_app (table : gmap string (M (option string)))
    (pre post : list string) :
  forall tried l tried' l',
    run_sources table pre tried l = (Ret (None, tried'), l') ->
    run_sources table (pre ++ post) tried l = run_sources table post tried' l'.
Proof.
  induction pre as [|source pre IH]; intros tried l tried' l' H.
  - simpl in H. inversion H; subst. reflexivity.
  - rewrite <- app_comm_cons.
    destruct (table !! source) as [retriever|] eqn:Hs.
    + rewrite (run_sources_known _ _ _ pre _ _ Hs) in H.
      rewrite (run_sources_known _ _ _ (pre ++ post) _ _ Hs).
      revert H.
      destruct (retriever _) as [[value|e] l1]; [|discriminate].
      destruct (truthy value) eqn:Ht; intros H.
      * inversion H; subst. discriminate.
      * now apply IH.
    + rewrite (run_sources_unknown _ _ pre _ _ Hs) in H.
      rewrite (run_sources_unknown _ _ (pre ++ post) _ _ Hs). now apply IH.
Qed.

(** The loop only ever ends with a truthy value or with none. *)
Lemma run_sources_value (table : gmap string (M (option string)))
    (order : list string) :
  forall tried l value tried' l',
    run_sources table order tried l = (Ret (value, tried'), l') ->
    value = None \/ truthy value = true.
Proof.
  induction order as [|source order IH]; intros tried l value tried' l' H.
  - simpl in H. inversion H. now left.
  - destruct (table !! source) as [retriever|] eqn:Hs.
    + rewrite (run_sources_known _ _ _ _ _ _ Hs) in H.
      revert H.
      destruct (retriever _) as [[v|e] l1]; [|discriminate].
      destruct (truthy v) eqn:Ht; intros H.
      * inversion H; subst. now right.
      * eapply IH, H.
    + rewrite (run_sources_unknown _ _ _ _ _ Hs) in H. eapply IH, H.
Qed.

Lemma run_sources_first_match (table : gmap string (M (option string)))
    (pre post : list string) (source : string) (retriever : M (option string))
    (v : string) (tried tried' : list string) (l l' l'' : list event) :
  run_sources table pre tried l = (Ret (None, tried'), l') ->
  table !! source = Some retriever ->
  retriever (l' ++ [EvCall source]) = (Ret (Some v), l'') ->
  v <> "" ->
  run_sources table (pre ++ source :: post) tried l
  = (Ret (Some v, tried'), l'').
Proof.
  intros Hpre Hs Hr Hv.
  rewrite (run_sources_app _ _ _ _ _ _ _ Hpre).
  rewrite (run_sources_known _ _ _ _ _ _ Hs), Hr.
  simpl. apply nonempty_true in Hv. now rewrite Hv.
Qed.

(** C2: when the keys before position N end without a value and the
    strategy at position N returns the non-empty value [v], the loop
    returns exactly [v], with the log as it stands when that strategy
    returns: whatever follows position N in the order is not called. *)
Theorem first_match_wins (table : gmap string (M (option string)))
    (pre post : list string) (source : string) (retriever : M (option string))
    (v : string) (tried tried' : list string) (l l' l'' : list event) :
  run_sources table pre tried l = (Ret (None, tried'), l') ->
  table !! source = Some retriever ->
  retriever (l' ++ [EvCall source]) = (Ret (Some v), l'') ->
  v <> "" ->
  run_sources table (pre ++ source :: post) tried l
  = (Ret (Some v, tried'), l'').
Proof.
  intros Hpre Hs Hr Hv.
  now apply run_sources_first_match with (retriever := retriever) (l' := l').
Qed.

(** The value the loop returns is the value [get_api_key] returns. *)
Lemma get_api_key_first_match (w : World)
    (pre post : list string) (source : string) (retriever : M (option string))
    (v : string) (tried' : list string) (l l' l'' : list event) :
  linear_order w = pre ++ source :: post ->
  run_sources (Linear.API_KEY_SOURCES w) pre []
              (l ++ [EvGetenv "LINEAR_API_SOURCES"])
  = (Ret (None, tried'), l') ->
  Linear.API_KEY_SOURCES w !! source = Some retriever ->
  retriever (l' ++ [EvCall source]) = (Ret (Some v), l'') ->
  v <> "" ->
  get_api_key w l = (Ret v, l'').
Proof.
  intros Ho Hpre Hs Hr Hv.
  cbv [get_api_key os_getenv]. unfold bind at 1 2. unfold emit, ret at 1.
  fold (linear_order w). rewrite Ho. unfold bind at 1.
  now rewrite (run_sources_first_match _ _ _ _ _ _ _ _ _ _ _ Hpre Hs Hr Hv).
Qed.

(** The value the loop returns is the value the spreadsheet client
    hands to its post-processing. *)
Lemma resolve_first_match (w : World)
    (pre post : list string) (source : string) (retriever : M (option string))
    (v : string) (tried' : list string) (l l' l'' : list event) :
  sheets_order w = pre ++ source :: post ->
  run_sources (Sheets.CREDENTIAL_SOURCES w) pre []
              (l ++ [EvGetenv "GOOGLE_SHEETS_CREDENTIAL_SOURCES"])
  = (Ret (None, tried'), l') ->
  Sheets.CREDENTIAL_SOURCES w !! source = Some retriever ->
  retriever (l' ++ [EvCall source]) = (Ret (Some v), l'') ->
  v <> "" ->
  resolve_credential_data w l = (Ret v, l'').
Proof.
  intros Ho Hpre Hs Hr Hv.
  cbv [resolve_credential_data os_getenv]. unfold bind at 1 2. unfold emit, ret at 1.
  fold (sheets_order w). rewrite Ho. unfold bind at 1.
  rewrite (run_sources_first_match _ _ _ _ _ _ _ _ _ _ _ Hpre Hs Hr Hv).
  apply nonempty_true in Hv. now rewrite Hv.
Qed.

(** A call-count check of [first_match_wins]: [c] is never called. *)
Lemma first_match_wins_witness :
  run_sources demo_table (["zzz"; "a"] ++ "b" :: ["c"]) [] []
  = (Ret (Some "tok", ["zzz (unknown)"; "a"]),
     [EvCall "a"; EvPrint "a"; EvCall "b"; EvPrint "b"])
  /\ calls [EvCall "a"; EvPrint "a"; EvCall "b"; EvPrint "b"] = ["a"; "b"].
Proof.
  split; [|reflexivity].
  apply (first_match_wins demo_table ["zzz"; "a"] ["c"] "b"
           (print "b" ;;; ret (Some "tok")) "tok" []
           ["zzz (unknown)"; "a"] [] [EvCall "a"; EvPrint "a"]).
  - vm_compute. reflexivity.
  - vm_compute. reflexivity.
  - vm_compute. reflexivity.
  - discriminate.
Defined.

(** An order whose known sources all yield nothing ends without a
    value, and [tried] has one entry for every key of the order. *)
Lemma run_sources_exhausted (table : gmap string (M (option string)))
    (order : list string) :
  forall tried l,
    (forall k f, k ∈ order -> table !! k = Some f -> yields_nothing f) ->
    exists l',
      run_sources table order tried l
      = (Ret (None, tried ++ map (attempt_label table) order), l').
Proof.
  induction order as [|source order IH]; intros tried l H.
  - exists l. simpl. now rewrite app_nil_r.
  - assert (Hrest : forall k f, k ∈ order -> table !! k = Some f ->
                                yields_nothing f).
    { intros k f Hk. apply H. now right. }
    simpl map. unfold attempt_label at 1.
    destruct (table !! source) as [retriever|] eqn:Hs.
    + rewrite (run_sources_known _ _ _ _ _ _ Hs).
      destruct (H source retriever (list_elem_of_here _ _) Hs
                  (l ++ [EvCall source])) as (r & l1 & Hr & Hf).
      rewrite Hr, Hf.
      destruct (IH (tried ++ [source]) l1 Hrest) as [l' Hl'].
      exists l'. rewrite Hl'. now rewrite <- app_assoc.
    + rewrite (run_sources_unknown _ _ _ _ _ Hs).
      destruct (IH (tried ++ [source +:+ " (unknown)"]) l Hrest) as [l' Hl'].
      exists l'. rewrite Hl'. now rewrite <- app_assoc.
Qed.

(** An order of unknown keys only: nothing is called, the log is left
    as it is. *)
Lemma run_sources_all_unknown (table : gmap string (M (option string)))
    (order : list string) :
  forall tried l,
    Forall (fun k => table !! k = None) order ->
    run_sources table order tried l
    = (Ret (None, tried ++ map (fun k => k +:+ " (unknown)") order), l).
Proof.
  induction order as [|source order IH]; intros tried l H.
  - simpl. now rewrite app_nil_r.
  - inversion H as [|? ? Hs Hrest]; subst.
    rewrite (run_sources_unknown _ _ _ _ _ Hs), (IH _ _ Hrest).
    simpl. now rewrite <- app_assoc.
Qed.

(** ** Exhaustion *)

Lemma resolve_exhausted (w : World) (l : list event) tried' l' :
  run_sources (Sheets.CREDENTIAL_SOURCES w) (sheets_order w) []
              (l ++ [EvGetenv "GOOGLE_SHEETS_CREDENTIAL_SOURCES"])
  = (Ret (None, tried'), l') ->
  get_service_account_credentials w l
  = (Raise (Exc (GoogleSheetsAuthError (auth_error_message tried'))), l').
Proof.
  intros H.
  unfold get_service_account_credentials, resolve_credential_data, os_getenv.
  unfold bind at 1 2 3. unfold emit, ret at 1. fold (sheets_order w).
  unfold bind. rewrite H. reflexivity.
Qed.

(** The Linear client prints the same list and leaves the process. *)
Lemma get_api_key_exhausted (w : World) (l : list event) :
  (forall k f, k ∈ linear_order w -> Linear.API_KEY_SOURCES w !! k = Some f ->
               yields_nothing f) ->
  exists l',
    let tried := map (attempt_label (Linear.API_KEY_SOURCES w)) (linear_order w) in
    get_api_key w l
    = (Raise (SystemExit 1),
       l' ++ [EvPrint "Error: Unable to retrieve Linear API key.";
              EvPrint (if bool_decide (tried = []) then "Tried sources: (none)"
                       else "Tried sources: " +:+ py_join ", " tried);
              EvPrint "Set LINEAR_API_KEY, store the key in Keychain (service 'Linear API Key'), or configure a 1Password item.";
              EvPrint "Override lookup order via LINEAR_API_SOURCES (comma separated, e.g., 'env,1password')."]).
Proof.
  intros H.
  destruct (run_sources_exhausted (Linear.API_KEY_SOURCES w) (linear_order w) []
              (l ++ [EvGetenv "LINEAR_API_SOURCES"]) H) as [l' Hl'].
  exists l'. cbv zeta.
  cbv [get_api_key os_getenv]. unfold bind at 1 2. unfold emit at 1, ret at 1.
  fold (linear_order w). unfold bind at 1. rewrite Hl'. simpl app.
  cbv [bind print emit sys_exit raise].
  destruct (bool_decide _); cbv iota beta; now rewrite <- !app_assoc.
Qed.

(** A text that occurs in the end of a message occurs in the message. *)
Lemma substring_append_right (a b : string) (k n : nat) :
  String.substring (String.length a + k) n (a +:+ b) = String.substring k n b.
Proof. induction a as [|c a IH]; simpl; [reflexivity | exact IH]. Qed.

Lemma mentions_suffix (a b x : string) :
  mentions b x = true -> mentions (a +:+ b) x = true.
Proof.
  unfold mentions.
  destruct (String.index 0 x b) as [k|] eqn:Hb; [intros _ | discriminate].
  destruct (String.index 0 x (a +:+ b)) as [k'|] eqn:Ha; [reflexivity|].
  exfalso. destruct x as [|c x].
  - destruct (a +:+ b); discriminate.
  - apply (String.index_correct3 0 (String.length a + k) _ _ Ha);
      [discriminate | lia |].
    rewrite substring_append_right.
    now apply String.index_correct1 in Hb.
Qed.

Lemma append_assoc (a b c : string) : (a +:+ b) +:+ c = a +:+ (b +:+ c).
Proof.
  induction a as [|x a IH]; [reflexivity | exact (f_equal (String x) IH)].
Qed.

Lemma auth_error_message_ends (tried : list string) :
  exists head, auth_error_message tried = head +:+ AUTH_GUIDANCE.
Proof.
  unfold auth_error_message.
  exists ("Unable to retrieve Google Sheets service account credentials." +:+ NL
          +:+ (if bool_decide (tried = []) then ""
               else "Tried sources: " +:+ py_join ", " tried +:+ NL)).
  now rewrite !append_assoc.
Qed.

(** C3: when no source of the order yields a value the resolution
    raises [GoogleSheetsAuthError]; its message lists one entry per key
    of the order, an unknown key with the mark [(unknown)], and ends
    with the static guidance.  An unknown key is skipped without a call,
    and an order of unknown keys leaves no event after the read of the
    override variable.  The guidance is the two sentences of lines
    151-153; it names the variable of the service account, the
    Keychain, 1Password and the variable that overrides the order, and
    so does every message of the error.  The Linear client prints its
    list and its own two lines of guidance and leaves the process with
    status 1. *)
Theorem exhaustion_diagnostic (w : World) (l : list event) :
  let table := Sheets.CREDENTIAL_SOURCES w in
  let order := sheets_order w in
  let l0 := l ++ [EvGetenv "GOOGLE_SHEETS_CREDENTIAL_SOURCES"] in
  let named := ["GOOGLE_SHEETS_SERVICE_ACCOUNT"; "Keychain"; "1Password";
                "GOOGLE_SHEETS_CREDENTIAL_SOURCES"] in
  ((forall k f, k ∈ order -> table !! k = Some f -> yields_nothing f) ->
     exists l',
       get_service_account_credentials w l
       = (Raise (Exc (GoogleSheetsAuthError
            (auth_error_message (map (attempt_label table) order)))), l'))
  /\ (Forall (fun k => table !! k = None) order ->
        get_service_account_credentials w l
        = (Raise (Exc (GoogleSheetsAuthError
             (auth_error_message (map (fun k => k +:+ " (unknown)") order)))), l0))
  /\ (forall (k : string) rest tried l1,
        table !! k = None ->
        run_sources table (k :: rest) tried l1
        = run_sources table rest (tried ++ [k +:+ " (unknown)"]) l1)
  /\ (forall tried : list string,
        tried <> [] ->
        auth_error_message tried
        = "Unable to retrieve Google Sheets service account credentials." +:+ NL
          +:+ ("Tried sources: " +:+ py_join ", " tried +:+ NL)
          +:+ AUTH_GUIDANCE)
  /\ auth_error_message []
     = "Unable to retrieve Google Sheets service account credentials." +:+ NL
       +:+ AUTH_GUIDANCE
  /\ AUTH_GUIDANCE
     = "Set GOOGLE_SHEETS_SERVICE_ACCOUNT environment variable, store credentials in Keychain, or configure 1Password."
       +:+ NL
       +:+ "Override lookup order via GOOGLE_SHEETS_CREDENTIAL_SOURCES (comma separated)."
  /\ Forall (fun name => mentions AUTH_GUIDANCE name = true) named
  /\ (forall tried : list string,
        Forall (fun name => mentions (auth_error_message tried) name = true) named)
  /\ ((forall k f, k ∈ linear_order w -> Linear.API_KEY_SOURCES w !! k = Some f ->
                   yields_nothing f) ->
      exists l',
        let tried := map (attempt_label (Linear.API_KEY_SOURCES w)) (linear_order w) in
        get_api_key w l
        = (Raise (SystemExit 1),
           l' ++ [EvPrint "Error: Unable to retrieve Linear API key.";
                  EvPrint (if bool_decide (tried = []) then "Tried sources: (none)"
                           else "Tried sources: " +:+ py_join ", " tried);
                  EvPrint "Set LINEAR_API_KEY, store the key in Keychain (service 'Linear API Key'), or configure a 1Password item.";
                  EvPrint "Override lookup order via LINEAR_API_SOURCES (comma separated, e.g., 'env,1password')."])).
Proof.
  intros table order l0 named.
  assert (Hnamed : Forall (fun name => mentions AUTH_GUIDANCE name = true) named)
    by (repeat constructor).
  split; [|split; [|split; [|split; [|split; [|split; [|split; [|split]]]]]]].
  - intros H.
    destruct (run_sources_exhausted table order [] l0 H) as [l' Hl'].
    exists l'. now apply resolve_exhausted.
  - intros H. apply resolve_exhausted.
    exact (run_sources_all_unknown table order [] l0 H).
  - intros k rest tried l1 Hk. now apply run_sources_unknown.
  - intros tried Hne. unfold auth_error_message.
    now rewrite bool_decide_eq_false_2.
  - reflexivity.
  - reflexivity.
  - exact Hnamed.
  - intros tried. destruct (auth_error_message_ends tried) as [head ->].
    eapply Forall_impl; [exact Hnamed|].
    intros name. apply mentions_suffix.
  - apply get_api_key_exhausted.
Qed.

Lemma exhaustion_diagnostic_witness :
  (exists l',
     get_service_account_credentials bare_world []
     = (Raise (Exc (GoogleSheetsAuthError
          ("Unable to retrieve Google Sheets service account credentials." +:+ NL
           +:+ "Tried sources: json, env, keychain, 1password" +:+ NL
           +:+ "Set GOOGLE_SHEETS_SERVICE_ACCOUNT environment variable, store credentials in Keychain, or configure 1Password."
           +:+ NL
           +:+ "Override lookup order via GOOGLE_SHEETS_CREDENTIAL_SOURCES (comma separated)."))),
        l'))
  /\ get_service_account_credentials unknown_keys_world []
     = (Raise (Exc (GoogleSheetsAuthError
          ("Unable to retrieve Google Sheets service account credentials." +:+ NL
           +:+ "Tried sources: vault (unknown), token (unknown)" +:+ NL
           +:+ "Set GOOGLE_SHEETS_SERVICE_ACCOUNT environment variable, store credentials in Keychain, or configure 1Password."
           +:+ NL
           +:+ "Override lookup order via GOOGLE_SHEETS_CREDENTIAL_SOURCES (comma separated)."))),
        [EvGetenv "GOOGLE_SHEETS_CREDENTIAL_SOURCES"])
  /\ run_sources (Sheets.CREDENTIAL_SOURCES bare_world) ["vault"; "env"] [] []
     = run_sources (Sheets.CREDENTIAL_SOURCES bare_world) ["env"]
                   ["vault (unknown)"] []
  /\ auth_error_message ["vault (unknown)"; "env"]
     = "Unable to retrieve Google Sheets service account credentials." +:+ NL
       +:+ ("Tried sources: vault (unknown), env" +:+ NL)
       +:+ AUTH_GUIDANCE.
Proof.
  pose proof (exhaustion_diagnostic bare_world [])
    as (Hexhausted & _ & Hskip & Hshape & _).
  pose proof (exhaustion_diagnostic unknown_keys_world [])
    as (_ & Hunknown & _).
  cbv zeta in Hexhausted, Hskip, Hshape, Hunknown.
  split; [|split; [|split]].
  - apply Hexhausted.
    intros k f Hk Hf l. vm_compute in Hk.
    repeat (apply elem_of_cons in Hk as [->|Hk]);
      [ | | | | now apply elem_of_nil in Hk ];
      vm_compute in Hf; injection Hf as <-;
      eexists _, _; split; reflexivity.
  - apply Hunknown. vm_compute. repeat constructor.
  - apply Hskip. vm_compute. reflexivity.
  - apply Hshape. discriminate.
Defined.

(** ** Blank lookups *)

Lemma strip_if_set_absent (v : option string) :
  absent (env_lookup v) = true -> truthy (strip_if_set v) = false.
Proof.
  unfold strip_if_set. destruct v as [s|]; simpl; [|reflexivity].
  intros H. destruct (nonempty s); simpl; [|reflexivity].
  now destruct (nonempty (py_strip s)).
Qed.

Lemma stripped_or_none_absent (stdout : string) :
  absent (Found stdout) = true -> stripped_or_none stdout = None.
Proof.
  unfold stripped_or_none. simpl.
  now destruct (nonempty (py_strip stdout)).
Qed.

(** A source that reads one variable. *)
Lemma env_source_absent (w : World) (name : string) (l : list event) :
  absent (env_lookup (os_environ w !! name)) = true ->
  exists r,
    (v <- os_getenv w name ;; ret (strip_if_set v)) l
    = (Ret r, l ++ [EvGetenv name])
    /\ truthy r = false.
Proof.
  intros H. eexists. split; [reflexivity|].
  now apply strip_if_set_absent.
Qed.

(** A source that runs one process. *)
Lemma proc_source_absent (w : World) (argv : list string) (l : list event) :
  absent (proc_lookup (subprocess w argv)) = true ->
  exists r,
    try_except (stdout <- subprocess_run w argv ;; ret (stripped_or_none stdout))
               lookup_failed_to_none l
    = (Ret r, l ++ [EvRun argv])
    /\ truthy r = false.
Proof.
  intros H. unfold try_except, subprocess_run, bind, emit.
  destruct (subprocess w argv) as [stdout|t|t|t]; simpl in *.
  - eexists. split; [reflexivity|].
    now rewrite stripped_or_none_absent.
  - now eexists.
  - now eexists.
  - discriminate.
Qed.

Lemma sheets_source_absent (w : World) (source : string)
    (retriever : M (option string)) (l : list event) :
  Sheets.CREDENTIAL_SOURCES w !! source = Some retriever ->
  absent (raw_lookup w source) = true ->
  exists r evs,
    retriever l = (Ret r, l ++ evs) /\ truthy r = false /\ calls evs = [].
Proof.
  unfold Sheets.CREDENTIAL_SOURCES. intros Hs Ha.
  apply lookup_insert_Some in Hs as [[<- <-]|[_ Hs]].
  { destruct (env_source_absent w _ l Ha) as (r & Hr & Hf).
    now exists r, [EvGetenv "GOOGLE_SHEETS_SERVICE_ACCOUNT_JSON"]. }
  apply lookup_insert_Some in Hs as [[<- <-]|[_ Hs]].
  { destruct (env_source_absent w _ l Ha) as (r & Hr & Hf).
    now exists r, [EvGetenv "GOOGLE_SHEETS_SERVICE_ACCOUNT"]. }
  apply lookup_insert_Some in Hs as [[<- <-]|[_ Hs]].
  { unfold Sheets._from_keychain, os_getenv_or, os_getenv.
    unfold bind at 1 2 3. unfold emit, ret at 1 2.
    destruct (proc_source_absent w _ (l ++ [EvGetenv "USER"]) Ha) as (r & Hr & Hf).
    eexists r, [EvGetenv "USER"; EvRun _].
    rewrite Hr, <- app_assoc. now repeat split. }
  apply lookup_singleton_Some in Hs as [<- <-].
  unfold Sheets._from_1password, os_getenv_or, os_getenv.
  unfold bind at 1 2 3. unfold emit, ret at 1 2.
  destruct (proc_source_absent w _ (l ++ [EvGetenv "GOOGLE_SHEETS_1PASSWORD_PATH"]) Ha)
    as (r & Hr & Hf).
  eexists r, [EvGetenv "GOOGLE_SHEETS_1PASSWORD_PATH"; EvRun _].
  rewrite Hr, <- app_assoc. now repeat split.
Qed.

(** C5: for each of the four sources, a lookup that finds nothing, an
    empty string or blanks only makes the source return a falsy value.
    The loop has then called the source once and no other, has appended
    its key to [tried], and holds no value: alone in the order the key
    ends the loop with [(None, tried ++ [source])]; before other keys
    the loop goes on with them from that list, so that a next source
    which finds a value is called after it and gives the result, with
    the blank source in [tried]. *)
Theorem blank_lookup_is_absent (w : World) (source : string)
    (retriever : M (option string)) :
  Sheets.CREDENTIAL_SOURCES w !! source = Some retriever ->
  absent (raw_lookup w source) = true ->
  forall (tried : list string) (l : list event),
  exists r evs,
    let table := Sheets.CREDENTIAL_SOURCES w in
    let l' := l ++ EvCall source :: evs in
    retriever (l ++ [EvCall source]) = (Ret r, l')
    /\ truthy r = false
    /\ calls evs = []
    /\ run_sources table [source] tried l = (Ret (None, tried ++ [source]), l')
    /\ (forall rest,
          run_sources table (source :: rest) tried l
          = run_sources table rest (tried ++ [source]) l')
    /\ (forall next found rest value l'',
          table !! next = Some found ->
          found (l' ++ [EvCall next]) = (Ret value, l'') ->
          truthy value = true ->
          run_sources table (source :: next :: rest) tried l
          = (Ret (value, tried ++ [source]), l'')).
Proof.
  intros Hs Ha tried l.
  destruct (sheets_source_absent w source retriever (l ++ [EvCall source]) Hs Ha)
    as (r & evs & Hr & Hf & Hc).
  rewrite <- app_assoc in Hr. simpl in Hr.
  exists r, evs. cbv zeta.
  assert (Hstep : forall rest,
            run_sources (Sheets.CREDENTIAL_SOURCES w) (source :: rest) tried l
            = run_sources (Sheets.CREDENTIAL_SOURCES w) rest (tried ++ [source])
                (l ++ EvCall source :: evs)).
  { intros rest. now rewrite (run_sources_known _ _ _ _ _ _ Hs), Hr, Hf. }
  split; [exact Hr|]. split; [exact Hf|]. split; [exact Hc|].
  split; [now rewrite Hstep|]. split; [exact Hstep|].
  intros next found rest value l'' Hn Hv Ht.
  now rewrite Hstep, (run_sources_known _ _ _ _ _ _ Hn), Hv, Ht.
Qed.

Lemma blank_lookup_is_absent_witness :
  run_sources (Sheets.CREDENTIAL_SOURCES blank_env_world) ["env"] [] []
  = (Ret (None, ["env"]),
     [EvCall "env"; EvGetenv "GOOGLE_SHEETS_SERVICE_ACCOUNT"])
  /\ run_sources (Sheets.CREDENTIAL_SOURCES blank_env_world)
       ["env"; "keychain"] ["json"] []
     = run_sources (Sheets.CREDENTIAL_SOURCES blank_env_world)
         ["keychain"] ["json"; "env"]
         [EvCall "env"; EvGetenv "GOOGLE_SHEETS_SERVICE_ACCOUNT"].
Proof.
  assert (Hs : Sheets.CREDENTIAL_SOURCES blank_env_world !! "env"
               = Some (Sheets._from_env blank_env_world))
    by (vm_compute; reflexivity).
  assert (Ha : absent (raw_lookup blank_env_world "env") = true)
    by (vm_compute; reflexivity).
  split.
  - destruct (blank_lookup_is_absent blank_env_world "env" _ Hs Ha [] [])
      as (r & evs & Hr & _ & _ & Hone & _).
    cbv zeta in Hr, Hone.
    assert (Hevs : evs = [EvGetenv "GOOGLE_SHEETS_SERVICE_ACCOUNT"]).
    { vm_compute in Hr. now inversion Hr. }
    rewrite Hevs in Hone. exact Hone.
  - destruct (blank_lookup_is_absent blank_env_world "env" _ Hs Ha ["json"] [])
      as (r & evs & Hr & _ & _ & _ & Hstep & _).
    cbv zeta in Hr, Hstep.
    assert (Hevs : evs = [EvGetenv "GOOGLE_SHEETS_SERVICE_ACCOUNT"]).
    { vm_compute in Hr. now inversion Hr. }
    rewrite Hevs in Hstep. exact (Hstep ["keychain"]).
Defined.

(** ** Post-processing of the resolved value *)

(** [load_credentials] parses its argument once, then either builds the
    credentials from the document or loads the file of that name. *)
Lemma load_credentials_events (w : World) (d : string) (l : list event) :
  exists res evs,
    load_credentials w d l = (res, l ++ evs)
    /\ Forall (fun ev => is_run ev = false) evs
    /\ Forall (fun ev => forall s, reads_as_credential s ev = true -> s = d) evs.
Proof.
  unfold load_credentials, try_except, json_loads, from_service_account_info,
    from_service_account_file, bind, emit, ret, raise.
  destruct (json_decode w d) as [j|].
  - destruct (info_rejected w j) as [t|];
      eexists _, [EvJsonLoads d; EvFromInfo j];
      (split; [now rewrite <- app_assoc|]);
      (split; [now repeat constructor|]);
      repeat (apply Forall_cons; split;
              [simpl; intros x Hx; try discriminate; now apply String.eqb_eq in Hx|]);
      apply Forall_nil_2.
  - destruct (files w !! d) as [content|];
      [destruct (file_rejected w content) as [t|]|destruct (unreadable w d) as [t|]];
      eexists _, [EvJsonLoads d; EvFromFile d];
      (split; [now rewrite <- app_assoc|]);
      (split; [now repeat constructor|]);
      repeat (apply Forall_cons; split;
              [simpl; intros x Hx; try discriminate; now apply String.eqb_eq in Hx|]);
      apply Forall_nil_2.
Qed.

Lemma post_process_deref_ok (w : World) (secret stdout : string) (l : list event) :
  startswith secret "op://" = true ->
  subprocess w ["op"; "read"; secret] = Completed stdout ->
  post_process w secret l
  = load_credentials w (py_strip stdout) (l ++ [EvRun ["op"; "read"; secret]]).
Proof.
  intros Hp Hs. unfold post_process, dereference. rewrite Hp.
  unfold bind at 1. unfold try_except, subprocess_run, bind, emit.
  now rewrite Hs.
Qed.

Lemma post_process_deref_failed (w : World) (secret t : string) (l : list event) :
  startswith secret "op://" = true ->
  subprocess w ["op"; "read"; secret] = NoSuchBinary t
  \/ subprocess w ["op"; "read"; secret] = NonZeroExit t ->
  post_process w secret l
  = (Raise (Exc (GoogleSheetsAuthError
       ("Failed to read 1Password reference: " +:+ secret))),
     l ++ [EvRun ["op"; "read"; secret]]).
Proof.
  intros Hp Hs. unfold post_process, dereference. rewrite Hp.
  unfold bind at 1. unfold try_except, subprocess_run, bind, emit.
  now destruct Hs as [-> | ->].
Qed.

Lemma post_process_deref_raised (w : World) (secret t : string) (l : list event) :
  startswith secret "op://" = true ->
  subprocess w ["op"; "read"; secret] = ProcRaised t ->
  post_process w secret l
  = (Raise (Exc (OtherError t)), l ++ [EvRun ["op"; "read"; secret]]).
Proof.
  intros Hp Hs. unfold post_process, dereference. rewrite Hp.
  unfold bind at 1. unfold try_except, subprocess_run, bind, emit.
  now rewrite Hs.
Qed.

(** C6: a value that starts with [op://] is read through the CLI once.
    When the read fails because the binary is missing or exits with a
    status other than 0, the error names the reference and nothing else
    happens; an exception of another class leaves the function as it
    is.  When the read succeeds the stripped output is what is parsed
    or loaded, so the reference itself is parsed or loaded only when
    the output is the reference.  A value without the prefix that
    decodes as JSON goes to the library as inline material, with no
    file access; one that does not decode is loaded as a file: a path
    that does not exist raises the file-not-found error, a path that
    cannot be opened the failed-to-load error. *)
Theorem post_processing_chain (w : World) (secret : string) (l : list event) :
  let deref := EvRun ["op"; "read"; secret] in
  (forall t,
     startswith secret "op://" = true ->
     subprocess w ["op"; "read"; secret] = NoSuchBinary t
     \/ subprocess w ["op"; "read"; secret] = NonZeroExit t ->
     post_process w secret l
     = (Raise (Exc (GoogleSheetsAuthError
          ("Failed to read 1Password reference: " +:+ secret))), l ++ [deref]))
  /\ (forall t,
        startswith secret "op://" = true ->
        subprocess w ["op"; "read"; secret] = ProcRaised t ->
        post_process w secret l = (Raise (Exc (OtherError t)), l ++ [deref]))
  /\ (forall stdout,
        startswith secret "op://" = true ->
        subprocess w ["op"; "read"; secret] = Completed stdout ->
        post_process w secret l
        = load_credentials w (py_strip stdout) (l ++ [deref]))
  /\ (startswith secret "op://" = true ->
      exists res evs,
        post_process w secret l = (res, l ++ deref :: evs)
        /\ Forall (fun ev => is_run ev = false) evs
        /\ (forall stdout,
              subprocess w ["op"; "read"; secret] = Completed stdout ->
              py_strip stdout <> secret ->
              Forall (fun ev => reads_as_credential secret ev = false) evs))
  /\ (forall creds_dict,
        startswith secret "op://" = false ->
        json_decode w secret = Some creds_dict ->
        post_process w secret l
        = (match info_rejected w creds_dict with
           | Some t => Raise (Exc (OtherError t))
           | None => Ret (FromInfo creds_dict Sheets.SCOPES)
           end,
           l ++ [EvJsonLoads secret; EvFromInfo creds_dict]))
  /\ (startswith secret "op://" = false ->
      json_decode w secret = None ->
      files w !! secret = None ->
      unreadable w secret = None ->
      post_process w secret l
      = (Raise (Exc (GoogleSheetsAuthError
           ("Service account file not found: " +:+ secret))),
         l ++ [EvJsonLoads secret; EvFromFile secret]))
  /\ (forall t,
        startswith secret "op://" = false ->
        json_decode w secret = None ->
        files w !! secret = None ->
        unreadable w secret = Some t ->
        post_process w secret l
        = (Raise (Exc (GoogleSheetsAuthError
             ("Failed to load service account credentials: " +:+ t))),
           l ++ [EvJsonLoads secret; EvFromFile secret])).
Proof.
  intros deref. subst deref.
  split; [|split; [|split; [|split; [|split; [|split]]]]].
  - intros t. apply post_process_deref_failed.
  - intros t. apply post_process_deref_raised.
  - intros stdout. apply post_process_deref_ok.
  - intros Hp.
    destruct (subprocess w ["op"; "read"; secret]) as [stdout|t|t|t] eqn:Hs.
    + rewrite (post_process_deref_ok w secret stdout l Hp Hs).
      destruct (load_credentials_events w (py_strip stdout)
                  (l ++ [EvRun ["op"; "read"; secret]]))
        as (res & evs & Hl & Hrun & Hread).
      exists res, evs. rewrite Hl, <- app_assoc. split; [reflexivity|].
      split; [exact Hrun|].
      intros stdout' Heq Hne. inversion Heq; subst stdout'.
      eapply Forall_impl; [exact Hread|]. simpl. intros ev Hev.
      destruct (reads_as_credential secret ev) eqn:E; [|reflexivity].
      specialize (Hev secret E). congruence.
    + eexists _, [].
      rewrite (post_process_deref_failed w secret t l Hp (or_introl Hs)).
      split; [reflexivity|]. split; [constructor|]. intros; constructor.
    + eexists _, [].
      rewrite (post_process_deref_failed w secret t l Hp (or_intror Hs)).
      split; [reflexivity|]. split; [constructor|]. intros; constructor.
    + eexists _, [].
      rewrite (post_process_deref_raised w secret t l Hp Hs).
      split; [reflexivity|]. split; [constructor|]. intros; constructor.
  - intros creds_dict Hp Hj. unfold post_process, dereference. rewrite Hp.
    unfold load_credentials, try_except, json_loads, from_service_account_info,
      bind, emit, ret, raise. rewrite Hj.
    destruct (info_rejected w creds_dict); now rewrite <- app_assoc.
  - intros Hp Hj Hf Hu. unfold post_process, dereference. rewrite Hp.
    unfold load_credentials, try_except, json_loads, from_service_account_file,
      bind, emit, ret, raise. rewrite Hj, Hf, Hu. now rewrite <- app_assoc.
  - intros t Hp Hj Hf Hu. unfold post_process, dereference. rewrite Hp.
    unfold load_credentials, try_except, json_loads, from_service_account_file,
      bind, emit, ret, raise. rewrite Hj, Hf, Hu. now rewrite <- app_assoc.
Qed.

Lemma post_processing_chain_witness :
  post_process bare_world "op://Vault/sheets/credential" []
  = (Raise (Exc (GoogleSheetsAuthError
       "Failed to read 1Password reference: op://Vault/sheets/credential")),
     [EvRun ["op"; "read"; "op://Vault/sheets/credential"]])
  /\ post_process denied_world "op://Vault/sheets/credential" []
     = (Raise (Exc (OtherError "[Errno 13] Permission denied: 'op'")),
        [EvRun ["op"; "read"; "op://Vault/sheets/credential"]])
  /\ post_process op_world "op://Vault/sheets/credential" []
     = load_credentials op_world "/etc/sheets/creds.json"
         [EvRun ["op"; "read"; "op://Vault/sheets/credential"]]
  /\ (exists res evs,
        post_process op_world "op://Vault/sheets/credential" []
        = (res, [] ++ EvRun ["op"; "read"; "op://Vault/sheets/credential"] :: evs)
        /\ Forall (fun ev => is_run ev = false) evs
        /\ Forall (fun ev =>
             reads_as_credential "op://Vault/sheets/credential" ev = false) evs)
  /\ post_process json_world "{}" []
     = (Ret (FromInfo (PDict [("type", PStr "service_account")]) Sheets.SCOPES),
        [EvJsonLoads "{}";
         EvFromInfo (PDict [("type", PStr "service_account")])])
  /\ post_process bare_world "/no/such/creds.json" []
     = (Raise (Exc (GoogleSheetsAuthError
          "Service account file not found: /no/such/creds.json")),
        [EvJsonLoads "/no/such/creds.json"; EvFromFile "/no/such/creds.json"])
  /\ post_process directory_world "/etc/sheets" []
     = (Raise (Exc (GoogleSheetsAuthError
          "Failed to load service account credentials: [Errno 21] Is a directory: '/etc/sheets'")),
        [EvJsonLoads "/etc/sheets"; EvFromFile "/etc/sheets"]).
Proof.
  pose proof (post_processing_chain bare_world "op://Vault/sheets/credential" [])
    as (Hfail & _).
  pose proof (post_processing_chain denied_world "op://Vault/sheets/credential" [])
    as (_ & Hraised & _).
  pose proof (post_processing_chain op_world "op://Vault/sheets/credential" [])
    as (_ & _ & Hok & Hevents & _).
  pose proof (post_processing_chain json_world "{}" [])
    as (_ & _ & _ & _ & Hinline & _).
  pose proof (post_processing_chain bare_world "/no/such/creds.json" [])
    as (_ & _ & _ & _ & _ & Hnofile & _).
  pose proof (post_processing_chain directory_world "/etc/sheets" [])
    as (_ & _ & _ & _ & _ & _ & Hdir).
  split; [|split; [|split; [|split; [|split; [|split]]]]].
  - apply (Hfail "No such file or directory"); [reflexivity|now left].
  - apply (Hraised "[Errno 13] Permission denied: 'op'"); reflexivity.
  - apply (Hok ("/etc/sheets/creds.json" +:+ NL)); reflexivity.
  - destruct (Hevents eq_refl) as (res & evs & Hp & Hrun & Hread).
    exists res, evs. split; [exact Hp|]. split; [exact Hrun|].
    apply (Hread ("/etc/sheets/creds.json" +:+ NL)); [reflexivity|].
    vm_compute. discriminate.
  - apply (Hinline (PDict [("type", PStr "service_account")])); reflexivity.
  - apply Hnofile; reflexivity.
  - apply (Hdir "[Errno 21] Is a directory: '/etc/sheets'"); reflexivity.
Defined.

(** The reading of C6 without its two exceptions fails in both.  Where
    the item behind the reference holds the reference, the reference is
    the string given to [json.loads] and to the file loader; where the
    binary may not be executed, the [PermissionError] of the call is
    not one of the two classes of line 168 and leaves
    [get_service_account_credentials] as it is, not as a
    [GoogleSheetsAuthError] that names the reference. *)
Lemma reference_parsed_and_error_escapes :
  get_service_account_credentials echo_world []
  = (Raise (Exc (GoogleSheetsAuthError
       "Service account file not found: op://Vault/sheets/credential")),
     [EvGetenv "GOOGLE_SHEETS_CREDENTIAL_SOURCES";
      EvCall "json"; EvGetenv "GOOGLE_SHEETS_SERVICE_ACCOUNT_JSON";
      EvCall "env"; EvGetenv "GOOGLE_SHEETS_SERVICE_ACCOUNT";
      EvRun ["op"; "read"; "op://Vault/sheets/credential"];
      EvJsonLoads "op://Vault/sheets/credential";
      EvFromFile "op://Vault/sheets/credential"])
  /\ get_service_account_credentials denied_world []
     = (Raise (Exc (OtherError "[Errno 13] Permission denied: 'op'")),
        [EvGetenv "GOOGLE_SHEETS_CREDENTIAL_SOURCES";
         EvCall "json"; EvGetenv "GOOGLE_SHEETS_SERVICE_ACCOUNT_JSON";
         EvCall "env"; EvGetenv "GOOGLE_SHEETS_SERVICE_ACCOUNT";
         EvRun ["op"; "read"; "op://Vault/sheets/credential"]]).
Proof.
  split; vm_compute; reflexivity.
Qed.

(** ** Rows as dictionaries *)

Section Dicts.

Implicit Types (pairs : list (string * string)) (d : gmap string string).
Implicit Types (headers row : list string).

Lemma foldl_insert_dom pairs : forall d,
  dom (foldl (fun d kv => <[ kv.1 := kv.2 ]> d) d pairs)
  = dom d ∪ list_to_set pairs.*1.
Proof.
  induction pairs as [|[k v] pairs IH]; intros d; simpl.
  - set_solver.
  - rewrite IH, dom_insert_L. set_solver.
Qed.

Lemma foldl_insert_other pairs (k : string) : forall d,
  k ∉ pairs.*1 ->
  foldl (fun d kv => <[ kv.1 := kv.2 ]> d) d pairs !! k = d !! k.
Proof.
  induction pairs as [|[k' v] pairs IH]; intros d Hk; simpl; [reflexivity|].
  simpl in Hk. apply not_elem_of_cons in Hk as [Hne Hk].
  rewrite IH by exact Hk. now apply lookup_insert_ne.
Qed.

(** The pair that is last for its key decides the value. *)
Lemma foldl_insert_last pairs : forall d (i : nat) (k v : string),
  pairs !! i = Some (k, v) ->
  (forall j, i < j -> pairs.*1 !! j <> Some k) ->
  foldl (fun d kv => <[ kv.1 := kv.2 ]> d) d pairs !! k = Some v.
Proof.
  induction pairs as [|[k' v'] pairs IH]; intros d i k v Hi Hlast;
    [discriminate|].
  destruct i as [|i]; simpl in *.
  - inversion Hi; subst k' v'.
    rewrite foldl_insert_other; [apply lookup_insert_eq|].
    intros Hin. apply list_elem_of_lookup in Hin as [j Hj].
    apply (Hlast (S j)); [lia | exact Hj].
  - apply (IH _ i); [exact Hi|].
    intros j Hj. apply (Hlast (S j)). lia.
Qed.

Lemma padded_lookup headers row (i : nat) :
  i < length headers ->
  (row ++ py_repeat "" (Z.of_nat (length headers) - Z.of_nat (length row))) !! i
  = Some (default "" (row !! i)).
Proof.
  intros Hi. unfold py_repeat.
  destruct (row !! i) as [c|] eqn:Hr.
  - now rewrite (lookup_app_l_Some _ _ _ _ Hr).
  - apply lookup_ge_None in Hr. rewrite lookup_app_r by exact Hr.
    simpl. apply lookup_replicate. split; [reflexivity | lia].
Qed.

Lemma padded_length headers row :
  length headers
  <= length (row ++ py_repeat "" (Z.of_nat (length headers) - Z.of_nat (length row))).
Proof. unfold py_repeat. rewrite length_app, length_replicate. lia. Qed.

Lemma row_dict_dom headers row :
  dom (row_dict headers row) = list_to_set headers.
Proof.
  unfold row_dict, py_dict. rewrite foldl_insert_dom, dom_empty_L.
  rewrite fst_zip by apply padded_length. set_solver.
Qed.

Lemma row_dict_lookup headers row (i : nat) (h : string) :
  headers !! i = Some h ->
  (forall j, i < j -> headers !! j <> Some h) ->
  row_dict headers row !! h = Some (default "" (row !! i)).
Proof.
  intros Hi Hlast. unfold row_dict, py_dict.
  apply (foldl_insert_last _ _ i).
  - apply lookup_zip_with_Some. eexists _, _. split; [reflexivity|].
    split; [exact Hi|]. apply padded_lookup.
    now apply lookup_lt_Some in Hi.
  - rewrite fst_zip by apply padded_length. exact Hlast.
Qed.

Lemma row_dict_truncate headers row :
  row_dict headers row = row_dict headers (take (length headers) row).
Proof.
  apply map_eq. intros h.
  destruct (decide (h ∈ headers)) as [Hin|Hout].
  - assert (Hl : exists i, headers !! i = Some h
                           /\ forall j, i < j -> headers !! j <> Some h).
    { clear row. induction headers as [|h' headers IH]; [now apply elem_of_nil in Hin|].
      destruct (decide (h ∈ headers)) as [Hin'|Hout'].
      - destruct (IH Hin') as (i & Hi & Hlast). exists (S i). split; [exact Hi|].
        intros [|j] Hj; [lia|]. apply Hlast. lia.
      - apply elem_of_cons in Hin as [->|Hin]; [|contradiction].
        exists 0. split; [reflexivity|].
        intros [|j] Hj; [lia|]. simpl. intros Hh.
        apply Hout'. eapply list_elem_of_lookup_2, Hh. }
    destruct Hl as (i & Hi & Hlast).
    rewrite !(row_dict_lookup _ _ i h Hi Hlast).
    rewrite lookup_take_lt; [reflexivity|]. now apply lookup_lt_Some in Hi.
  - transitivity (@None string); [|symmetry];
      apply not_elem_of_dom; rewrite row_dict_dom; set_solver.
Qed.

Lemma row_dict_size headers row :
  NoDup headers -> size (row_dict headers row) = length headers.
Proof.
  intros Hnd. rewrite <- size_dom, row_dict_dom.
  now apply size_list_to_set.
Qed.

End Dicts.

(** C7: after a successful read of a grid with at least one row,
    [read_sheet_as_dicts] succeeds with the first row as [headers], the
    number of the other rows as [rows], and one dictionary per other
    row; its keys are the headers, and the header at position [i] (the
    last one of that name) maps to cell [i] of the row, or to the empty
    string when the row has no cell [i]. *)
Theorem structured_rows (w : World) (spreadsheet_id sheet_name : string)
    (range_notation : option string) (l l' : list event)
    (headers : list string) (data_rows : grid) (rows columns : nat) :
  read_sheet w spreadsheet_id sheet_name range_notation l
  = (Ret (ReadOk (headers :: data_rows) rows columns), l') ->
  read_sheet_as_dicts w spreadsheet_id sheet_name range_notation l
  = (Ret (DictsOk (map (row_dict headers) data_rows) (length data_rows) headers),
     l')
  /\ forall row : list string,
       dom (row_dict headers row) = list_to_set headers
       /\ forall (i : nat) (h : string),
            headers !! i = Some h ->
            (forall j, i < j -> headers !! j <> Some h) ->
            row_dict headers row !! h = Some (default "" (row !! i)).
Proof.
  intros H. split.
  - unfold read_sheet_as_dicts, bind. rewrite H. simpl.
    now rewrite length_map.
  - intros row. split; [apply row_dict_dom|]. intros i h. apply row_dict_lookup.
Qed.

(** The scenario of the specification, with the short row [["v3"]]
    added to show the padding. *)
Lemma structured_rows_witness :
  read_sheet_as_dicts
    (serving_world (Some [["H1"; "H2"]; ["v1"; "v2"]])) "S1" "Sheet1" None []
  = (Ret (DictsOk [ {[ "H1" := "v1"; "H2" := "v2" ]} ] 1 ["H1"; "H2"]),
     serving_log "S1" "Sheet1")
  /\ row_dict ["H1"; "H2"] ["v3"] !! "H2" = Some "".
Proof.
  split.
  - apply (proj1 (structured_rows
             (serving_world (Some [["H1"; "H2"]; ["v1"; "v2"]]))
             "S1" "Sheet1" None [] (serving_log "S1" "Sheet1")
             ["H1"; "H2"] [["v1"; "v2"]] 2 2 eq_refl)).
  - apply (proj2 (proj2 (structured_rows
             (serving_world (Some [["H1"; "H2"]; ["v1"; "v2"]]))
             "S1" "Sheet1" None [] (serving_log "S1" "Sheet1")
             ["H1"; "H2"] [["v1"; "v2"]] 2 2 eq_refl) ["v3"]) 1 "H2").
    + reflexivity.
    + intros [|[|j]] Hj; [lia | lia | discriminate].
Defined.

(** C10: a row with more cells than there are headers loses the cells
    beyond the header width, and the operation still succeeds: the
    dictionary of the row is that of the row cut to the header width,
    its keys are the headers and nothing else, and the header at
    position [i] (the last of its name) holds the cell at position [i]
    of the row, or the empty string where the row is shorter.  A cell
    at a position from the header width on is under no key. *)
Theorem oversized_rows_truncated (w : World) (spreadsheet_id sheet_name : string)
    (range_notation : option string) (l l' : list event)
    (headers : list string) (data_rows : grid) (rows columns : nat) :
  read_sheet w spreadsheet_id sheet_name range_notation l
  = (Ret (ReadOk (headers :: data_rows) rows columns), l') ->
  (exists data,
     read_sheet_as_dicts w spreadsheet_id sheet_name range_notation l
     = (Ret (DictsOk data (length data_rows) headers), l')
     /\ Forall2 (fun row d =>
                   d = row_dict headers (take (length headers) row)
                   /\ dom d = list_to_set headers
                   /\ (NoDup headers -> size d = length headers)
                   /\ (forall (i : nat) (h : string),
                         headers !! i = Some h ->
                         (forall j, i < j -> headers !! j <> Some h) ->
                         d !! h = Some (default "" (row !! i)))
                   /\ (forall (i : nat) (h cell : string),
                         NoDup headers ->
                         length headers <= i ->
                         row !! i = Some cell ->
                         d !! h = Some cell ->
                         exists k, k < length headers
                                   /\ headers !! k = Some h
                                   /\ row !! k = Some cell))
                data_rows data).
Proof.
  intros H. exists (map (row_dict headers) data_rows). split.
  - unfold read_sheet_as_dicts, bind. rewrite H. simpl.
    now rewrite length_map.
  - clear H. induction data_rows as [|row data_rows IH]; constructor; [|exact IH].
    split; [apply row_dict_truncate|]. split; [apply row_dict_dom|].
    split; [apply row_dict_size|]. split; [apply row_dict_lookup|].
    intros i h cell Hnd Hi Hrow Hd.
    assert (Hin : h ∈ headers).
    { apply (elem_of_list_to_set (C := gset string)).
      rewrite <- (row_dict_dom headers row). apply elem_of_dom. now exists cell. }
    apply list_elem_of_lookup in Hin as [k Hk].
    assert (Hlt : k < length headers) by now apply lookup_lt_Some in Hk.
    exists k. split; [exact Hlt|]. split; [exact Hk|].
    rewrite (row_dict_lookup headers row k h Hk) in Hd.
    + injection Hd as Hd.
      destruct (row !! k) as [c|] eqn:Hc; [now simpl in Hd; subst|].
      apply lookup_ge_None in Hc. apply lookup_lt_Some in Hrow. lia.
    + intros j Hj Hj'.
      pose proof (NoDup_lookup _ _ _ _ Hnd Hk Hj'). lia.
Qed.

Lemma oversized_rows_truncated_witness :
  read_sheet_as_dicts
    (serving_world (Some [["H1"; "H2"]; ["v1"; "v2"; "extra"; "more"]]))
    "S1" "Sheet1" None []
  = (Ret (DictsOk [ {[ "H1" := "v1"; "H2" := "v2" ]} ] 1 ["H1"; "H2"]),
     serving_log "S1" "Sheet1").
Proof.
  destruct (oversized_rows_truncated
              (serving_world (Some [["H1"; "H2"]; ["v1"; "v2"; "extra"; "more"]]))
              "S1" "Sheet1" None [] (serving_log "S1" "Sheet1")
              ["H1"; "H2"] [["v1"; "v2"; "extra"; "more"]] 2 2 eq_refl)
    as (data & Hread & Hrows).
  rewrite Hread.
  apply Forall2_cons_inv_l in Hrows as (d & rest & (Hd & _) & Hrest & ->).
  apply Forall2_nil_inv_l in Hrest as ->.
  rewrite Hd. reflexivity.
Defined.

(** ** Finding a row *)

Lemma first_cell_is_head (v : string) (row : list string) :
  first_cell_is (PStr v) row = true <-> head row = Some v.
Proof.
  destruct row as [|cell row]; simpl; [split; discriminate|].
  rewrite String.eqb_eq. split; congruence.
Qed.

Lemma search_rows_Some (value : pyval) (values : grid) :
  forall idx n,
    search_rows idx values value = Some n <->
    idx <= n
    /\ (exists row, values !! (n - idx) = Some row
                    /\ first_cell_is value row = true)
    /\ (forall m row, m < n - idx -> values !! m = Some row ->
                      first_cell_is value row = false).
Proof.
  induction values as [|row0 values IH]; intros idx n; simpl.
  - split; [discriminate|]. now intros (_ & (row & Hr & _) & _).
  - destruct (first_cell_is value row0) eqn:E.
    + split.
      * intros H. inversion H; subst n. split; [lia|].
        rewrite Nat.sub_diag. split; [now exists row0|].
        intros m row Hm. lia.
      * intros (Hle & (row & Hr & Ht) & Hbefore).
        destruct (n - idx) as [|k] eqn:Hk; [f_equal; lia|].
        specialize (Hbefore 0 row0 ltac:(lia) eq_refl). congruence.
    + rewrite IH. split.
      * intros (Hle & (row & Hr & Ht) & Hbefore).
        split; [lia|]. replace (n - idx) with (S (n - S idx)) by lia.
        split; [now exists row|].
        intros [|m] row' Hm Hrow'; simpl in Hrow'.
        -- now inversion Hrow'; subst.
        -- apply (Hbefore m); [lia | exact Hrow'].
      * intros (Hle & (row & Hr & Ht) & Hbefore).
        destruct (n - idx) as [|k] eqn:Hk.
        -- simpl in Hr. inversion Hr; subst. congruence.
        -- simpl in Hr. replace (n - S idx) with k by lia.
           split; [lia|]. split; [now exists row|].
           intros m row' Hm Hrow'. apply (Hbefore (S m)); [lia | exact Hrow'].
Qed.

Lemma search_rows_None (value : pyval) (values : grid) :
  forall idx,
    search_rows idx values value = None <->
    Forall (fun row => first_cell_is value row = false) values.
Proof.
  induction values as [|row0 values IH]; intros idx; simpl.
  - split; [constructor | reflexivity].
  - destruct (first_cell_is value row0) eqn:E.
    + split; [discriminate|]. intros H. inversion H; subst. congruence.
    + rewrite IH. split; [now constructor | now inversion 1].
Qed.

(** C8: after a successful read of the search range, [find_row]
    succeeds; [row] is [n] exactly when row [n], counted from 1, is the
    first whose first cell equals the value, and is [None] exactly when
    no row starts with the value. *)
Theorem find_value (w : World) (spreadsheet_id sheet_name column v : string)
    (range_notation : option string) (l l' : list event)
    (values : grid) (rows columns : nat) :
  read_sheet w spreadsheet_id sheet_name
             (Some (search_range_of column range_notation)) l
  = (Ret (ReadOk values rows columns), l') ->
  find_row w spreadsheet_id sheet_name column (PStr v) range_notation l
  = (Ret (FindOk (search_rows 1 values (PStr v))), l')
  /\ (forall n : nat,
        search_rows 1 values (PStr v) = Some n <->
        1 <= n
        /\ (exists row, values !! (n - 1) = Some row /\ head row = Some v)
        /\ (forall m row, m < n - 1 -> values !! m = Some row ->
                          head row <> Some v))
  /\ (search_rows 1 values (PStr v) = None <->
      forall row, row ∈ values -> head row <> Some v).
Proof.
  intros H. split; [|split].
  - unfold find_row, try_except, bind. rewrite H. reflexivity.
  - intros n. rewrite search_rows_Some.
    split; intros (Hle & (row & Hr & Ht) & Hbefore);
      (split; [exact Hle|]);
      (split; [exists row; split; [exact Hr | now apply first_cell_is_head]|]);
      intros m row' Hm Hrow'; specialize (Hbefore m row' Hm Hrow').
    + intros Hh. apply first_cell_is_head in Hh. congruence.
    + destruct (first_cell_is (PStr v) row') eqn:E; [|reflexivity].
      now apply first_cell_is_head in E.
  - rewrite search_rows_None, Forall_forall.
    split; intros Hall row Hin; specialize (Hall row Hin).
    + intros Hh. apply first_cell_is_head in Hh. congruence.
    + destruct (first_cell_is (PStr v) row) eqn:E; [|reflexivity].
      now apply first_cell_is_head in E.
Qed.

(** The scenario of the specification: found at row 3; a value that is
    absent, or differs in case only, is not found. *)
Lemma find_value_witness :
  let companies := [["Company A"]; ["Company B"]; ["Acme Corp"]] in
  find_row (serving_world (Some companies)) "S1" "Sheet1" "A"
           (PStr "Acme Corp") None []
  = (Ret (FindOk (Some 3)), serving_log "S1" "Sheet1!A:A")
  /\ find_row (serving_world (Some companies)) "S1" "Sheet1" "A"
              (PStr "Nonexistent Corp") None []
     = (Ret (FindOk None), serving_log "S1" "Sheet1!A:A")
  /\ find_row (serving_world (Some companies)) "S1" "Sheet1" "A"
              (PStr "acme corp") None []
     = (Ret (FindOk None), serving_log "S1" "Sheet1!A:A").
Proof.
  intros companies. split; [|split].
  - apply (proj1 (find_value (serving_world (Some companies)) "S1" "Sheet1" "A"
                    "Acme Corp" None [] (serving_log "S1" "Sheet1!A:A")
                    companies 3 1 eq_refl)).
  - apply (proj1 (find_value (serving_world (Some companies)) "S1" "Sheet1" "A"
                    "Nonexistent Corp" None [] (serving_log "S1" "Sheet1!A:A")
                    companies 3 1 eq_refl)).
  - apply (proj1 (find_value (serving_world (Some companies)) "S1" "Sheet1" "A"
                    "acme corp" None [] (serving_log "S1" "Sheet1!A:A")
                    companies 3 1 eq_refl)).
Defined.

(** ** Validation in [sheets_from_spec] *)

Ltac validation_case :=
  intros _; eexists; split; [reflexivity|];
  split; [intros first rest Hf; inversion Hf; subst; reflexivity|];
  split; [intros Hbase; first [now destruct Hbase | now repeat constructor]|];
  split; [intros Hbase; first [now destruct Hbase | reflexivity]|];
  intros Hbase first rest Hf;
  first [discriminate Hbase
        | inversion Hf; subst; eexists; split; reflexivity].

(** C9: when the specification lacks a required key (one of the three
    every operation needs, or one its operation needs), the dispatcher
    returns a failure whose message names the first missing key; the
    event log is returned as it was received: no variable is read, no
    process is run, no request is sent.  When keys of the three are
    missing the message lists them all; when the three are there the
    message is that of the first missing key of the operation and of
    no other. *)
Theorem validation_before_any_call (w : World) (spec : gmap string pyval)
    (l : list event) :
  missing_fields spec <> [] ->
  exists msg,
    sheets_from_spec w spec l = (Ret (Failure msg), l)
    /\ (forall first rest, missing_fields spec = first :: rest ->
                           mentions msg first = true)
    /\ (List.filter (fun f => negb (in_spec spec f)) REQUIRED <> [] ->
        Forall (fun f => mentions msg f = true) (missing_fields spec))
    /\ (List.filter (fun f => negb (in_spec spec f)) REQUIRED <> [] ->
        msg = "Missing required fields: " +:+ py_join ", " (missing_fields spec))
    /\ (List.filter (fun f => negb (in_spec spec f)) REQUIRED = [] ->
        forall first rest,
          missing_fields spec = first :: rest ->
          exists operation,
            item spec "operation" = PStr operation
            /\ msg = "Missing '" +:+ first +:+ "' field for " +:+ operation
                     +:+ " operation").
Proof.
  unfold sheets_from_spec, missing_fields, REQUIRED. cbn [List.filter].
  destruct (in_spec spec "spreadsheet_id"), (in_spec spec "sheet_name"),
    (in_spec spec "operation"); cbn [negb]; try validation_case.
  destruct (item spec "operation") as [| | | |s| |]; try (now intros []).
  unfold operation_fields, is_str.
  destruct (String.eqb_spec s "read") as [->|?]; [now intros []|].
  destruct (String.eqb_spec s "read_dicts") as [->|?]; [now intros []|].
  destruct (String.eqb_spec s "append") as [->|?].
  { cbn [List.filter]. destruct (in_spec spec "values"); cbn [negb];
      [now intros [] | validation_case]. }
  destruct (String.eqb_spec s "append_rows") as [->|?].
  { cbn [List.filter]. destruct (in_spec spec "rows"); cbn [negb];
      [now intros [] | validation_case]. }
  destruct (String.eqb_spec s "update") as [->|?].
  { cbn [List.filter].
    destruct (in_spec spec "range_notation"), (in_spec spec "values");
      cbn [negb]; [now intros [] | validation_case ..]. }
  destruct (String.eqb_spec s "find") as [->|?].
  { cbn [List.filter].
    destruct (in_spec spec "column"), (in_spec spec "value");
      cbn [negb]; [now intros [] | validation_case ..]. }
  now intros [].
Qed.

Lemma validation_before_any_call_witness :
  missing_fields update_spec = ["range_notation"; "values"]
  /\ sheets_from_spec bare_world update_spec []
     = (Ret (Failure "Missing 'range_notation' field for update operation"), [])
  /\ exists msg,
       sheets_from_spec bare_world update_spec [] = (Ret (Failure msg), [])
       /\ (forall first rest, missing_fields update_spec = first :: rest ->
                              mentions msg first = true)
       /\ (List.filter (fun f => negb (in_spec update_spec f)) REQUIRED <> [] ->
           Forall (fun f => mentions msg f = true) (missing_fields update_spec))
       /\ (List.filter (fun f => negb (in_spec update_spec f)) REQUIRED <> [] ->
           msg = "Missing required fields: "
                 +:+ py_join ", " (missing_fields update_spec))
       /\ (List.filter (fun f => negb (in_spec update_spec f)) REQUIRED = [] ->
           forall first rest,
             missing_fields update_spec = first :: rest ->
             exists operation,
               item update_spec "operation" = PStr operation
               /\ msg = "Missing '" +:+ first +:+ "' field for " +:+ operation
                        +:+ " operation").
Proof.
  split; [vm_compute; reflexivity|].
  split; [vm_compute; reflexivity|].
  apply (validation_before_any_call bare_world update_spec []).
  vm_compute. discriminate.
Defined.

(** C9 read as "the message names every missing key" fails for an
    update that has neither a range nor values: line 124 returns at the
    first missing key, and the message says nothing of [values]. *)
Lemma update_names_first_missing_only :
  missing_fields update_spec = ["range_notation"; "values"]
  /\ sheets_from_spec bare_world update_spec []
     = (Ret (Failure "Missing 'range_notation' field for update operation"), [])
  /\ mentions "Missing 'range_notation' field for update operation" "values"
     = false.
Proof.
  repeat split; vm_compute; reflexivity.
Qed.

(** ** What the wrappers let out *)

Section Escape.

Context {A B : Type}.

Lemma catchable_ret (a : A) (l : list event) : catchable (ret a l).
Proof. exact I. Qed.

Lemma catchable_exc (e : error) (l : list event) :
  catchable (raise (A := A) (Exc e) l).
Proof. exact I. Qed.

Lemma catchable_bind (m : M A) (k : A -> M B) (l : list event) :
  catchable (m l) -> (forall a l', catchable (k a l')) -> catchable (bind m k l).
Proof.
  unfold catchable, bind. intros Hm Hk.
  destruct (m l) as [[a|[e|code]] l']; simpl in *;
    [apply Hk | exact I | contradiction].
Qed.

Lemma catchable_try (m : M A) (handler : error -> M A) (l : list event) :
  catchable (m l) -> (forall e l', catchable (handler e l')) ->
  catchable (try_except m handler l).
Proof.
  unfold catchable, try_except. intros Hm Hh.
  destruct (m l) as [[a|[e|code]] l']; simpl in *;
    [exact I | apply Hh | contradiction].
Qed.

Lemma no_escape_catchable (r : outcome A * list event) :
  no_escape r -> catchable r.
Proof. intros (a & l' & ->). exact I. Qed.

(** A handler that always returns makes the guarded block return. *)
Lemma try_except_returns (m : M A) (handler : error -> M A) (l : list event) :
  catchable (m l) -> (forall e l', no_escape (handler e l')) ->
  no_escape (try_except m handler l).
Proof.
  unfold catchable, try_except, no_escape. intros Hm Hh.
  destruct (m l) as [[a|[e|code]] l']; simpl in *;
    [now eexists _, _ | apply Hh | contradiction].
Qed.

End Escape.

Lemma catchable_emit (ev : event) (l : list event) : catchable (emit ev l).
Proof. exact I. Qed.

Lemma error_envelope_returns (spreadsheet_id : string) (e : error) (l : list event) :
  exists msg, error_envelope spreadsheet_id e l = (Ret (Failure msg), l).
Proof.
  destruct e as [status t|t|t|t|t|t]; simpl; try (now eexists).
  destruct (status =? 404)%Z; now eexists.
Qed.

(** A source returns, or lets through an exception of the process
    call that is of neither class it handles. *)
Lemma sheets_sources_catchable (w : World) (source : string)
    (retriever : M (option string)) (l : list event) :
  Sheets.CREDENTIAL_SOURCES w !! source = Some retriever ->
  catchable (retriever l).
Proof.
  unfold Sheets.CREDENTIAL_SOURCES. intros Hs.
  apply lookup_insert_Some in Hs as [[<- <-]|[_ Hs]]; [exact I|].
  apply lookup_insert_Some in Hs as [[<- <-]|[_ Hs]]; [exact I|].
  apply lookup_insert_Some in Hs as [[<- <-]|[_ Hs]].
  { unfold Sheets._from_keychain, os_getenv_or, os_getenv, try_except,
      subprocess_run, bind, emit, ret, catchable.
    destruct (subprocess w _); exact I. }
  apply lookup_singleton_Some in Hs as [<- <-].
  unfold Sheets._from_1password, os_getenv_or, os_getenv, try_except,
    subprocess_run, bind, emit, ret, catchable.
  destruct (subprocess w _); exact I.
Qed.

(** With sources that return, the loop returns. *)
Lemma run_sources_returns (table : gmap string (M (option string)))
    (order : list string) :
  (forall k f l, table !! k = Some f -> no_escape (f l)) ->
  forall tried l, no_escape (run_sources table order tried l).
Proof.
  intros Hret. induction order as [|source order IH]; intros tried l.
  - now eexists _, _.
  - destruct (table !! source) as [retriever|] eqn:Hs.
    + rewrite (run_sources_known _ _ _ _ _ _ Hs).
      destruct (Hret source retriever (l ++ [EvCall source]) Hs)
        as (value & l' & ->).
      destruct (truthy value); [now eexists _, _ | apply IH].
    + rewrite (run_sources_unknown _ _ _ _ _ Hs). apply IH.
Qed.

(** With sources that never leave the process, the loop does not. *)
Lemma run_sources_catchable (table : gmap string (M (option string)))
    (order : list string) :
  (forall k f l, table !! k = Some f -> catchable (f l)) ->
  forall tried l, catchable (run_sources table order tried l).
Proof.
  intros Hc. induction order as [|source order IH]; intros tried l.
  - exact I.
  - destruct (table !! source) as [retriever|] eqn:Hs.
    + rewrite (run_sources_known _ _ _ _ _ _ Hs).
      pose proof (Hc source retriever (l ++ [EvCall source]) Hs) as Hr.
      unfold catchable in Hr.
      destruct (retriever (l ++ [EvCall source])) as [[value|[e|code]] l'];
        simpl in Hr; [|exact I|contradiction].
      destruct (truthy value); [exact I | apply IH].
    + rewrite (run_sources_unknown _ _ _ _ _ Hs). apply IH.
Qed.

Lemma credentials_catchable (w : World) (l : list event) :
  catchable (get_service_account_credentials w l).
Proof.
  unfold get_service_account_credentials, resolve_credential_data.
  apply catchable_bind.
  - apply catchable_bind; [exact I|]. intros source_env l1.
    apply catchable_bind.
    + apply run_sources_catchable.
      intros k f l2. apply sheets_sources_catchable.
    + intros [[v|] tried] l2; [destruct (nonempty v)|]; exact I.
  - intros credential_data l1. unfold post_process.
    apply catchable_bind.
    + unfold dereference. destruct (startswith credential_data "op://"); [|exact I].
      apply catchable_try.
      * unfold subprocess_run, bind, emit, ret, raise.
        destruct (subprocess w _); exact I.
      * intros []; intros; exact I.
    + intros d l2. unfold load_credentials. apply catchable_try.
      * unfold json_loads, from_service_account_info, bind, emit, ret, raise.
        destruct (json_decode w d) as [j|]; [|exact I].
        destruct (info_rejected w j); exact I.
      * intros e l3. destruct e; try exact I.
        apply catchable_try; [|intros []; intros; exact I].
        unfold from_service_account_file, bind, emit, ret, raise.
        destruct (files w !! d) as [content|];
          [|destruct (unreadable w d); exact I].
        destruct (file_rejected w content); exact I.
Qed.

(** [_get_sheets_service] returns a service or raises
    [GoogleSheetsAuthError]. *)
Lemma get_sheets_service_catchable (w : World) (l : list event) :
  catchable (_get_sheets_service w l).
Proof.
  unfold _get_sheets_service. apply catchable_try; [|intros; exact I].
  apply catchable_bind; [apply credentials_catchable|].
  intros credentials l1. unfold build, bind, emit, ret, raise.
  destruct (build_fails w); exact I.
Qed.

Lemma get_sheets_service_cases (w : World) (l : list event) :
  (exists service l1, _get_sheets_service w l = (Ret service, l1))
  \/ (exists e l1, _get_sheets_service w l = (Raise (Exc e), l1)).
Proof.
  pose proof (get_sheets_service_catchable w l) as H. unfold catchable in H.
  destruct (_get_sheets_service w l) as [[service|[e|code]] l1]; simpl in H;
    [left | right | contradiction]; now eexists _, _.
Qed.

(** The shape shared by [read_sheet], [append_row], [append_rows] and
    [update_range]: one request behind the service, three [except]
    clauses. *)
Lemma wrapper_contract {A} (w : World) (l : list event) (spreadsheet_id : string)
    (req : request) (answer : reply A) (k : A -> envelope) :
  envelope_contract
    (~ no_escape (_get_sheets_service w l) \/ exists e, answer = Fails e)
    (try_except
       (service <- _get_sheets_service w ;;
        result <- execute req answer ;;
        ret (k result))
       (error_envelope spreadsheet_id) l).
Proof.
  cbv [envelope_contract try_except bind execute emit ret raise].
  destruct (get_sheets_service_cases w l) as [(service & l1 & Hs)|(e & l1 & Hs)];
    rewrite Hs; cbv iota beta.
  - destruct answer as [a|e].
    + eexists _, _. split; [reflexivity|].
      intros [Hne|[e He]]; [|discriminate].
      exfalso. apply Hne. now eexists _, _.
    + destruct (error_envelope_returns spreadsheet_id e (l1 ++ [EvExecute req]))
        as [msg Hmsg].
      rewrite Hmsg. eexists _, _. split; [reflexivity|]. intros _. now exists msg.
  - destruct (error_envelope_returns spreadsheet_id e l1) as [msg Hmsg].
    rewrite Hmsg. eexists _, _. split; [reflexivity|]. intros _. now exists msg.
Qed.

Lemma read_sheet_contract (w : World) (spreadsheet_id sheet_name : string)
    (range_notation : option string) (l : list event) :
  envelope_contract
    (~ no_escape (_get_sheets_service w l)
     \/ exists e, values_get w spreadsheet_id
                    (range_str_of sheet_name range_notation) = Fails e)
    (read_sheet w spreadsheet_id sheet_name range_notation l).
Proof. apply wrapper_contract. Qed.

(** A read returns the data or a failure, nothing else. *)
Lemma read_sheet_shape (w : World) (spreadsheet_id sheet_name : string)
    (range_notation : option string) (l : list event) :
  exists env l',
    read_sheet w spreadsheet_id sheet_name range_notation l = (Ret env, l')
    /\ ((exists msg, env = Failure msg)
        \/ (exists values rows columns, env = ReadOk values rows columns)).
Proof.
  cbv [read_sheet try_except bind execute emit ret raise].
  destruct (get_sheets_service_cases w l) as [(service & l1 & Hs)|(e & l1 & Hs)];
    rewrite Hs; cbv iota beta.
  - destruct (values_get w _ _) as [a|e].
    + eexists _, _. split; [reflexivity|]. right. now eexists _, _, _.
    + destruct (error_envelope_returns spreadsheet_id e
                  (l1 ++ [EvExecute (ValuesGet spreadsheet_id
                            (range_str_of sheet_name range_notation))]))
        as [msg Hmsg].
      rewrite Hmsg. eexists _, _. split; [reflexivity|]. left. now exists msg.
  - destruct (error_envelope_returns spreadsheet_id e l1) as [msg Hmsg].
    rewrite Hmsg. eexists _, _. split; [reflexivity|]. left. now exists msg.
Qed.

Lemma read_sheet_as_dicts_contract (w : World) (spreadsheet_id sheet_name : string)
    (range_notation : option string) (l : list event) :
  envelope_contract
    (~ no_escape (_get_sheets_service w l)
     \/ exists e, values_get w spreadsheet_id
                    (range_str_of sheet_name range_notation) = Fails e)
    (read_sheet_as_dicts w spreadsheet_id sheet_name range_notation l).
Proof.
  destruct (read_sheet_contract w spreadsheet_id sheet_name range_notation l)
    as (env & l' & Hr & Hfail).
  destruct (read_sheet_shape w spreadsheet_id sheet_name range_notation l)
    as (env' & l'' & Hr' & Hshape).
  rewrite Hr in Hr'. inversion Hr'; subst env' l''. clear Hr'.
  unfold envelope_contract, read_sheet_as_dicts, bind. rewrite Hr.
  destruct Hshape as [[msg ->]|(values & rows & columns & ->)]; simpl.
  - eexists _, _. split; [reflexivity|]. intros _. now exists msg.
  - destruct values as [|headers data_rows]; eexists _, _;
      (split; [reflexivity|]); intros Hf; destruct (Hfail Hf); discriminate.
Qed.

Lemma find_row_contract (w : World) (spreadsheet_id sheet_name column : string)
    (value : pyval) (range_notation : option string) (l : list event) :
  envelope_contract
    (~ no_escape (_get_sheets_service w l)
     \/ exists e, values_get w spreadsheet_id
                    (range_str_of sheet_name
                       (Some (search_range_of column range_notation))) = Fails e)
    (find_row w spreadsheet_id sheet_name column value range_notation l).
Proof.
  destruct (read_sheet_contract w spreadsheet_id sheet_name
              (Some (search_range_of column range_notation)) l)
    as (env & l' & Hr & Hfail).
  destruct (read_sheet_shape w spreadsheet_id sheet_name
              (Some (search_range_of column range_notation)) l)
    as (env' & l'' & Hr' & Hshape).
  rewrite Hr in Hr'. inversion Hr'; subst env' l''. clear Hr'.
  unfold envelope_contract, find_row, try_except, bind. rewrite Hr.
  destruct Hshape as [[msg ->]|(values & rows & columns & ->)]; simpl.
  - eexists _, _. split; [reflexivity|]. intros _. now exists msg.
  - eexists _, _. split; [reflexivity|].
    intros Hf; destruct (Hfail Hf); discriminate.
Qed.

Lemma query_linear_exits (w : World) (api_key query : string)
    (variables : option pyval) (response : http_response) (l : list event) :
  http_post w LINEAR_API_URL api_key (request_body query variables) = Ok response ->
  status_code response <> 200%Z ->
  query_linear w api_key query variables l
  = (Raise (SystemExit 1),
     l ++ [EvPost LINEAR_API_URL api_key (request_body query variables);
           EvPrint ("Error: API returned " +:+ pretty (status_code response));
           EvPrint (response_text response)]).
Proof.
  intros Hp Hs. cbv [query_linear requests_post bind emit print sys_exit raise ret].
  rewrite Hp. cbv iota beta.
  apply Z.eqb_neq in Hs. rewrite Hs. cbn [negb]. cbv iota beta.
  now rewrite <- !app_assoc.
Qed.

Lemma query_linear_propagates (w : World) (api_key query : string)
    (variables : option pyval) (e : error) (l : list event) :
  http_post w LINEAR_API_URL api_key (request_body query variables) = Fails e ->
  query_linear w api_key query variables l
  = (Raise (Exc e),
     l ++ [EvPost LINEAR_API_URL api_key (request_body query variables)]).
Proof.
  intros Hp. cbv [query_linear requests_post bind emit print sys_exit raise ret].
  now rewrite Hp.
Qed.

(** C1, as the code has it: every spreadsheet wrapper returns an
    envelope whatever the credential lookup, the construction of the
    service and the vendor call do, and the envelope is a failure when
    one of them fails; a 404 of the vendor gives the not-found message
    with the spreadsheet id.  The Linear transport does not follow the
    contract: on a status other than 200 it prints the status and exits
    with code 1, and an exception of the transport is passed on to the
    caller. *)
Theorem sheets_wrappers_return_envelopes (w : World) (l : list event)
    (spreadsheet_id sheet_name : string) :
  let service_failed := ~ no_escape (_get_sheets_service w l) in
  (forall range_notation,
     envelope_contract
       (service_failed
        \/ exists e, values_get w spreadsheet_id
                       (range_str_of sheet_name range_notation) = Fails e)
       (read_sheet w spreadsheet_id sheet_name range_notation l))
  /\ (forall range_notation,
        envelope_contract
          (service_failed
           \/ exists e, values_get w spreadsheet_id
                          (range_str_of sheet_name range_notation) = Fails e)
          (read_sheet_as_dicts w spreadsheet_id sheet_name range_notation l))
  /\ (forall values,
        envelope_contract
          (service_failed
           \/ exists e, values_append w spreadsheet_id sheet_name
                          (PList [values]) = Fails e)
          (append_row w spreadsheet_id sheet_name values l))
  /\ (forall rows,
        envelope_contract
          (service_failed
           \/ exists e, values_append w spreadsheet_id sheet_name rows = Fails e)
          (append_rows w spreadsheet_id sheet_name rows l))
  /\ (forall range_notation values,
        envelope_contract
          (service_failed
           \/ exists e, values_update w spreadsheet_id
                          (sheet_name +:+ "!" +:+ range_notation) values = Fails e)
          (update_range w spreadsheet_id sheet_name range_notation values l))
  /\ (forall column value range_notation,
        envelope_contract
          (service_failed
           \/ exists e, values_get w spreadsheet_id
                          (range_str_of sheet_name
                             (Some (search_range_of column range_notation)))
                        = Fails e)
          (find_row w spreadsheet_id sheet_name column value range_notation l))
  /\ (forall range_notation text service l1,
        _get_sheets_service w l = (Ret service, l1) ->
        values_get w spreadsheet_id (range_str_of sheet_name range_notation)
        = Fails (HttpError 404 text) ->
        read_sheet w spreadsheet_id sheet_name range_notation l
        = (Ret (Failure ("Spreadsheet or sheet not found: " +:+ spreadsheet_id)),
           l1 ++ [EvExecute (ValuesGet spreadsheet_id
                               (range_str_of sheet_name range_notation))]))
  /\ (forall api_key query variables response,
        http_post w LINEAR_API_URL api_key (request_body query variables)
        = Ok response ->
        status_code response <> 200%Z ->
        exists l',
          query_linear w api_key query variables l = (Raise (SystemExit 1), l'))
  /\ (forall api_key query variables e,
        http_post w LINEAR_API_URL api_key (request_body query variables)
        = Fails e ->
        exists l',
          query_linear w api_key query variables l = (Raise (Exc e), l')).
Proof.
  intros service_failed. subst service_failed.
  split; [intros; apply read_sheet_contract|].
  split; [intros; apply read_sheet_as_dicts_contract|].
  split; [intros; apply wrapper_contract|].
  split; [intros; apply wrapper_contract|].
  split; [intros; apply wrapper_contract|].
  split; [intros; apply find_row_contract|].
  split; [|split].
  - intros range_notation text service l1 Hs Hv.
    cbv [read_sheet try_except bind execute emit ret raise].
    rewrite Hs. cbv iota beta. now rewrite Hv.
  - intros api_key query variables response Hp Hs. eexists.
    exact (query_linear_exits w api_key query variables response l Hp Hs).
  - intros api_key query variables e Hp. eexists.
    exact (query_linear_propagates w api_key query variables e l Hp).
Qed.

Lemma sheets_wrappers_return_envelopes_witness :
  read_sheet sheet_404_world "S1" "Sheet1" None []
  = (Ret (Failure "Spreadsheet or sheet not found: S1"), serving_log "S1" "Sheet1")
  /\ (exists l',
        query_linear tracker_404_world "lin_api_key" "query { viewer { id } }"
                     None []
        = (Raise (SystemExit 1), l'))
  /\ (exists l',
        query_linear bare_world "lin_api_key" "query { viewer { id } }" None []
        = (Raise (Exc (OtherError "connection refused")), l')).
Proof.
  split; [|split].
  - apply (proj1 (proj2 (proj2 (proj2 (proj2 (proj2 (proj2
             (sheets_wrappers_return_envelopes sheet_404_world []
                "S1" "Sheet1")))))))
             None "Requested entity was not found."
             (SheetsService (FromInfo (PDict [("type", PStr "service_account")])
                                      Sheets.SCOPES))
             [EvGetenv "GOOGLE_SHEETS_CREDENTIAL_SOURCES";
              EvCall "json";
              EvGetenv "GOOGLE_SHEETS_SERVICE_ACCOUNT_JSON";
              EvJsonLoads "{}";
              EvFromInfo (PDict [("type", PStr "service_account")]);
              EvBuild]); reflexivity.
  - apply (proj1 (proj2 (proj2 (proj2 (proj2 (proj2 (proj2 (proj2
             (sheets_wrappers_return_envelopes tracker_404_world []
                "S1" "Sheet1"))))))))
             "lin_api_key" "query { viewer { id } }" None
             (HttpResponse 404 "Not Found"
                (Fails (JSONDecodeError "Expecting value"))));
      [reflexivity | discriminate].
  - apply (proj2 (proj2 (proj2 (proj2 (proj2 (proj2 (proj2 (proj2
             (sheets_wrappers_return_envelopes bare_world []
                "S1" "Sheet1"))))))))
             "lin_api_key" "query { viewer { id } }" None
             (OtherError "connection refused")); reflexivity.
Defined.

(** The claim C1 fails on the tracker: against a tracker that answers
    404, [create_comment] does not return; it prints and leaves the
    process with [SystemExit(1)]. *)
Lemma tracker_comment_escapes :
  create_comment tracker_404_world "lin_api_key" "S1" "hello" []
  = (Raise (SystemExit 1),
     [EvPost LINEAR_API_URL "lin_api_key"
        (Payload ISSUE_BY_IDENTIFIER (Some (PDict [("identifier", PStr "S1")])));
      EvPrint "Error: API returned 404";
      EvPrint "Not Found"])
  /\ ~ no_escape (create_comment tracker_404_world "lin_api_key" "S1" "hello" []).
Proof.
  assert (H : create_comment tracker_404_world "lin_api_key" "S1" "hello" []
              = (Raise (SystemExit 1),
                 [EvPost LINEAR_API_URL "lin_api_key"
                    (Payload ISSUE_BY_IDENTIFIER
                       (Some (PDict [("identifier", PStr "S1")])));
                  EvPrint "Error: API returned 404";
                  EvPrint "Not Found"])).
  { vm_compute. reflexivity. }
  split; [exact H|]. rewrite H. intros (a & l' & Heq). discriminate.
Qed.

(** * Further properties *)

(** ** The override string, once more *)

Lemma has_char_chars (c : ascii) (s : string) :
  has_char c s = false <-> Forall (fun d => d <> c) (list_ascii_of_string s).
Proof.
  induction s as [|d s IH]; simpl.
  - split; [constructor | reflexivity].
  - rewrite orb_false_iff, IH, Forall_cons, Ascii.eqb_neq. tauto.
Qed.

Lemma lstrip_keeps (P : ascii -> Prop) (l : list ascii) :
  Forall P l -> Forall P (lstrip_chars l).
Proof.
  induction 1 as [|c l Hc Hl IH]; simpl; [constructor|].
  destruct (is_space c); [exact IH | now constructor].
Qed.

Lemma rstrip_keeps (P : ascii -> Prop) (l : list ascii) :
  Forall P l -> Forall P (rstrip_chars l).
Proof.
  intros H. unfold rstrip_chars.
  apply Forall_rev, lstrip_keeps, Forall_rev, H.
Qed.

Lemma lower_char_comma (c : ascii) : c <> ","%char -> lower_char c <> ","%char.
Proof.
  destruct c as [[] [] [] [] [] [] [] []]; vm_compute; congruence.
Qed.

Lemma item_has_no_comma (piece : string) :
  has_char "," piece = false ->
  has_char "," (py_lower (py_strip piece)) = false.
Proof.
  rewrite !has_char_chars, py_lower_chars. intros H.
  apply List.Forall_map. unfold py_strip.
  rewrite list_ascii_of_string_of_list_ascii.
  eapply Forall_impl; [apply rstrip_keeps, lstrip_keeps, H|].
  intros c. apply lower_char_comma.
Qed.

Lemma py_split_single (x : string) :
  has_char "," x = false -> py_split "," x = [x].
Proof.
  induction x as [|c x IH]; simpl; [reflexivity|].
  intros H. apply orb_false_iff in H as [Hc Hx].
  rewrite Hc, (IH Hx). reflexivity.
Qed.

Lemma py_split_cons (x rest : string) :
  has_char "," x = false ->
  py_split "," (x +:+ String "," rest) = x :: py_split "," rest.
Proof.
  induction x as [|c x IH]; simpl; [reflexivity|].
  intros H. apply orb_false_iff in H as [Hc Hx].
  rewrite Hc. change (x ++ String "," rest)%string with (x +:+ String "," rest).
  now rewrite (IH Hx).
Qed.

(** Splitting undoes joining when no item holds a comma. *)
Lemma py_split_of_join (items : list string) :
  items <> [] ->
  Forall (fun item => has_char "," item = false) items ->
  py_split "," (py_join "," items) = items.
Proof.
  induction items as [|x items IH]; [congruence|]. intros _ H.
  apply Forall_cons in H as [Hx Hitems].
  destruct items as [|y items]; [now apply py_split_single|].
  change (py_join "," (x :: y :: items))
    with (x +:+ String "," (py_join "," (y :: items))).
  rewrite (py_split_cons _ _ Hx). f_equal. now apply IH.
Qed.

Lemma filter_all {A} (P : A -> Prop) `{!forall x, Decision (P x)} (l : list A) :
  Forall P l -> filter P l = l.
Proof.
  induction 1 as [|x l Hx Hl IH]; [reflexivity|].
  rewrite filter_cons_True by exact Hx. now rewrite IH.
Qed.

Lemma parse_sources_no_comma (source_env : string) :
  Forall (fun key => has_char "," key = false) (parse_sources source_env).
Proof.
  unfold parse_sources. apply List.Forall_map, Forall_forall.
  intros item Hin. apply list_elem_of_filter in Hin as [_ Hin].
  apply item_has_no_comma.
  pose proof (py_split_no_sep source_env) as H.
  rewrite Forall_forall in H. now apply H.
Qed.

(** X1: the order written back as a comma-separated string parses to
    itself: parsing is a normal form. *)
Theorem parse_sources_roundtrip (source_env : string) :
  parse_sources (py_join "," (parse_sources source_env))
  = parse_sources source_env.
Proof.
  pose proof (parse_sources_keys source_env) as Hk.
  pose proof (parse_sources_no_comma source_env) as Hc.
  destruct (parse_sources source_env) as [|k ks] eqn:E; [reflexivity|].
  rewrite <- E in *. unfold parse_sources at 1.
  rewrite py_split_of_join; [|rewrite E; discriminate|exact Hc].
  rewrite filter_all.
  - rewrite <- (map_id (parse_sources source_env)) at 2.
    apply map_ext_Forall. eapply Forall_impl; [exact Hk|].
    intros key (_ & Hs & Hl). simpl. now rewrite Hs, Hl.
  - eapply Forall_impl; [exact Hk|].
    intros key (Hne & Hs & _). simpl. rewrite Hs. now apply nonempty_true.
Qed.

(** ** The shape of a run of the loop *)

Lemma run_sources_none_tried (table : gmap string (M (option string)))
    (order : list string) :
  forall tried l tried' l',
    run_sources table order tried l = (Ret (None, tried'), l') ->
    tried' = tried ++ map (attempt_label table) order.
Proof.
  induction order as [|source order IH]; intros tried l tried' l' H.
  - simpl in H. inversion H. now rewrite app_nil_r.
  - simpl map. unfold attempt_label at 1.
    destruct (table !! source) as [retriever|] eqn:Hs.
    + rewrite (run_sources_known _ _ _ _ _ _ Hs) in H. revert H.
      destruct (retriever _) as [[value|e] l1]; [|discriminate].
      destruct (truthy value) eqn:Ht; intros H.
      * inversion H; subst. discriminate.
      * rewrite (IH _ _ _ _ H). now rewrite <- app_assoc.
    + rewrite (run_sources_unknown _ _ _ _ _ Hs) in H.
      rewrite (IH _ _ _ _ H). now rewrite <- app_assoc.
Qed.

Lemma run_sources_some_split (table : gmap string (M (option string)))
    (order : list string) :
  forall tried l v tried' l'',
    run_sources table order tried l = (Ret (Some v, tried'), l'') ->
    exists pre source post retriever l',
      order = pre ++ source :: post
      /\ run_sources table pre tried l = (Ret (None, tried'), l')
      /\ table !! source = Some retriever
      /\ retriever (l' ++ [EvCall source]) = (Ret (Some v), l'')
      /\ v <> "".
Proof.
  induction order as [|source order IH]; intros tried l v tried' l'' H;
    [discriminate|].
  destruct (table !! source) as [retriever|] eqn:Hs.
  - rewrite (run_sources_known _ _ _ _ _ _ Hs) in H. revert H.
    destruct (retriever _) as [[value|e] l1] eqn:Hr; [|discriminate].
    destruct (truthy value) eqn:Ht; intros H.
    + inversion H; subst. exists [], source, order, retriever, l.
      split; [reflexivity|]. split; [reflexivity|]. split; [exact Hs|].
      split; [exact Hr|]. now apply nonempty_true.
    + destruct (IH _ _ _ _ _ H) as (pre & k & post & f & l' & -> & Hp & Hk & Hf & Hv).
      exists (source :: pre), k, post, f, l'.
      split; [reflexivity|]. split; [|now repeat split].
      now rewrite (run_sources_known _ _ _ _ _ _ Hs), Hr, Ht.
  - rewrite (run_sources_unknown _ _ _ _ _ Hs) in H.
    destruct (IH _ _ _ _ _ H) as (pre & k & post & f & l' & -> & Hp & Hk & Hf & Hv).
    exists (source :: pre), k, post, f, l'.
    split; [reflexivity|]. split; [|now repeat split].
    now rewrite (run_sources_unknown _ _ _ _ _ Hs).
Qed.

(** X2: a run that ends with a value splits the order at the winning
    key: the keys before it ended without a value and are the entries
    of [tried], the key is in the table, and its retriever returned the
    value.  With [first_match_wins] this characterises success. *)
Theorem run_sources_success_shape (table : gmap string (M (option string)))
    (order tried tried' : list string) (v : string) (l l'' : list event) :
  run_sources table order tried l = (Ret (Some v, tried'), l'') ->
  exists pre source post retriever l',
    order = pre ++ source :: post
    /\ run_sources table pre tried l = (Ret (None, tried'), l')
    /\ tried' = tried ++ map (attempt_label table) pre
    /\ table !! source = Some retriever
    /\ retriever (l' ++ [EvCall source]) = (Ret (Some v), l'')
    /\ v <> "".
Proof.
  intros H.
  destruct (run_sources_some_split _ _ _ _ _ _ _ H)
    as (pre & k & post & f & l' & Ho & Hp & Hk & Hf & Hv).
  exists pre, k, post, f, l'. repeat split; try assumption.
  now apply run_sources_none_tried in Hp.
Qed.

Lemma run_sources_success_shape_witness :
  exists pre source post retriever l',
    ["zzz"; "a"; "b"; "c"] = pre ++ source :: post
    /\ run_sources demo_table pre [] [] = (Ret (None, ["zzz (unknown)"; "a"]), l')
    /\ ["zzz (unknown)"; "a"] = [] ++ map (attempt_label demo_table) pre
    /\ demo_table !! source = Some retriever
    /\ retriever (l' ++ [EvCall source])
       = (Ret (Some "tok"), [EvCall "a"; EvPrint "a"; EvCall "b"; EvPrint "b"])
    /\ "tok" <> "".
Proof.
  apply (run_sources_success_shape demo_table ["zzz"; "a"; "b"; "c"] []
           ["zzz (unknown)"; "a"] "tok" []
           [EvCall "a"; EvPrint "a"; EvCall "b"; EvPrint "b"]).
  vm_compute. reflexivity.
Defined.

(** ** Which sources are called *)










(** ** The value that is resolved *)

Lemma strip_if_set_stripped (value : option string) (v : string) :
  strip_if_set value = Some v -> py_strip v = v.
Proof.
  unfold strip_if_set. destruct (truthy value); [|discriminate].
  destruct value as [s|]; simpl; [|discriminate].
  intros H. inversion H. apply py_strip_idem.
Qed.

Lemma stripped_or_none_stripped (stdout v : string) :
  stripped_or_none stdout = Some v -> py_strip v = v.
Proof.
  unfold stripped_or_none. destruct (nonempty (py_strip stdout)); [|discriminate].
  intros H. inversion H. apply py_strip_idem.
Qed.

Lemma env_source_stripped (w : World) (name v : string) (l l' : list event) :
  (x <- os_getenv w name ;; ret (strip_if_set x)) l = (Ret (Some v), l') ->
  py_strip v = v.
Proof.
  cbv [os_getenv bind emit ret]. intros H. inversion H as [[Hv Hl]].
  now apply strip_if_set_stripped in Hv.
Qed.

Lemma proc_source_stripped (w : World) (name fallback v : string)
    (argv : string -> list string) (l l' : list event) :
  (x <- os_getenv_or w name fallback ;;
   try_except (stdout <- subprocess_run w (argv x) ;;
               ret (stripped_or_none stdout))
              lookup_failed_to_none) l
  = (Ret (Some v), l') ->
  py_strip v = v.
Proof.
  cbv [os_getenv_or os_getenv try_except subprocess_run bind emit ret raise
       lookup_failed_to_none].
  destruct (subprocess w _); intros H; inversion H as [[Hv Hl]].
  now apply stripped_or_none_stripped in Hv.
Qed.

Lemma sheets_sources_stripped (w : World) (source v : string)
    (retriever : M (option string)) (l l' : list event) :
  Sheets.CREDENTIAL_SOURCES w !! source = Some retriever ->
  retriever l = (Ret (Some v), l') -> py_strip v = v.
Proof.
  unfold Sheets.CREDENTIAL_SOURCES. intros Hs.
  apply lookup_insert_Some in Hs as [[<- <-]|[_ Hs]]; [apply env_source_stripped|].
  apply lookup_insert_Some in Hs as [[<- <-]|[_ Hs]]; [apply env_source_stripped|].
  apply lookup_insert_Some in Hs as [[<- <-]|[_ Hs]].
  { apply (proc_source_stripped w "USER" "default" v
             (fun account => ["security"; "find-generic-password"; "-s";
                              "Google Sheets Service Account"; "-a"; account; "-w"])). }
  apply lookup_singleton_Some in Hs as [<- <-].
  apply (proc_source_stripped w "GOOGLE_SHEETS_1PASSWORD_PATH"
           "op://Personal/Google Sheets Service Account/credential" v
           (fun item_path => ["op"; "read"; item_path])).
Qed.

Lemma linear_sources_stripped (w : World) (source v : string)
    (retriever : M (option string)) (l l' : list event) :
  Linear.API_KEY_SOURCES w !! source = Some retriever ->
  retriever l = (Ret (Some v), l') -> py_strip v = v.
Proof.
  unfold Linear.API_KEY_SOURCES. intros Hs.
  apply lookup_insert_Some in Hs as [[<- <-]|[_ Hs]]; [apply env_source_stripped|].
  apply lookup_insert_Some in Hs as [[<- <-]|[_ Hs]].
  { unfold Linear._from_keychain. intros H. revert H.
    cbv [os_getenv_or os_getenv try_except subprocess_run bind emit ret raise
         lookup_failed_to_none].
    destruct (subprocess w _); intros H; inversion H as [[Hv Hl]].
    now apply stripped_or_none_stripped in Hv. }
  apply lookup_singleton_Some in Hs as [<- <-].
  apply (proc_source_stripped w "LINEAR_1PASSWORD_PATH"
           "op://Personal/Linear/credential" v
           (fun item_path => ["op"; "read"; item_path])).
Qed.

(** X4: whatever the environment, the keychain or the password manager
    hold, the value the spreadsheet client takes as its credential data
    and the key the Linear client returns are not empty and have no
    whitespace at either end. *)
Theorem resolved_value_is_clean (w : World) (v : string) (l l' : list event) :
  (resolve_credential_data w l = (Ret v, l') -> clean v)
  /\ (get_api_key w l = (Ret v, l') -> clean v).
Proof.
  split.
  - cbv [resolve_credential_data os_getenv]. unfold bind at 1 2.
    unfold emit, ret at 1. fold (sheets_order w). unfold bind at 1.
    destruct (run_sources _ _ _ _) as [[[[cd|] tried]|e] l1] eqn:Hrun;
      [|discriminate|discriminate].
    destruct (nonempty cd) eqn:Hne; [|discriminate].
    intros H. inversion H; subst.
    destruct (run_sources_some_split _ _ _ _ _ _ _ Hrun)
      as (pre & k & post & f & l0 & _ & _ & Hk & Hf & Hv).
    split; [exact Hv|]. exact (sheets_sources_stripped _ _ _ _ _ _ Hk Hf).
  - cbv [get_api_key os_getenv]. unfold bind at 1 2.
    unfold emit, ret at 1. fold (linear_order w). unfold bind at 1.
    destruct (run_sources _ _ _ _) as [[[[value|] tried]|e] l1] eqn:Hrun.
    + intros H. inversion H; subst.
      destruct (run_sources_some_split _ _ _ _ _ _ _ Hrun)
        as (pre & k & post & f & l0 & _ & _ & Hk & Hf & Hv).
      split; [exact Hv|]. exact (linear_sources_stripped _ _ _ _ _ _ Hk Hf).
    + cbv [bind print emit sys_exit raise].
      destruct (bool_decide _); discriminate.
    + discriminate.
Qed.

Lemma resolved_value_is_clean_witness :
  clean "/etc/sheets/creds.json".
Proof.
  apply (proj1 (resolved_value_is_clean padded_env_world "/etc/sheets/creds.json"
                  []
                  [EvGetenv "GOOGLE_SHEETS_CREDENTIAL_SOURCES";
                   EvCall "json"; EvGetenv "GOOGLE_SHEETS_SERVICE_ACCOUNT_JSON";
                   EvCall "json"; EvGetenv "GOOGLE_SHEETS_SERVICE_ACCOUNT_JSON";
                   EvCall "env"; EvGetenv "GOOGLE_SHEETS_SERVICE_ACCOUNT"])).
  vm_compute. reflexivity.
Defined.

(** ** How failures are reported *)

Lemma get_sheets_service_raises (w : World) (e : exn) (l l' : list event) :
  _get_sheets_service w l = (Raise e, l') ->
  exists cause,
    e = Exc (GoogleSheetsAuthError
               ("Failed to create Sheets service: " +:+ str_of_error cause)).
Proof.
  unfold _get_sheets_service, try_except.
  pose proof (catchable_bind (get_service_account_credentials w) (build w) l
                (credentials_catchable w l)) as Hc.
  assert (Hb : forall a l1, catchable (build w a l1)).
  { intros a l1. cbv [build bind emit ret raise].
    destruct (build_fails w); exact I. }
  specialize (Hc Hb). unfold catchable in Hc.
  destruct (bind _ _ l) as [[service|[cause|code]] l1]; simpl in Hc;
    [discriminate| |contradiction].
  unfold raise. intros H. inversion H. now exists cause.
Qed.

(** X5: whatever goes wrong while the service is set up (no source, a
    reference that cannot be read, a document or a file the library
    refuses, a failing [build]), [_get_sheets_service] raises
    [GoogleSheetsAuthError] and nothing else, and a read reports it as
    [Authentication failed: Failed to create Sheets service: ...]
    without sending a request.  Once the service exists, an HTTP error
    other than 404 is reported as [API error: ...] and any other
    exception of the call as [Unexpected error: ...]. *)
Theorem read_sheet_error_messages (w : World) (spreadsheet_id sheet_name : string)
    (range_notation : option string) (l : list event) :
  (forall e l',
     _get_sheets_service w l = (Raise e, l') ->
     exists cause,
       e = Exc (GoogleSheetsAuthError
                  ("Failed to create Sheets service: " +:+ str_of_error cause))
       /\ read_sheet w spreadsheet_id sheet_name range_notation l
          = (Ret (Failure ("Authentication failed: Failed to create Sheets service: "
                           +:+ str_of_error cause)), l'))
  /\ (forall service l1 e,
        _get_sheets_service w l = (Ret service, l1) ->
        values_get w spreadsheet_id (range_str_of sheet_name range_notation)
        = Fails e ->
        read_sheet w spreadsheet_id sheet_name range_notation l
        = (Ret (Failure
                  (match e with
                   | HttpError status _ =>
                       if (status =? 404)%Z
                       then "Spreadsheet or sheet not found: " +:+ spreadsheet_id
                       else "API error: " +:+ str_of_error e
                   | GoogleSheetsAuthError _ =>
                       "Authentication failed: " +:+ str_of_error e
                   | _ => "Unexpected error: " +:+ str_of_error e
                   end)),
           l1 ++ [EvExecute (ValuesGet spreadsheet_id
                               (range_str_of sheet_name range_notation))])).
Proof.
  split.
  - intros e l' Hs.
    destruct (get_sheets_service_raises w e l l' Hs) as [cause ->].
    exists cause. split; [reflexivity|].
    cbv [read_sheet try_except bind]. rewrite Hs. reflexivity.
  - intros service l1 e Hs Hv.
    cbv [read_sheet try_except bind execute emit ret raise].
    rewrite Hs. cbv iota beta. rewrite Hv.
    destruct e as [status t|t|t|t|t|t]; try reflexivity.
    simpl. now destruct (status =? 404)%Z.
Qed.

Lemma read_sheet_error_messages_witness :
  (exists cause,
     Exc (GoogleSheetsAuthError
            ("Failed to create Sheets service: "
             +:+ auth_error_message ["json"; "env"; "keychain"; "1password"]))
     = Exc (GoogleSheetsAuthError
              ("Failed to create Sheets service: " +:+ str_of_error cause))
     /\ read_sheet bare_world "S1" "Sheet1" None []
        = (Ret (Failure ("Authentication failed: Failed to create Sheets service: "
                         +:+ str_of_error cause)),
           [EvGetenv "GOOGLE_SHEETS_CREDENTIAL_SOURCES";
            EvCall "json"; EvGetenv "GOOGLE_SHEETS_SERVICE_ACCOUNT_JSON";
            EvCall "env"; EvGetenv "GOOGLE_SHEETS_SERVICE_ACCOUNT";
            EvCall "keychain"; EvGetenv "USER";
            EvRun ["security"; "find-generic-password"; "-s";
                   "Google Sheets Service Account"; "-a"; "default"; "-w"];
            EvCall "1password"; EvGetenv "GOOGLE_SHEETS_1PASSWORD_PATH";
            EvRun ["op"; "read";
                   "op://Personal/Google Sheets Service Account/credential"]]))
  /\ read_sheet sheet_404_world "S1" "Sheet1" (Some "A1:B2") []
     = (Ret (Failure "Spreadsheet or sheet not found: S1"),
        serving_log "S1" "Sheet1!A1:B2").
Proof.
  split.
  - apply (proj1 (read_sheet_error_messages bare_world "S1" "Sheet1" None [])).
    vm_compute. reflexivity.
  - apply (proj2 (read_sheet_error_messages sheet_404_world "S1" "Sheet1"
                    (Some "A1:B2") [])
             (SheetsService (FromInfo (PDict [("type", PStr "service_account")])
                                      Sheets.SCOPES))
             [EvGetenv "GOOGLE_SHEETS_CREDENTIAL_SOURCES";
              EvCall "json";
              EvGetenv "GOOGLE_SHEETS_SERVICE_ACCOUNT_JSON";
              EvJsonLoads "{}";
              EvFromInfo (PDict [("type", PStr "service_account")]);
              EvBuild]
             (HttpError 404 "Requested entity was not found."));
      reflexivity.
Defined.

(** X6: a value that is neither a reference nor JSON is a path: when
    the file exists and the library takes it the credentials come from
    the file; when the library refuses it the error is
    [Failed to load service account credentials: ...].  In both cases
    the only accesses are the parse attempt and the file load. *)
Theorem credentials_from_file (w : World) (path content : string)
    (l : list event) :
  startswith path "op://" = false ->
  json_decode w path = None ->
  files w !! path = Some content ->
  post_process w path l
  = (match file_rejected w content with
     | Some t =>
         Raise (Exc (GoogleSheetsAuthError
           ("Failed to load service account credentials: " +:+ t)))
     | None => Ret (FromFile path Sheets.SCOPES)
     end,
     l ++ [EvJsonLoads path; EvFromFile path]).
Proof.
  intros Hp Hj Hf. unfold post_process, dereference. rewrite Hp.
  cbv [load_credentials try_except json_loads from_service_account_file
       bind emit ret raise].
  rewrite Hj, Hf. destruct (file_rejected w content); now rewrite <- app_assoc.
Qed.

Lemma credentials_from_file_witness :
  post_process file_world "/etc/sheets/creds.json" []
  = (Ret (FromFile "/etc/sheets/creds.json" Sheets.SCOPES),
     [EvJsonLoads "/etc/sheets/creds.json"; EvFromFile "/etc/sheets/creds.json"]).
Proof.
  apply (credentials_from_file file_world "/etc/sheets/creds.json" "{}" []);
    reflexivity.
Defined.

(** X7: an override that is set but holds separators and blanks only
    does not fall back to the default order: the order is empty, no
    source is consulted, and the resolution fails at once, the
    spreadsheet client with a message that has no [Tried sources] line,
    the Linear client printing [Tried sources: (none)] before it
    exits. *)
Theorem blank_override_fails_at_once (w : World) (source_env : string)
    (l : list event) :
  source_env <> "" ->
  parse_sources source_env = [] ->
  (os_environ w !! "GOOGLE_SHEETS_CREDENTIAL_SOURCES" = Some source_env ->
   get_service_account_credentials w l
   = (Raise (Exc (GoogleSheetsAuthError
        ("Unable to retrieve Google Sheets service account credentials." +:+ NL
         +:+ AUTH_GUIDANCE))),
      l ++ [EvGetenv "GOOGLE_SHEETS_CREDENTIAL_SOURCES"]))
  /\ (os_environ w !! "LINEAR_API_SOURCES" = Some source_env ->
      get_api_key w l
      = (Raise (SystemExit 1),
         l ++ [EvGetenv "LINEAR_API_SOURCES";
               EvPrint "Error: Unable to retrieve Linear API key.";
               EvPrint "Tried sources: (none)";
               EvPrint "Set LINEAR_API_KEY, store the key in Keychain (service 'Linear API Key'), or configure a 1Password item.";
               EvPrint "Override lookup order via LINEAR_API_SOURCES (comma separated, e.g., 'env,1password')."])).
Proof.
  intros Hne Hp. apply nonempty_true in Hne. split; intros He.
  - rewrite (resolve_exhausted w l [] (l ++ [EvGetenv "GOOGLE_SHEETS_CREDENTIAL_SOURCES"]));
      [reflexivity|].
    unfold sheets_order, preferred_sources_of.
    rewrite He. simpl. now rewrite Hne, Hp.
  - cbv [get_api_key os_getenv]. unfold bind at 1 2. unfold emit, ret at 1.
    rewrite He. unfold preferred_sources_of. simpl truthy. rewrite Hne, Hp.
    cbv [run_sources bind ret print emit sys_exit raise]. simpl.
    now rewrite <- !app_assoc.
Qed.

Lemma blank_override_fails_at_once_witness :
  get_service_account_credentials blank_order_world []
  = (Raise (Exc (GoogleSheetsAuthError
       ("Unable to retrieve Google Sheets service account credentials." +:+ NL
        +:+ AUTH_GUIDANCE))),
     [] ++ [EvGetenv "GOOGLE_SHEETS_CREDENTIAL_SOURCES"])
  /\ exists l', get_api_key blank_linear_order_world [] = (Raise (SystemExit 1), l').
Proof.
  split.
  - apply (proj1 (blank_override_fails_at_once blank_order_world " , " []
                    ltac:(discriminate) eq_refl)).
    reflexivity.
  - eexists.
    apply (proj2 (blank_override_fails_at_once blank_linear_order_world ", ," []
                    ltac:(discriminate) eq_refl)).
    reflexivity.
Defined.

(** ** What a read returns *)

(** X8: a successful read sent exactly the request for
    [sheet!range] (or for the sheet alone) as its last event, its data
    are the values of the answer, the empty grid when the answer has
    none; [rows] is the number of rows and [columns] the width of the
    first row, whatever the width of the others. *)
Theorem read_sheet_counts (w : World) (spreadsheet_id sheet_name : string)
    (range_notation : option string) (l l' : list event)
    (data : grid) (rows columns : nat) :
  read_sheet w spreadsheet_id sheet_name range_notation l
  = (Ret (ReadOk data rows columns), l') ->
  let range_str := range_str_of sheet_name range_notation in
  (exists result l1,
     values_get w spreadsheet_id range_str = Ok result
     /\ data = default [] result
     /\ l' = l1 ++ [EvExecute (ValuesGet spreadsheet_id range_str)])
  /\ rows = length data
  /\ columns = length (default [] (head data)).
Proof.
  cbv [read_sheet try_except bind execute emit ret raise].
  destruct (get_sheets_service_cases w l) as [(service & l1 & Hs)|(e & l1 & Hs)];
    rewrite Hs; cbv iota beta.
  - destruct (values_get w _ _) as [result|e] eqn:Hv.
    + intros H. inversion H; subst. split; [now exists result, l1|].
      split; [reflexivity|]. now destruct (default [] result).
    + destruct (error_envelope_returns spreadsheet_id e
                  (l1 ++ [EvExecute (ValuesGet spreadsheet_id
                            (range_str_of sheet_name range_notation))]))
        as [msg Hmsg].
      rewrite Hmsg. discriminate.
  - destruct (error_envelope_returns spreadsheet_id e l1) as [msg Hmsg].
    rewrite Hmsg. discriminate.
Qed.

Lemma read_sheet_counts_witness :
  (exists result l1,
     values_get file_world "S1" "Sheet1" = Ok result
     /\ [["a"; "b"; "c"]; []; ["d"]] = default [] result
     /\ [EvGetenv "GOOGLE_SHEETS_CREDENTIAL_SOURCES";
         EvCall "json"; EvGetenv "GOOGLE_SHEETS_SERVICE_ACCOUNT_JSON";
         EvCall "env"; EvGetenv "GOOGLE_SHEETS_SERVICE_ACCOUNT";
         EvJsonLoads "/etc/sheets/creds.json";
         EvFromFile "/etc/sheets/creds.json";
         EvBuild;
         EvExecute (ValuesGet "S1" "Sheet1")]
        = l1 ++ [EvExecute (ValuesGet "S1" "Sheet1")])
  /\ 3 = length [["a"; "b"; "c"]; []; ["d"]]
  /\ 3 = length (default [] (head [["a"; "b"; "c"]; []; ["d"]])).
Proof.
  apply (read_sheet_counts file_world "S1" "Sheet1" None []
           [EvGetenv "GOOGLE_SHEETS_CREDENTIAL_SOURCES";
            EvCall "json"; EvGetenv "GOOGLE_SHEETS_SERVICE_ACCOUNT_JSON";
            EvCall "env"; EvGetenv "GOOGLE_SHEETS_SERVICE_ACCOUNT";
            EvJsonLoads "/etc/sheets/creds.json";
            EvFromFile "/etc/sheets/creds.json";
            EvBuild;
            EvExecute (ValuesGet "S1" "Sheet1")]
           [["a"; "b"; "c"]; []; ["d"]] 3 3).
  vm_compute. reflexivity.
Defined.

(** X9: [read_sheet_as_dicts] returns either the failure of the read,
    unchanged and with the same log, or structured rows in which
    [rows] is the number of dictionaries and every dictionary has
    exactly the headers as its keys. *)
Theorem structured_rows_invariant (w : World) (spreadsheet_id sheet_name : string)
    (range_notation : option string) (l l' : list event) (env : envelope) :
  read_sheet_as_dicts w spreadsheet_id sheet_name range_notation l
  = (Ret env, l') ->
  match env with
  | DictsOk data rows headers =>
      rows = length data
      /\ Forall (fun d => dom d = list_to_set headers) data
  | Failure msg =>
      read_sheet w spreadsheet_id sheet_name range_notation l
      = (Ret (Failure msg), l')
  | _ => False
  end.
Proof.
  destruct (read_sheet_shape w spreadsheet_id sheet_name range_notation l)
    as (env' & l'' & Hr & Hshape).
  unfold read_sheet_as_dicts, bind. rewrite Hr.
  destruct Hshape as [[msg ->]|(values & rows & columns & ->)]; simpl.
  - intros H. inversion H; subst. reflexivity.
  - destruct values as [|headers data_rows]; intros H; inversion H; subst.
    + split; [reflexivity | constructor].
    + split; [now rewrite length_map|].
      apply List.Forall_map, Forall_forall. intros row _. apply row_dict_dom.
Qed.

Lemma structured_rows_invariant_witness :
  1 = length [ ({[ "H1" := "v1"; "H2" := "v2" ]} : gmap string string) ]
  /\ Forall (fun d : gmap string string => dom d = list_to_set ["H1"; "H2"])
            [ {[ "H1" := "v1"; "H2" := "v2" ]} ].
Proof.
  apply (structured_rows_invariant
           (serving_world (Some [["H1"; "H2"]; ["v1"; "v2"]])) "S1" "Sheet1" None
           [] (serving_log "S1" "Sheet1")
           (DictsOk [ {[ "H1" := "v1"; "H2" := "v2" ]} ] 1 ["H1"; "H2"])).
  vm_compute. reflexivity.
Defined.

(** ** What a search returns *)

Lemma search_rows_not_str (value : pyval) (values : grid) :
  (forall s, value <> PStr s) -> forall idx, search_rows idx values value = None.
Proof.
  intros Hv. induction values as [|row values IH]; intros idx; simpl;
    [reflexivity|].
  assert (Hf : first_cell_is value row = false).
  { destruct row as [|cell row]; [reflexivity|].
    destruct value; try reflexivity. now destruct (Hv s). }
  rewrite Hf. apply IH.
Qed.

(** X10: [find_row] returns a failure or a row; the row is the result
    of the search over the data of one successful read of the search
    range, it lies between 1 and the number of rows read (empty rows
    are counted), and it is [None] when the value searched for is not a
    string.  When a range is given, the column plays no part. *)
Theorem find_row_outcome (w : World) (spreadsheet_id sheet_name column : string)
    (value : pyval) (range_notation : option string) (l l' : list event)
    (env : envelope) :
  find_row w spreadsheet_id sheet_name column value range_notation l
  = (Ret env, l') ->
  match env with
  | FindOk r =>
      exists values rows columns,
        read_sheet w spreadsheet_id sheet_name
                   (Some (search_range_of column range_notation)) l
        = (Ret (ReadOk values rows columns), l')
        /\ r = search_rows 1 values value
        /\ (forall n, r = Some n -> 1 <= n <= length values)
        /\ ((forall s, value <> PStr s) -> r = None)
  | Failure msg => True
  | _ => False
  end
  /\ forall (r column' : string),
       range_notation = Some r -> r <> "" ->
       find_row w spreadsheet_id sheet_name column' value range_notation l
       = (Ret env, l').
Proof.
  intros H. split.
  - revert H.
    destruct (read_sheet_shape w spreadsheet_id sheet_name
                (Some (search_range_of column range_notation)) l)
      as (env' & l'' & Hr & Hshape).
    unfold find_row, try_except, bind. rewrite Hr.
    destruct Hshape as [[msg ->]|(values & rows & columns & ->)]; simpl;
      intros H; inversion H; subst; [exact I|].
    exists values, rows, columns. split; [reflexivity|]. split; [reflexivity|].
    split.
    + intros n Hn. apply search_rows_Some in Hn as (Hle & (row & Hrow & _) & _).
      apply lookup_lt_Some in Hrow. lia.
    + intros Hv. now apply search_rows_not_str.
  - intros r column' -> Hne. rewrite <- H. unfold find_row, search_range_of.
    apply nonempty_true in Hne. now rewrite Hne.
Qed.

Lemma find_row_outcome_witness :
  (exists values rows columns,
     read_sheet file_world "S1" "Sheet1" (Some (search_range_of "B" (Some "A:A"))) []
     = (Ret (ReadOk values rows columns),
        [EvGetenv "GOOGLE_SHEETS_CREDENTIAL_SOURCES";
         EvCall "json"; EvGetenv "GOOGLE_SHEETS_SERVICE_ACCOUNT_JSON";
         EvCall "env"; EvGetenv "GOOGLE_SHEETS_SERVICE_ACCOUNT";
         EvJsonLoads "/etc/sheets/creds.json";
         EvFromFile "/etc/sheets/creds.json";
         EvBuild;
         EvExecute (ValuesGet "S1" "Sheet1!A:A")])
     /\ Some 3 = search_rows 1 values (PStr "d")
     /\ (forall n, Some 3 = Some n -> 1 <= n <= length values)
     /\ ((forall s, PStr "d" <> PStr s) -> Some 3 = None))
  /\ forall (r column' : string),
       Some "A:A" = Some r -> r <> "" ->
       find_row file_world "S1" "Sheet1" column' (PStr "d") (Some "A:A") []
       = (Ret (FindOk (Some 3)),
          [EvGetenv "GOOGLE_SHEETS_CREDENTIAL_SOURCES";
           EvCall "json"; EvGetenv "GOOGLE_SHEETS_SERVICE_ACCOUNT_JSON";
           EvCall "env"; EvGetenv "GOOGLE_SHEETS_SERVICE_ACCOUNT";
           EvJsonLoads "/etc/sheets/creds.json";
           EvFromFile "/etc/sheets/creds.json";
           EvBuild;
           EvExecute (ValuesGet "S1" "Sheet1!A:A")]).
Proof.
  apply (find_row_outcome file_world "S1" "Sheet1" "B" (PStr "d") (Some "A:A") []
           [EvGetenv "GOOGLE_SHEETS_CREDENTIAL_SOURCES";
            EvCall "json"; EvGetenv "GOOGLE_SHEETS_SERVICE_ACCOUNT_JSON";
            EvCall "env"; EvGetenv "GOOGLE_SHEETS_SERVICE_ACCOUNT";
            EvJsonLoads "/etc/sheets/creds.json";
            EvFromFile "/etc/sheets/creds.json";
            EvBuild;
            EvExecute (ValuesGet "S1" "Sheet1!A:A")]
           (FindOk (Some 3))).
  vm_compute. reflexivity.
Defined.

(** ** The dispatcher *)

Lemma contract_no_escape (failed : Prop) (r : outcome envelope * list event) :
  envelope_contract failed r -> no_escape r.
Proof. intros (env & l' & -> & _). now eexists _, _. Qed.

Lemma ret_no_escape {A} (a : A) (l : list event) : no_escape (ret a l).
Proof. now eexists _, _. Qed.

(** X11: the dispatcher never raises: for every specification and
    every world it returns an envelope.  An operation that is not one
    of the six names, compared as they are written, gives
    [Unknown operation: ...] and leaves the log as it was. *)
Theorem dispatcher_always_returns (w : World) (spec : gmap string pyval)
    (l : list event) :
  no_escape (sheets_from_spec w spec l)
  /\ (missing_fields spec = [] ->
      Forall (fun name => is_str (item spec "operation") name = false) OPERATIONS ->
      sheets_from_spec w spec l
      = (Ret (Failure ("Unknown operation: "
                       +:+ as_str w (item spec "operation"))), l)).
Proof.
  split.
  - unfold sheets_from_spec.
    destruct (negb (bool_decide _)); [apply ret_no_escape|].
    destruct (is_str _ "read");
      [eapply contract_no_escape, read_sheet_contract|].
    destruct (is_str _ "read_dicts");
      [eapply contract_no_escape, read_sheet_as_dicts_contract|].
    destruct (is_str _ "append").
    { destruct (negb _); [apply ret_no_escape|].
      eapply contract_no_escape, wrapper_contract. }
    destruct (is_str _ "append_rows").
    { destruct (negb _); [apply ret_no_escape|].
      eapply contract_no_escape, wrapper_contract. }
    destruct (is_str _ "update").
    { destruct (negb _); [apply ret_no_escape|].
      destruct (negb _); [apply ret_no_escape|].
      eapply contract_no_escape, wrapper_contract. }
    destruct (is_str _ "find").
    { destruct (negb _); [apply ret_no_escape|].
      destruct (negb _); [apply ret_no_escape|].
      eapply contract_no_escape, find_row_contract. }
    apply ret_no_escape.
  - unfold missing_fields, sheets_from_spec, OPERATIONS. intros Hm Hops.
    destruct (List.filter _ REQUIRED) as [|f fs]; [|discriminate].
    rewrite !Forall_cons in Hops.
    destruct Hops as (-> & -> & -> & -> & -> & -> & _). reflexivity.
Qed.

Lemma dispatcher_always_returns_witness :
  sheets_from_spec bare_world shouting_spec []
  = (Ret (Failure ("Unknown operation: "
                   +:+ as_str bare_world (item shouting_spec "operation"))), []).
Proof.
  apply (proj2 (dispatcher_always_returns bare_world shouting_spec [])).
  - vm_compute. reflexivity.
  - vm_compute. repeat constructor.
Defined.

Lemma in_spec_insert_ne (spec : gmap string pyval) (key k : string) (v : pyval) :
  key <> k -> in_spec (<[ key := v ]> spec) k = in_spec spec k.
Proof. intros H. unfold in_spec. now rewrite lookup_insert_ne. Qed.

Lemma item_insert_ne (spec : gmap string pyval) (key k : string) (v : pyval) :
  key <> k -> item (<[ key := v ]> spec) k = item spec k.
Proof. intros H. unfold item. now rewrite lookup_insert_ne. Qed.

(** X12: a key the dispatcher does not know changes nothing: adding
    it to a specification, with any value, gives the same result and
    the same events. *)
Theorem unrecognized_key_ignored (w : World) (spec : gmap string pyval)
    (key : string) (v : pyval) (l : list event) :
  key ∉ RECOGNIZED ->
  sheets_from_spec w (<[ key := v ]> spec) l = sheets_from_spec w spec l.
Proof.
  intros Hk. unfold RECOGNIZED in Hk.
  rewrite !not_elem_of_cons in Hk.
  destruct Hk as (H1 & H2 & H3 & H4 & H5 & H6 & H7 & H8 & _).
  unfold sheets_from_spec, REQUIRED. cbn [List.filter].
  rewrite !in_spec_insert_ne, !item_insert_ne by assumption.
  now rewrite (lookup_insert_ne spec key "range_notation") by assumption.
Qed.

Lemma unrecognized_key_ignored_witness :
  sheets_from_spec file_world (<[ "note" := PStr "for the record" ]> read_spec) []
  = sheets_from_spec file_world read_spec [].
Proof.
  apply (unrecognized_key_ignored file_world read_spec "note"
           (PStr "for the record") []).
  vm_compute. intros H. repeat (apply elem_of_cons in H as [H|H]; [discriminate|]).
  now apply elem_of_nil in H.
Defined.

(** ** Appending to a table *)

Lemma find_table_entry (sheet_name title : string) (sheet_id tables : pyval)
    (rest : list pyval) (l : list event) :
  find_table sheet_name (sheet_entry title sheet_id tables :: rest) l
  = (if String.eqb title sheet_name then
       if py_truthy tables then
         first <- py_index0 tables ;;
         table_id <- dict_index first "tableId" ;;
         ret (sheet_id, table_id)
       else ret (sheet_id, PNone)
     else find_table sheet_name rest) l.
Proof. reflexivity. Qed.

Lemma find_table_skips (sheet_name : string) (others sheets : list pyval)
    (l : list event) :
  Forall (other_sheet sheet_name) others ->
  find_table sheet_name (others ++ sheets) l = find_table sheet_name sheets l.
Proof.
  induction 1 as [|sheet others (title & sheet_id & tables & -> & Hne) _ IH];
    [reflexivity|].
  rewrite <- app_comm_cons, find_table_entry.
  apply String.eqb_neq in Hne. rewrite Hne. exact IH.
Qed.

Lemma find_table_here (sheet_name : string) (sheet_id : pyval)
    (table_id : option pyval) (more rest : list pyval) (l : list event) :
  find_table sheet_name
    (sheet_entry sheet_name sheet_id (tables_of table_id more) :: rest) l
  = (Ret (sheet_id, default PNone table_id), l).
Proof.
  rewrite find_table_entry, String.eqb_refl. now destruct table_id.
Qed.

(** X13: a sheet whose [sheetId] is 0 (the id of the first sheet of a
    spreadsheet), or any other falsy id, is reported as not found
    although the metadata list it under its title, and no update is
    sent. *)
Theorem falsy_sheet_id_reported_missing (w : World)
    (spreadsheets_get : string -> M pyval)
    (batch_update : string -> pyval -> M pyval)
    (spreadsheet_id sheet_name : string) (rows : pyval)
    (service : Service) (entries : list (string * pyval))
    (others rest more : list pyval) (sheet_id : pyval) (table_id : option pyval)
    (l l1 l2 : list event) :
  _get_sheets_service w l = (Ret service, l1) ->
  spreadsheets_get spreadsheet_id l1 = (Ret (PDict entries), l2) ->
  assoc entries "sheets"
  = Some (PList (others
                 ++ sheet_entry sheet_name sheet_id (tables_of table_id more)
                 :: rest)) ->
  Forall (other_sheet sheet_name) others ->
  py_truthy sheet_id = false ->
  append_rows_to_table w spreadsheets_get batch_update
                       spreadsheet_id sheet_name rows l
  = (Ret (TableFailure ("Sheet '" +:+ sheet_name +:+ "' not found in spreadsheet")),
     l2).
Proof.
  intros Hs Hg Ha Ho Hf.
  unfold append_rows_to_table, try_except.
  unfold bind at 1. rewrite Hs. unfold bind at 1. rewrite Hg.
  unfold bind at 1. unfold dict_get. rewrite Ha. cbn [from_option id ret].
  unfold bind at 1. cbn [py_iter ret]. unfold bind at 1.
  rewrite (find_table_skips _ _ _ _ Ho), find_table_here.
  now rewrite Hf.
Qed.

Lemma falsy_sheet_id_reported_missing_witness :
  append_rows_to_table (serving_world None) (answer_with two_sheets) never_update
                       "S1" "Interactions" (PList [PList [PStr "I001"]]) []
  = (Ret (TableFailure "Sheet 'Interactions' not found in spreadsheet"),
     [EvGetenv "GOOGLE_SHEETS_CREDENTIAL_SOURCES";
      EvCall "json"; EvGetenv "GOOGLE_SHEETS_SERVICE_ACCOUNT_JSON";
      EvJsonLoads "{}";
      EvFromInfo (PDict [("type", PStr "service_account")]);
      EvBuild]).
Proof.
  apply (falsy_sheet_id_reported_missing (serving_world None)
           (answer_with two_sheets) never_update "S1" "Interactions"
           (PList [PList [PStr "I001"]])
           (SheetsService (FromInfo (PDict [("type", PStr "service_account")])
                                    Sheets.SCOPES))
           [("sheets",
             PList [sheet_entry "Interactions" (PInt 0)
                      (PList [PDict [("tableId", PStr "t1")]]);
                    sheet_entry "Archive" (PInt 7)
                      (PList [PDict [("tableId", PStr "t2")]])])]
           [] [sheet_entry "Archive" (PInt 7)
                 (PList [PDict [("tableId", PStr "t2")]])]
           [] (PInt 0) (Some (PStr "t1")) []
           [EvGetenv "GOOGLE_SHEETS_CREDENTIAL_SOURCES";
            EvCall "json"; EvGetenv "GOOGLE_SHEETS_SERVICE_ACCOUNT_JSON";
            EvJsonLoads "{}";
            EvFromInfo (PDict [("type", PStr "service_account")]);
            EvBuild]);
    try reflexivity.
  constructor.
Defined.

Lemma build_row_data_grid (w : World) (grid : list (list pyval)) (l : list event) :
  build_row_data w (map PList grid) l
  = (Ret (map (fun row => PDict [("values", PList (map (cell_data w) row))]) grid),
     l).
Proof.
  induction grid as [|row grid IH]; [reflexivity|].
  cbn [map build_row_data py_iter]. unfold bind at 1. cbn [ret].
  unfold bind at 1. now rewrite IH.
Qed.

(** X14: when the sheet is listed with a truthy id and a first table
    with a truthy id, the update carries one row per row given and one
    cell per cell given, and when it returns, [rows_added] is the number
    of rows given.  A cell is typed by its value: a [bool] goes out as
    [boolValue], an [int] or a [float] as [numberValue], a string that starts with
    [=] as [formulaValue], any other string as [stringValue], [None] as
    the empty [stringValue], a list or a dict as the [stringValue] of
    its [str]. *)
Theorem table_append_sends_typed_cells (w : World)
    (spreadsheets_get : string -> M pyval)
    (batch_update : string -> pyval -> M pyval)
    (spreadsheet_id sheet_name : string) (grid : list (list pyval))
    (service : Service) (entries : list (string * pyval))
    (others rest more : list pyval) (sheet_id table_id : pyval)
    (l l1 l2 : list event) :
  _get_sheets_service w l = (Ret service, l1) ->
  spreadsheets_get spreadsheet_id l1 = (Ret (PDict entries), l2) ->
  assoc entries "sheets"
  = Some (PList (others
                 ++ sheet_entry sheet_name sheet_id (tables_of (Some table_id) more)
                 :: rest)) ->
  Forall (other_sheet sheet_name) others ->
  py_truthy sheet_id = true ->
  py_truthy table_id = true ->
  let cell kind value := PDict [("userEnteredValue", PDict [(kind, value)])] in
  let row_data :=
    map (fun row => PDict [("values", PList (map (cell_data w) row))]) grid in
  let body :=
    PDict [("requests",
            PList [PDict [("appendCells",
                           PDict [("sheetId", sheet_id);
                                  ("tableId", table_id);
                                  ("rows", PList row_data);
                                  ("fields", PStr "*")])]])] in
  (forall result l3,
     batch_update spreadsheet_id body l2 = (Ret result, l3) ->
     append_rows_to_table w spreadsheets_get batch_update
                          spreadsheet_id sheet_name (PList (map PList grid)) l
     = (Ret (TableOk table_id (length grid) result), l3))
  /\ (forall b, cell_data w (PBool b) = cell "boolValue" (PBool b))
  /\ (forall n, cell_data w (PInt n) = cell "numberValue" (PInt n))
  /\ (forall m e, cell_data w (PFloat m e) = cell "numberValue" (PFloat m e))
  /\ (forall s, startswith s "=" = true ->
                cell_data w (PStr s) = cell "formulaValue" (PStr s))
  /\ (forall s, startswith s "=" = false ->
                cell_data w (PStr s) = cell "stringValue" (PStr s))
  /\ cell_data w PNone = cell "stringValue" (PStr "")
  /\ (forall items,
        cell_data w (PList items)
        = cell "stringValue" (PStr (py_str w (PList items))))
  /\ (forall fields,
        cell_data w (PDict fields)
        = cell "stringValue" (PStr (py_str w (PDict fields)))).
Proof.
  intros Hs Hg Ha Ho Hsid Htid cell row_data body.
  split; [|repeat split; try reflexivity;
           intros s Hp; unfold cell_data; now rewrite Hp].
  intros result l3 Hu. subst body row_data.
  unfold append_rows_to_table, try_except.
  unfold bind at 1. rewrite Hs. unfold bind at 1. rewrite Hg.
  unfold bind at 1. unfold dict_get. rewrite Ha. cbn [from_option id ret].
  unfold bind at 1. cbn [py_iter ret]. unfold bind at 1.
  rewrite (find_table_skips _ _ _ _ Ho), find_table_here.
  cbn [from_option id]. rewrite Hsid, Htid. cbn [negb].
  unfold bind at 1. cbn [ret]. unfold bind at 1.
  rewrite build_row_data_grid. unfold bind at 1.
  unfold append_cells_body. rewrite Hu.
  unfold bind. cbn [py_len ret]. now rewrite length_map.
Qed.

Lemma table_append_sends_typed_cells_witness :
  append_rows_to_table (serving_world None) (answer_with two_sheets) echo_update
    "S1" "Archive"
    (PList [PList [PStr "I001"; PInt 3; PFloat 3 (-1); PBool true;
                   PStr "=A1+1"; PNone]]) []
  = (Ret (TableOk (PStr "t2") 1
       (PDict [("requests",
          PList [PDict [("appendCells",
            PDict [("sheetId", PInt 7);
                   ("tableId", PStr "t2");
                   ("rows",
                    PList [PDict [("values",
                      PList [PDict [("userEnteredValue",
                                     PDict [("stringValue", PStr "I001")])];
                             PDict [("userEnteredValue",
                                     PDict [("numberValue", PInt 3)])];
                             PDict [("userEnteredValue",
                                     PDict [("numberValue", PFloat 3 (-1))])];
                             PDict [("userEnteredValue",
                                     PDict [("boolValue", PBool true)])];
                             PDict [("userEnteredValue",
                                     PDict [("formulaValue", PStr "=A1+1")])];
                             PDict [("userEnteredValue",
                                     PDict [("stringValue", PStr "")])]])]]);
                   ("fields", PStr "*")])]])])),
     [EvGetenv "GOOGLE_SHEETS_CREDENTIAL_SOURCES";
      EvCall "json"; EvGetenv "GOOGLE_SHEETS_SERVICE_ACCOUNT_JSON";
      EvJsonLoads "{}";
      EvFromInfo (PDict [("type", PStr "service_account")]);
      EvBuild]).
Proof.
  assert (Hothers : Forall (other_sheet "Archive")
                      [sheet_entry "Interactions" (PInt 0)
                         (PList [PDict [("tableId", PStr "t1")]])]).
  { constructor; [|constructor].
    exists "Interactions", (PInt 0), (PList [PDict [("tableId", PStr "t1")]]).
    split; [reflexivity | discriminate]. }
  apply (proj1 (table_append_sends_typed_cells (serving_world None)
           (answer_with two_sheets) echo_update "S1" "Archive"
           [[PStr "I001"; PInt 3; PFloat 3 (-1); PBool true; PStr "=A1+1"; PNone]]
           (SheetsService (FromInfo (PDict [("type", PStr "service_account")])
                                    Sheets.SCOPES))
           [("sheets",
             PList [sheet_entry "Interactions" (PInt 0)
                      (PList [PDict [("tableId", PStr "t1")]]);
                    sheet_entry "Archive" (PInt 7)
                      (PList [PDict [("tableId", PStr "t2")]])])]
           [sheet_entry "Interactions" (PInt 0)
              (PList [PDict [("tableId", PStr "t1")]])]
           [] [] (PInt 7) (PStr "t2") []
           [EvGetenv "GOOGLE_SHEETS_CREDENTIAL_SOURCES";
            EvCall "json"; EvGetenv "GOOGLE_SHEETS_SERVICE_ACCOUNT_JSON";
            EvJsonLoads "{}";
            EvFromInfo (PDict [("type", PStr "service_account")]);
            EvBuild]
           [EvGetenv "GOOGLE_SHEETS_CREDENTIAL_SOURCES";
            EvCall "json"; EvGetenv "GOOGLE_SHEETS_SERVICE_ACCOUNT_JSON";
            EvJsonLoads "{}";
            EvFromInfo (PDict [("type", PStr "service_account")]);
            EvBuild]
           eq_refl eq_refl eq_refl Hothers eq_refl eq_refl)).
  reflexivity.
Defined.

Lemma dict_index_catchable (d : pyval) (key : string) (l : list event) :
  catchable (dict_index d key l).
Proof.
  destruct d; try exact I. simpl. destruct (assoc entries key); exact I.
Qed.

Lemma dict_get_catchable (d : pyval) (key : string) (fallback : pyval)
    (l : list event) :
  catchable (dict_get d key fallback l).
Proof. destruct d; exact I. Qed.

Lemma py_iter_catchable (v : pyval) (l : list event) : catchable (py_iter v l).
Proof. destruct v; exact I. Qed.

Lemma py_index0_catchable (v : pyval) (l : list event) : catchable (py_index0 v l).
Proof. destruct v as [| | | |[|c s]|[|x items]|]; exact I. Qed.

Lemma py_len_catchable (v : pyval) (l : list event) : catchable (py_len v l).
Proof. destruct v; exact I. Qed.

Lemma find_table_catchable (sheet_name : string) (sheets : list pyval) :
  forall l, catchable (find_table sheet_name sheets l).
Proof.
  induction sheets as [|sheet sheets IH]; intros l; [exact I|].
  cbn [find_table].
  apply catchable_bind; [apply dict_index_catchable|]. intros properties l1.
  apply catchable_bind; [apply dict_index_catchable|]. intros title l2.
  destruct (is_str title sheet_name); [|apply IH].
  apply catchable_bind; [apply dict_index_catchable|]. intros properties' l3.
  apply catchable_bind; [apply dict_index_catchable|]. intros sheet_id l4.
  apply catchable_bind; [apply dict_get_catchable|]. intros tables l5.
  destruct (py_truthy tables); [|exact I].
  apply catchable_bind; [apply py_index0_catchable|]. intros first l6.
  apply catchable_bind; [apply dict_index_catchable|]. intros; exact I.
Qed.

Lemma build_row_data_catchable (w : World) (rows : list pyval) :
  forall l, catchable (build_row_data w rows l).
Proof.
  induction rows as [|row rows IH]; intros l; [exact I|].
  cbn [build_row_data].
  apply catchable_bind; [apply py_iter_catchable|]. intros cells l1.
  apply catchable_bind; [apply IH|]. intros; exact I.
Qed.

Lemma table_error_envelope_fails (spreadsheet_id : string) (e : error)
    (l : list event) :
  exists msg, table_error_envelope spreadsheet_id e l = (Ret (TableFailure msg), l).
Proof.
  destruct e as [status t|t|t|t|t|t]; simpl; try (now eexists).
  destruct (status =? 404)%Z; now eexists.
Qed.

(** X15: as long as the two calls of the vendor raise nothing but
    exceptions of class [Exception], [append_rows_to_table] returns an
    envelope whatever the metadata and the rows look like, and what
    goes wrong on the way ends in a failure envelope: a service that
    cannot be created, a metadata call that raises (status 404 with the
    message of a missing spreadsheet), metadata that is no [dict],
    rows that cannot be iterated, an update call that raises. *)
Theorem table_append_returns_envelope (w : World)
    (spreadsheets_get : string -> M pyval)
    (batch_update : string -> pyval -> M pyval)
    (spreadsheet_id sheet_name : string) (rows : pyval) (l : list event) :
  (forall id l1, catchable (spreadsheets_get id l1)) ->
  (forall id body l1, catchable (batch_update id body l1)) ->
  let result := append_rows_to_table w spreadsheets_get batch_update
                                     spreadsheet_id sheet_name rows l in
  no_escape result
  /\ (forall e l1,
        _get_sheets_service w l = (Raise e, l1) ->
        exists cause,
          result
          = (Ret (TableFailure
                    ("Authentication failed: Failed to create Sheets service: "
                     +:+ str_of_error cause)), l1))
  /\ (forall service l1 e l2,
        _get_sheets_service w l = (Ret service, l1) ->
        spreadsheets_get spreadsheet_id l1 = (Raise (Exc e), l2) ->
        result = table_error_envelope spreadsheet_id e l2
        /\ (exists msg, result = (Ret (TableFailure msg), l2))
        /\ (forall text,
              e = HttpError 404 text ->
              result
              = (Ret (TableFailure
                        ("Spreadsheet or sheet not found: " +:+ spreadsheet_id)),
                 l2)))
  /\ (forall service l1 document l2,
        _get_sheets_service w l = (Ret service, l1) ->
        spreadsheets_get spreadsheet_id l1 = (Ret document, l2) ->
        (forall fields, document <> PDict fields) ->
        result
        = (Ret (TableFailure
                  ("Unexpected error: '" +:+ type_name document
                   +:+ "' object has no attribute 'get'")), l2))
  /\ (forall service l1 fields l2 others sheet_id table_id more rest,
        _get_sheets_service w l = (Ret service, l1) ->
        spreadsheets_get spreadsheet_id l1 = (Ret (PDict fields), l2) ->
        assoc fields "sheets"
        = Some (PList (others
                       ++ sheet_entry sheet_name sheet_id
                            (tables_of (Some table_id) more)
                       :: rest)) ->
        Forall (other_sheet sheet_name) others ->
        py_truthy sheet_id = true ->
        py_truthy table_id = true ->
        (rows = PNone \/ (exists b, rows = PBool b) \/ (exists n, rows = PInt n) ->
         result
         = (Ret (TableFailure
                   ("Unexpected error: '" +:+ type_name rows
                    +:+ "' object is not iterable")), l2))
        /\ (forall grid e l3,
              rows = PList (map PList grid) ->
              batch_update spreadsheet_id
                (append_cells_body sheet_id table_id
                   (map (fun row => PDict [("values", PList (map (cell_data w) row))])
                        grid)) l2
              = (Raise (Exc e), l3) ->
              result = table_error_envelope spreadsheet_id e l3
              /\ exists msg, result = (Ret (TableFailure msg), l3))).
Proof.
  intros Hget Hupd result. subst result.
  split; [|split; [|split; [|split]]].
  - unfold append_rows_to_table. apply try_except_returns.
    + apply catchable_bind; [apply get_sheets_service_catchable|]. intros service l1.
      apply catchable_bind; [apply Hget|]. intros spreadsheet l2.
      apply catchable_bind; [apply dict_get_catchable|]. intros sheets l3.
      apply catchable_bind; [apply py_iter_catchable|]. intros sheet_list l4.
      apply catchable_bind; [apply find_table_catchable|].
      intros [sheet_id table_id] l5.
      destruct (negb (py_truthy sheet_id)); [exact I|].
      destruct (negb (py_truthy table_id)); [exact I|].
      apply catchable_bind; [apply py_iter_catchable|]. intros row_list l6.
      apply catchable_bind; [apply build_row_data_catchable|]. intros row_data l7.
      apply catchable_bind; [apply Hupd|]. intros result l8.
      apply catchable_bind; [apply py_len_catchable|]. intros; exact I.
    + intros e l1. destruct (table_error_envelope_fails spreadsheet_id e l1) as [msg ->].
      now eexists _, _.
  - intros e l1 Hs.
    destruct (get_sheets_service_raises w e l l1 Hs) as [cause ->].
    exists cause. unfold append_rows_to_table, try_except.
    unfold bind at 1. now rewrite Hs.
  - intros service l1 e l2 Hs Hg.
    assert (Hr : append_rows_to_table w spreadsheets_get batch_update
                   spreadsheet_id sheet_name rows l
                 = table_error_envelope spreadsheet_id e l2).
    { unfold append_rows_to_table, try_except.
      unfold bind at 1. rewrite Hs. unfold bind at 1. now rewrite Hg. }
    rewrite Hr. split; [reflexivity|].
    split; [apply table_error_envelope_fails|].
    intros text ->. reflexivity.
  - intros service l1 document l2 Hs Hg Hnd.
    unfold append_rows_to_table, try_except.
    unfold bind at 1. rewrite Hs. unfold bind at 1. rewrite Hg.
    unfold bind at 1.
    destruct document as [| | | | | |fields]; try reflexivity.
    now destruct (Hnd fields).
  - intros service l1 fields l2 others sheet_id table_id more rest
      Hs Hg Ha Ho Hsid Htid.
    assert (Hstart : append_rows_to_table w spreadsheets_get batch_update
                       spreadsheet_id sheet_name rows l
                     = try_except
                         (row_list <- py_iter rows ;;
                          row_data <- build_row_data w row_list ;;
                          result <- batch_update spreadsheet_id
                                      (append_cells_body sheet_id table_id row_data) ;;
                          rows_added <- py_len rows ;;
                          ret (TableOk table_id rows_added result))
                         (table_error_envelope spreadsheet_id) l2).
    { unfold append_rows_to_table, try_except.
      unfold bind at 1. rewrite Hs. unfold bind at 1. rewrite Hg.
      unfold bind at 1. unfold dict_get. rewrite Ha. cbn [from_option id ret].
      unfold bind at 1. cbn [py_iter ret]. unfold bind at 1.
      rewrite (find_table_skips _ _ _ _ Ho), find_table_here.
      cbn [from_option id]. rewrite Hsid, Htid. reflexivity. }
    rewrite Hstart. split.
    + intros [->|[[b ->]|[n ->]]]; reflexivity.
    + intros grid e l3 -> Hu.
      assert (Hr : try_except
                     (row_list <- py_iter (PList (map PList grid)) ;;
                      row_data <- build_row_data w row_list ;;
                      result <- batch_update spreadsheet_id
                                  (append_cells_body sheet_id table_id row_data) ;;
                      rows_added <- py_len (PList (map PList grid)) ;;
                      ret (TableOk table_id rows_added result))
                     (table_error_envelope spreadsheet_id) l2
                   = table_error_envelope spreadsheet_id e l3).
      { unfold try_except. unfold bind at 1. cbn [py_iter ret]. unfold bind at 1.
        rewrite build_row_data_grid. unfold bind at 1. now rewrite Hu. }
      rewrite Hr. split; [reflexivity | apply table_error_envelope_fails].
Qed.

Lemma table_append_returns_envelope_witness :
  append_rows_to_table (serving_world None) (answer_with (PStr "not a dict"))
    accept_update "S1" "Archive" (PInt 5) []
  = (Ret (TableFailure "Unexpected error: 'str' object has no attribute 'get'"),
     serving_log_service)
  /\ append_rows_to_table (serving_world None) (answer_with two_sheets)
       accept_update "S1" "Archive" (PInt 5) []
     = (Ret (TableFailure "Unexpected error: 'int' object is not iterable"),
        serving_log_service)
  /\ append_rows_to_table (serving_world None) get_not_found
       accept_update "S1" "Archive" (PList []) []
     = (Ret (TableFailure "Spreadsheet or sheet not found: S1"),
        serving_log_service)
  /\ (exists cause,
        append_rows_to_table bare_world (answer_with two_sheets)
          accept_update "S1" "Archive" (PList []) []
        = (Ret (TableFailure
                  ("Authentication failed: Failed to create Sheets service: "
                   +:+ str_of_error cause)),
           bare_log_service)).
Proof.
  assert (Hget : forall doc id l1, catchable (answer_with doc id l1))
    by (intros; exact I).
  assert (Hnf : forall id l1, catchable (get_not_found id l1))
    by (intros; exact I).
  assert (Hupd : forall id body l1, catchable (accept_update id body l1))
    by (intros; exact I).
  assert (Hothers : Forall (other_sheet "Archive")
                      [sheet_entry "Interactions" (PInt 0)
                         (PList [PDict [("tableId", PStr "t1")]])]).
  { constructor; [|constructor].
    exists "Interactions", (PInt 0), (PList [PDict [("tableId", PStr "t1")]]).
    split; [reflexivity | discriminate]. }
  split; [|split; [|split]].
  - pose proof (table_append_returns_envelope (serving_world None)
                  (answer_with (PStr "not a dict")) accept_update
                  "S1" "Archive" (PInt 5) [] (Hget _) Hupd)
      as (_ & _ & _ & Hdoc & _).
    apply (Hdoc (SheetsService (FromInfo (PDict [("type", PStr "service_account")])
                                         Sheets.SCOPES))
                serving_log_service (PStr "not a dict") serving_log_service);
      [reflexivity | reflexivity | discriminate].
  - pose proof (table_append_returns_envelope (serving_world None)
                  (answer_with two_sheets) accept_update
                  "S1" "Archive" (PInt 5) [] (Hget _) Hupd)
      as (_ & _ & _ & _ & Hrows).
    apply (Hrows (SheetsService (FromInfo (PDict [("type", PStr "service_account")])
                                          Sheets.SCOPES))
                 serving_log_service
                 [("sheets",
                   PList [sheet_entry "Interactions" (PInt 0)
                            (PList [PDict [("tableId", PStr "t1")]]);
                          sheet_entry "Archive" (PInt 7)
                            (PList [PDict [("tableId", PStr "t2")]])])]
                 serving_log_service
                 [sheet_entry "Interactions" (PInt 0)
                    (PList [PDict [("tableId", PStr "t1")]])]
                 (PInt 7) (PStr "t2") [] []
                 eq_refl eq_refl eq_refl Hothers eq_refl eq_refl).
    right. right. now exists 5%Z.
  - pose proof (table_append_returns_envelope (serving_world None)
                  get_not_found accept_update
                  "S1" "Archive" (PList []) [] Hnf Hupd)
      as (_ & _ & Hmeta & _).
    destruct (Hmeta (SheetsService (FromInfo (PDict [("type", PStr "service_account")])
                                             Sheets.SCOPES))
                    serving_log_service
                    (HttpError 404 "Requested entity was not found.")
                    serving_log_service eq_refl eq_refl)
      as (_ & _ & H404).
    exact (H404 "Requested entity was not found." eq_refl).
  - pose proof (table_append_returns_envelope bare_world
                  (answer_with two_sheets) accept_update
                  "S1" "Archive" (PList []) [] (Hget _) Hupd)
      as (_ & Hauth & _).
    apply (Hauth (Exc (GoogleSheetsAuthError
                    ("Failed to create Sheets service: "
                     +:+ auth_error_message ["json"; "env"; "keychain"; "1password"])))
                 bare_log_service).
    vm_compute. reflexivity.
Defined.

(** ** The Linear client *)

(** X16: a relation type outside the four valid ones stops the process
    before anything is sent: the log gains the two printed lines and
    no request. *)
Theorem relation_type_checked_first (w : World)
    (api_key issue_identifier related_issue_identifier relation_type : string)
    (l : list event) :
  relation_type ∉ VALID_RELATION_TYPES ->
  create_issue_relation w api_key issue_identifier related_issue_identifier
                        relation_type l
  = (Raise (SystemExit 1),
     l ++ [EvPrint ("Error: Invalid relation type '" +:+ relation_type +:+ "'");
           EvPrint "Valid types: related, blocks, duplicate, similar"]).
Proof.
  intros H. unfold create_issue_relation.
  rewrite bool_decide_eq_false_2 by exact H.
  cbv [negb bind print emit sys_exit raise]. now rewrite <- app_assoc.
Qed.

Lemma relation_type_checked_first_witness :
  create_issue_relation tracker_404_world "lin_api_key" "LUM-17" "LUM-12"
                        "Blocks" []
  = (Raise (SystemExit 1),
     [] ++ [EvPrint "Error: Invalid relation type 'Blocks'";
            EvPrint "Valid types: related, blocks, duplicate, similar"]).
Proof.
  apply (relation_type_checked_first tracker_404_world "lin_api_key" "LUM-17"
           "LUM-12" "Blocks" []).
  vm_compute. intros H.
  repeat (apply elem_of_cons in H as [H|H]; [discriminate|]).
  now apply elem_of_nil in H.
Defined.

(** X17: when the look-up of the issue returns nothing, [create_comment]
    and [create_issue_relation] print that the issue was not found and
    stop the process; the log is that of the look-up plus the printed
    line: the mutation is never sent, and the related issue is not
    looked up. *)
Theorem missing_issue_stops_before_mutation (w : World)
    (api_key issue_identifier : string) (issue_id : pyval) (l l1 : list event) :
  get_issue_id_by_identifier w api_key issue_identifier l = (Ret issue_id, l1) ->
  py_truthy issue_id = false ->
  (forall body,
     create_comment w api_key issue_identifier body l
     = (Raise (SystemExit 1),
        l1 ++ [EvPrint ("Error: Issue '" +:+ issue_identifier +:+ "' not found")]))
  /\ (forall related_issue_identifier relation_type,
        relation_type ∈ VALID_RELATION_TYPES ->
        create_issue_relation w api_key issue_identifier related_issue_identifier
                              relation_type l
        = (Raise (SystemExit 1),
           l1 ++ [EvPrint ("Error: Issue '" +:+ issue_identifier
                           +:+ "' not found")])).
Proof.
  intros Hi Hf. split.
  - intros body. unfold create_comment. unfold bind at 1. rewrite Hi, Hf.
    reflexivity.
  - intros related relation_type Hin. unfold create_issue_relation.
    rewrite bool_decide_eq_true_2 by exact Hin. cbn [negb].
    unfold bind at 1. rewrite Hi, Hf. reflexivity.
Qed.

Lemma missing_issue_stops_before_mutation_witness :
  create_comment (tracker_world no_issue) "lin_api_key" "LUM-7" "hello" []
  = (Raise (SystemExit 1),
     [EvPost LINEAR_API_URL "lin_api_key"
        (Payload ISSUE_BY_IDENTIFIER (Some (PDict [("identifier", PStr "LUM-7")])))]
     ++ [EvPrint "Error: Issue 'LUM-7' not found"]).
Proof.
  apply (proj1 (missing_issue_stops_before_mutation (tracker_world no_issue)
                  "lin_api_key" "LUM-7" PNone []
                  [EvPost LINEAR_API_URL "lin_api_key"
                     (Payload ISSUE_BY_IDENTIFIER
                        (Some (PDict [("identifier", PStr "LUM-7")])))]
                  eq_refl eq_refl)).
Defined.

Lemma find_user_entry (email address : string) (user_id : pyval)
    (rest : list pyval) (l : list event) :
  find_user email (user_entry user_id address :: rest) l
  = (if String.eqb (py_lower address) (py_lower email) then ret user_id
     else find_user email rest) l.
Proof. reflexivity. Qed.

Lemma find_user_skips (email : string) (before users : list pyval)
    (l : list event) :
  Forall (other_user email) before ->
  find_user email (before ++ users) l = find_user email users l.
Proof.
  induction 1 as [|user before (user_id & address & -> & Hne) _ IH];
    [reflexivity|].
  rewrite <- app_comm_cons, find_user_entry.
  apply String.eqb_neq in Hne. rewrite Hne. exact IH.
Qed.

(** X18: [get_user_id] compares addresses without regard to case and
    returns the id of the first user that matches; when no user
    matches it returns [None]. *)
Theorem user_lookup_ignores_case (w : World) (api_key email : string)
    (users : list pyval) (l l1 : list event) :
  query_linear w api_key USERS_QUERY None l
  = (Ret (PDict [("data", PDict [("users", PDict [("nodes", PList users)])])]), l1) ->
  (forall before after user_id address,
     users = before ++ user_entry user_id address :: after ->
     Forall (other_user email) before ->
     py_lower address = py_lower email ->
     get_user_id w api_key email l = (Ret user_id, l1))
  /\ (Forall (other_user email) users ->
      get_user_id w api_key email l = (Ret PNone, l1)).
Proof.
  intros Hq. split.
  - intros before after user_id address -> Hb Ha.
    unfold get_user_id. unfold bind at 1. rewrite Hq.
    cbv [bind dict_get assoc String.eqb Ascii.eqb Bool.eqb from_option id ret
         py_iter].
    rewrite (find_user_skips _ _ _ _ Hb), find_user_entry.
    apply String.eqb_eq in Ha. now rewrite Ha.
  - intros Hall. unfold get_user_id. unfold bind at 1. rewrite Hq.
    cbv [bind dict_get assoc String.eqb Ascii.eqb Bool.eqb from_option id ret
         py_iter].
    rewrite <- (app_nil_r users). now rewrite (find_user_skips _ _ _ _ Hall).
Qed.

Lemma user_lookup_ignores_case_witness :
  get_user_id (tracker_world two_users) "lin_api_key" "BOB@example.COM" []
  = (Ret (PStr "u2"),
     [EvPost LINEAR_API_URL "lin_api_key" (Payload USERS_QUERY None)]).
Proof.
  apply (proj1 (user_lookup_ignores_case (tracker_world two_users) "lin_api_key"
                  "BOB@example.COM"
                  [user_entry (PStr "u1") "ann@example.com";
                   user_entry (PStr "u2") "Bob@Example.com"]
                  [] [EvPost LINEAR_API_URL "lin_api_key" (Payload USERS_QUERY None)]
                  eq_refl)
           [user_entry (PStr "u1") "ann@example.com"] [] (PStr "u2")
           "Bob@Example.com" eq_refl).
  - constructor; [|constructor].
    exists (PStr "u1"), "ann@example.com". split; [reflexivity|].
    vm_compute. discriminate.
  - vm_compute. reflexivity.
Defined.

(** X19: [get_issues_assigned_to] does not stop the process where the
    mutations do: an unknown user gives the empty list after the look-up
    alone (the issues are never asked for), and an answer with GraphQL
    errors gives the empty list after the errors are printed. *)
Theorem assigned_issues_fall_back_to_empty (w : World)
    (api_key assignee_email : string) (limit : Z) (include_completed : bool)
    (assignee_id : pyval) (l l1 : list event) :
  get_user_id w api_key assignee_email l = (Ret assignee_id, l1) ->
  (py_truthy assignee_id = false ->
   get_issues_assigned_to w api_key assignee_email limit include_completed l
   = (Ret (PList []),
      l1 ++ [EvPrint ("Error: User '" +:+ assignee_email +:+ "' not found")]))
  /\ (forall variables entries errors l2,
        py_truthy assignee_id = true ->
        variables
        = PDict [("filter",
                  PDict ([("assignee", PDict [("id", PDict [("eq", assignee_id)])])]
                         ++ (if negb include_completed
                             then [("state",
                                    PDict [("type",
                                            PDict [("neq", PStr "completed")])])]
                             else [])));
                 ("first", PInt limit)] ->
        query_linear w api_key ISSUES_BY_ASSIGNEE (Some variables) l1
        = (Ret (PDict entries), l2) ->
        assoc entries "errors" = Some errors ->
        get_issues_assigned_to w api_key assignee_email limit include_completed l
        = (Ret (PList []),
           l2 ++ [EvPrint "Error fetching issues:";
                  EvPrint (json_dumps w errors)])).
Proof.
  intros Hu. split.
  - intros Hf. unfold get_issues_assigned_to. unfold bind at 1.
    rewrite Hu, Hf. reflexivity.
  - intros variables entries errors l2 Ht -> Hq Ha.
    unfold get_issues_assigned_to. unfold bind at 1. rewrite Hu, Ht.
    cbn [negb]. unfold bind at 1. rewrite Hq.
    unfold bind at 1. cbn [py_in ret]. rewrite Ha.
    rewrite bool_decide_eq_true_2 by (now eexists).
    cbv [bind print emit dict_index ret]. rewrite Ha.
    now rewrite <- app_assoc.
Qed.

Lemma assigned_issues_fall_back_to_empty_witness :
  get_issues_assigned_to (tracker_world two_users) "lin_api_key"
                         "carol@example.com" 20 false []
  = (Ret (PList []),
     [EvPost LINEAR_API_URL "lin_api_key" (Payload USERS_QUERY None)]
     ++ [EvPrint "Error: User 'carol@example.com' not found"])
  /\ exists l2,
       get_issues_assigned_to errors_world "lin_api_key" "ann@example.com" 20 true []
       = (Ret (PList []),
          l2 ++ [EvPrint "Error fetching issues:"; EvPrint "[...]"]).
Proof.
  split; [|eexists;
    apply (proj2 (assigned_issues_fall_back_to_empty errors_world "lin_api_key"
                    "ann@example.com" 20 true (PStr "u1") []
                    [EvPost LINEAR_API_URL "lin_api_key" (Payload USERS_QUERY None)]
                    eq_refl)
             _ [("errors", PList [PDict [("message", PStr "rate limited")]])]
             (PList [PDict [("message", PStr "rate limited")]]) _
             eq_refl eq_refl);
    reflexivity].
  apply (proj1 (assigned_issues_fall_back_to_empty (tracker_world two_users)
                  "lin_api_key" "carol@example.com" 20 false PNone []
                  [EvPost LINEAR_API_URL "lin_api_key" (Payload USERS_QUERY None)]
                  eq_refl)).
  reflexivity.
Defined.

(** X20: [get_team_id] stops the process when the tracker has no team;
    without a team name, and also with the empty name, it returns the
    id of the first team, whatever the teams are called. *)
Theorem default_team_is_first (w : World) (api_key : string)
    (team_name : option string) (teams : list pyval) (l l1 : list event) :
  query_linear w api_key TEAMS_QUERY None l
  = (Ret (PDict [("data", PDict [("teams", PDict [("nodes", PList teams)])])]), l1) ->
  (teams = [] ->
   get_team_id w api_key team_name l
   = (Raise (SystemExit 1), l1 ++ [EvPrint "Error: No teams found"]))
  /\ (forall entries rest team_id,
        teams = PDict entries :: rest ->
        assoc entries "id" = Some team_id ->
        team_name = None \/ team_name = Some "" ->
        get_team_id w api_key team_name l = (Ret team_id, l1)).
Proof.
  intros Hq. split.
  - intros ->. unfold get_team_id. unfold bind at 1. rewrite Hq. reflexivity.
  - intros entries rest team_id -> Ha Hn.
    unfold get_team_id. unfold bind at 1. rewrite Hq.
    destruct Hn as [->| ->]; simpl; unfold bind; simpl; now rewrite Ha.
Qed.

Lemma default_team_is_first_witness :
  get_team_id (tracker_world two_teams) "lin_api_key" (Some "") []
  = (Ret (PStr "t-lum"),
     [EvPost LINEAR_API_URL "lin_api_key" (Payload TEAMS_QUERY None)]).
Proof.
  apply (proj2 (default_team_is_first (tracker_world two_teams) "lin_api_key"
                  (Some "")
                  [PDict [("id", PStr "t-lum"); ("name", PStr "Luminous")];
                   PDict [("id", PStr "t-ops"); ("name", PStr "Ops")]]
                  [] [EvPost LINEAR_API_URL "lin_api_key" (Payload TEAMS_QUERY None)]
                  eq_refl)
           [("id", PStr "t-lum"); ("name", PStr "Luminous")]
           [PDict [("id", PStr "t-ops"); ("name", PStr "Ops")]]
           (PStr "t-lum") eq_refl eq_refl).
  now right.
Defined.
